(** * StoryCrafter MCP: the request transformation and dispatch core

    A shallow embedding of [src/app/api/mcp/route.ts] (the four-tool variant
    without credentials) and of the bearer-token variant of the same route,
    followed by the properties of the specification that concern them.

    Conventions of the embedding.
    - Run-time values are the values [request.json()] can deliver, plus
      [undefined], which appears whenever a property is missing.  Numbers are
      the integers of the safe range, printed in decimal as JavaScript does.
    - A string is a sequence of code units; white space and letter case are
      those of the ASCII range, every other unit is left alone.
    - The fields of an object are listed in the order [Object.keys]
      enumerates them; a property read finds the first binding of the name.
    - A thrown JavaScript exception is the [Throw] branch of [result]. *)

From Stdlib Require Import String Ascii List ZArith Bool DecimalString.
Import ListNotations.

Local Open Scope string_scope.
Local Open Scope Z_scope.

(* ================================================================== *)
(** ** Values *)

#[warnings="-register-all"]
Inductive JsVal : Type :=
| JUndefined
| JNull
| JBool (b : bool)
| JNum (n : Z)
| JStr (s : string)
| JArr (elems : list JsVal)
| JObj (fields : list (string * JsVal)).

(** An HTTP response as axios presents it. *)
Record Response : Type := mkResponse {
  status : Z;
  statusText : string;
  data : JsVal
}.

(** What a [catch] clause can observe of the caught object: [message], and
    the [response] and [request] properties that axios sets on its errors. *)
Record JsError : Type := mkJsError {
  message : string;
  response : option Response;
  request : bool
}.

Definition Error (msg : string) : JsError := mkJsError msg None false.
Definition TypeError (msg : string) : JsError := mkJsError msg None false.

Inductive result (A : Type) : Type :=
| Ok (a : A)
| Throw (e : JsError).
Arguments Ok {A} a.
Arguments Throw {A} e.

Definition rbind {A B} (m : result A) (f : A -> result B) : result B :=
  match m with
  | Ok a => f a
  | Throw e => Throw e
  end.

Declare Scope result_scope.
Delimit Scope result_scope with result.
Notation "x <- m ;; k" := (rbind m (fun x => k))
  (at level 61, m at next level, right associativity) : result_scope.
Local Open Scope result_scope.

(* ================================================================== *)
(** ** Strings *)

Definition LF : string := String (ascii_of_nat 10) "".

Definition natKey (n : nat) : string := NilZero.string_of_uint (Nat.to_uint n).
Definition numberToString (n : Z) : string := NilZero.string_of_int (Z.to_int n).

Definition isWhiteSpace (c : ascii) : bool :=
  let n := nat_of_ascii c in
  ((9 <=? n) && (n <=? 13) || (n =? 32))%nat.

(** [String.prototype.trim], in its two halves. *)
Fixpoint trimStart (s : string) : string :=
  match s with
  | EmptyString => EmptyString
  | String c r => if isWhiteSpace c then trimStart r else s
  end.

Fixpoint trimEnd (s : string) : string :=
  match s with
  | EmptyString => EmptyString
  | String c r =>
      match trimEnd r with
      | EmptyString => if isWhiteSpace c then EmptyString else String c EmptyString
      | r' => String c r'
      end
  end.

Definition trim (s : string) : string := trimEnd (trimStart s).

Definition isLower (c : ascii) : bool :=
  let n := nat_of_ascii c in ((97 <=? n) && (n <=? 122))%nat.
Definition isUpper (c : ascii) : bool :=
  let n := nat_of_ascii c in ((65 <=? n) && (n <=? 90))%nat.
Definition isDigit (c : ascii) : bool :=
  let n := nat_of_ascii c in ((48 <=? n) && (n <=? 57))%nat.
Definition underscore : ascii := "_"%char.
Definition space : ascii := " "%char.

(** The class [\w] of a regular expression without flags. *)
Definition isWordChar (c : ascii) : bool :=
  isLower c || isUpper c || isDigit c || Ascii.eqb c underscore.

(** [c.toUpperCase()] for one ASCII character: a letter of a-z becomes its
    capital, every other character stays. *)
Definition upperChar (c : ascii) : ascii :=
  if isLower c then ascii_of_nat (nat_of_ascii c - 32) else c.

Fixpoint mapString (f : ascii -> ascii) (s : string) : string :=
  match s with
  | EmptyString => EmptyString
  | String c r => String (f c) (mapString f r)
  end.

(** [s.toUpperCase()] on ASCII text, where it works character by
    character.  A unit from 128 up is left as it is: the case mapping of
    letters outside ASCII, which can change the length of a text, is not
    modelled, and what is proved of upper-cased text beyond its place in a
    message is stated for ASCII text. *)
Definition toUpperCase (s : string) : string := mapString upperChar s.

(** [key.replace(/_/g, ' ')] *)
Definition replaceUnderscores (s : string) : string :=
  mapString (fun c => if Ascii.eqb c underscore then space else c) s.

(** [s.replace(/\b\w/g, l => l.toUpperCase())]: a word character is matched
    when the character before it is not a word character (or there is
    none); [prevWord] tells whether the previous character was one. *)
Fixpoint upperAtWordStart (prevWord : bool) (s : string) : string :=
  match s with
  | EmptyString => EmptyString
  | String c r =>
      String (if isWordChar c && negb prevWord then upperChar c else c)
             (upperAtWordStart (isWordChar c) r)
  end.

(** The label of a sub-field of the technical perspective. *)
Definition titleLabel (key : string) : string :=
  upperAtWordStart false (replaceUnderscores key).

(** The label of a milestone. *)
Definition milestoneLabel (key : string) : string :=
  toUpperCase (replaceUnderscores key).

(** [s.includes(sub)] *)
Fixpoint contains (sub s : string) : bool :=
  String.prefix sub s ||
  match s with
  | EmptyString => false
  | String _ r => contains sub r
  end.

(* ================================================================== *)
(** ** The operations of the language that the route relies on *)

(** [!!v] *)
Definition truthy (v : JsVal) : bool :=
  match v with
  | JUndefined | JNull => false
  | JBool b => b
  | JNum n => negb (n =? 0)
  | JStr s => negb (String.eqb s "")
  | JArr _ | JObj _ => true
  end.

(** [a || b] on values already read (reading a property has no effect). *)
Definition jor (a b : JsVal) : JsVal := if truthy a then a else b.

Definition nullish (v : JsVal) : bool :=
  match v with
  | JUndefined | JNull => true
  | _ => false
  end.

(** [v === s] for a string literal [s], as a [case] label compares. *)
Definition strictEq (v : JsVal) (s : string) : bool :=
  match v with
  | JStr t => String.eqb t s
  | _ => false
  end.

(** [typeof v === 'object'] *)
Definition typeofObject (v : JsVal) : bool :=
  match v with
  | JNull | JArr _ | JObj _ => true
  | _ => false
  end.

(** [typeof v === 'string'] *)
Definition typeofString (v : JsVal) : bool :=
  match v with
  | JStr _ => true
  | _ => false
  end.

(** [Array.isArray(v)] *)
Definition isArray (v : JsVal) : bool :=
  match v with
  | JArr _ => true
  | _ => false
  end.

Fixpoint lookup (k : string) (fs : list (string * JsVal)) : JsVal :=
  match fs with
  | [] => JUndefined
  | (k', v) :: rest => if String.eqb k k' then v else lookup k rest
  end.

Fixpoint hasKey (k : string) (fs : list (string * JsVal)) : bool :=
  match fs with
  | [] => false
  | (k', _) :: rest => String.eqb k k' || hasKey k rest
  end.

(** The element of [l] whose index is written [k], if any. *)
Fixpoint atKey {A} (k : string) (i : nat) (l : list A) : option A :=
  match l with
  | [] => None
  | x :: rest => if String.eqb k (natKey i) then Some x else atKey k (S i) rest
  end.

(** [v[k]] and [v?.[k]] for [k] an own property name or a name no prototype
    defines (every name the route reads is one).  On [undefined] and [null]
    the plain read throws: each such site checks [nullish] first. *)
Definition prop (v : JsVal) (k : string) : JsVal :=
  match v with
  | JObj fs => lookup k fs
  | JArr l =>
      if String.eqb k "length" then JNum (Z.of_nat (List.length l))
      else match atKey k 0 l with Some x => x | None => JUndefined end
  | JStr s =>
      if String.eqb k "length" then JNum (Z.of_nat (String.length s))
      else match atKey k 0 (list_ascii_of_string s) with
           | Some c => JStr (String c "")
           | None => JUndefined
           end
  | _ => JUndefined
  end.

(** [Object.keys(v)] for [v] not nullish. *)
Definition objectKeys (v : JsVal) : list string :=
  match v with
  | JObj fs => map fst fs
  | JArr l => map natKey (seq 0 (List.length l))
  | JStr s => map natKey (seq 0 (String.length s))
  | _ => []
  end.

Definition cannotConvert : JsError :=
  TypeError "Cannot convert object to primitive value".

(** [Array.prototype.join] with its default separator, over elements
    already converted. *)
Fixpoint joinComma (parts : list (result string)) : result string :=
  match parts with
  | [] => Ok ""
  | p :: rest =>
      s <- p ;;
      match rest with
      | [] => Ok s
      | _ => r <- joinComma rest ;; Ok (s ++ "," ++ r)
      end
  end.

(** [ToString], the conversion a template literal applies.  An array
    prints its elements joined by commas, [null] and [undefined] as
    nothing.  An object that came out of JSON has no callable [toString] of
    its own: it prints as [[object Object]] through the inherited one,
    unless a property of that name shadows it, and then the conversion
    throws. *)
Fixpoint toStr (v : JsVal) : result string :=
  match v with
  | JUndefined => Ok "undefined"
  | JNull => Ok "null"
  | JBool true => Ok "true"
  | JBool false => Ok "false"
  | JNum n => Ok (numberToString n)
  | JStr s => Ok s
  | JArr l => joinComma (map (fun x => if nullish x then Ok "" else toStr x) l)
  | JObj fs =>
      if hasKey "toString" fs then Throw cannotConvert
      else Ok "[object Object]"
  end.

Definition cannotRead (v : JsVal) (k : string) : JsError :=
  TypeError ("Cannot read properties of "
             ++ match v with JNull => "null" | _ => "undefined" end
             ++ " (reading '" ++ k ++ "')").

(** The loop [xs.forEach(x => acc += f(x))]. *)
Fixpoint forEachAppend {A} (f : A -> result string) (xs : list A) (acc : string)
  : result string :=
  match xs with
  | [] => Ok acc
  | x :: rest => s <- f x ;; forEachAppend f rest (acc ++ s)
  end.

(* ================================================================== *)
(** ** The context transformer ([transformProjectContext]) *)

Record ConsensusMessage : Type := mkMessage {
  role : string;
  content : string
}.

Record Transformed : Type := mkTransformed {
  consensus_messages : list ConsensusMessage;
  project_metadata : JsVal
}.

(** The template of the system message. *)
Definition systemContent (projectSummary : JsVal) : result string :=
  name <- toStr (jor (jor (prop projectSummary "project_name")
                          (prop projectSummary "projectName"))
                     (JStr "Untitled Project")) ;;
  description <- toStr (jor (jor (prop projectSummary "project_description")
                                 (prop projectSummary "projectDescription"))
                            (JStr "")) ;;
  users <- toStr (jor (jor (prop projectSummary "target_users")
                           (prop projectSummary "targetUsers"))
                      (JStr "Not specified")) ;;
  platform <- toStr (jor (prop projectSummary "platform") (JStr "Not specified")) ;;
  timeline <- toStr (jor (prop projectSummary "timeline") (JStr "Not specified")) ;;
  team <- toStr (jor (jor (prop projectSummary "team_size")
                          (prop projectSummary "teamSize"))
                     (JStr "Not specified")) ;;
  Ok ("Project: " ++ name ++ LF ++ LF
      ++ description ++ LF ++ LF
      ++ "Target Users: " ++ users ++ LF
      ++ "Platform: " ++ platform ++ LF
      ++ "Timeline: " ++ timeline ++ LF
      ++ "Team Size: " ++ team).

Definition alexHeader : string :=
  "Product Manager Perspective - MVP Requirements:" ++ LF ++ LF.
Definition blakeHeader : string :=
  "Technical Architect Perspective - Architecture & Stack:" ++ LF ++ LF.
Definition caseyHeader : string :=
  "Project Manager Perspective - Timeline & Execution:" ++ LF ++ LF.

(** The value of [alexContent] when the message is pushed. *)
Definition alexContent (product : JsVal) : result string :=
  let alexContent := alexHeader in
  alexContent <-
    (if truthy (jor (prop product "mvp_features") (prop product "mvpFeatures")) then
       let alexContent := alexContent ++ "MVP Features:" ++ LF in
       let features := jor (prop product "mvp_features") (prop product "mvpFeatures") in
       match features with
       | JArr l =>
           forEachAppend (fun feature => s <- toStr feature ;; Ok ("- " ++ s ++ LF))
                         l alexContent
       | _ => Throw (TypeError "features.forEach is not a function")
       end
     else Ok alexContent) ;;
  alexContent <-
    (if truthy (jor (prop product "target_users") (prop product "targetUsers")) then
       s <- toStr (jor (prop product "target_users") (prop product "targetUsers")) ;;
       Ok (alexContent ++ LF ++ "Target Users: " ++ s)
     else Ok alexContent) ;;
  if truthy (jor (prop product "development_approach")
                 (prop product "developmentApproach")) then
    s <- toStr (jor (prop product "development_approach")
                    (prop product "developmentApproach")) ;;
    Ok (alexContent ++ LF ++ "Development Approach: " ++ s)
  else Ok alexContent.

(** One round of the loop over [Object.keys(tech)]. *)
Definition blakeLine (tech : JsVal) (key : string) : result string :=
  let label := titleLabel key in
  s <- toStr (prop tech key) ;;
  Ok (label ++ ": " ++ s ++ LF).

(** The value of [blakeContent] when the message is pushed. *)
Definition blakeContent (tech : JsVal) : result string :=
  forEachAppend (blakeLine tech) (objectKeys tech) blakeHeader.

(** One round of the loop over [Object.keys(project.milestones)]. *)
Definition milestoneLine (milestones : JsVal) (key : string) : result string :=
  let label := milestoneLabel key in
  s <- toStr (prop milestones key) ;;
  Ok ("- " ++ label ++ ": " ++ s ++ LF).

(** The value of [caseyContent] when the message is pushed. *)
Definition caseyContent (project : JsVal) : result string :=
  let caseyContent := caseyHeader in
  caseyContent <-
    (if truthy (prop project "timeline") then
       s <- toStr (prop project "timeline") ;;
       Ok (caseyContent ++ "Timeline: " ++ s ++ LF)
     else Ok caseyContent) ;;
  caseyContent <-
    (if truthy (prop project "team") then
       s <- toStr (prop project "team") ;;
       Ok (caseyContent ++ "Team Composition: " ++ s ++ LF)
     else Ok caseyContent) ;;
  caseyContent <-
    (if truthy (prop project "milestones") then
       let caseyContent := caseyContent ++ LF ++ "Milestones:" ++ LF in
       forEachAppend (milestoneLine (prop project "milestones"))
                     (objectKeys (prop project "milestones")) caseyContent
     else Ok caseyContent) ;;
  if truthy (prop project "testing") then
    s <- toStr (prop project "testing") ;;
    Ok (caseyContent ++ LF ++ "Testing Strategy: " ++ s)
  else Ok caseyContent.

(** [messages.push({ role, content: text.trim() })] when [section] is
    truthy. *)
Definition pushPerspective (messages : list ConsensusMessage) (r : string)
    (section : JsVal) (text : JsVal -> result string)
  : result (list ConsensusMessage) :=
  if truthy section then
    c <- text section ;; Ok (messages ++ [mkMessage r (trim c)])%list
  else Ok messages.

Definition metadataOf (projectSummary : JsVal) : JsVal :=
  if truthy projectSummary then
    JObj [ ("project_name", jor (prop projectSummary "project_name")
                                (prop projectSummary "projectName"));
           ("project_description", jor (prop projectSummary "project_description")
                                       (prop projectSummary "projectDescription"));
           ("target_users", jor (prop projectSummary "target_users")
                                (prop projectSummary "targetUsers"));
           ("platform", prop projectSummary "platform");
           ("timeline", prop projectSummary "timeline");
           ("team_size", jor (prop projectSummary "team_size")
                             (prop projectSummary "teamSize")) ]
  else JObj [].

Definition transformProjectContext (projectContext : JsVal) : result Transformed :=
  if nullish projectContext then Throw (cannotRead projectContext "project_summary")
  else
    let messages := [] in
    let projectSummary := jor (prop projectContext "project_summary")
                              (prop projectContext "projectSummary") in
    messages <-
      (if truthy projectSummary then
         systemContent <- systemContent projectSummary ;;
         Ok (messages ++ [mkMessage "system" systemContent])%list
       else Ok messages) ;;
    let finalDecisions := jor (prop projectContext "final_decisions")
                              (prop projectContext "finalDecisions") in
    messages <-
      (if truthy finalDecisions then
         messages <- pushPerspective messages "alex"
                       (prop finalDecisions "product") alexContent ;;
         messages <- pushPerspective messages "blake"
                       (prop finalDecisions "technical") blakeContent ;;
         pushPerspective messages "casey"
                       (prop finalDecisions "project") caseyContent
       else Ok messages) ;;
    Ok (mkTransformed messages (metadataOf projectSummary)).

(* ================================================================== *)
(** ** The network, and handlers as computations that record their calls *)

Inductive HttpMethod : Type := HttpGet | HttpPost.

(** One outbound request: [axios.get(url, { timeout })] or
    [axios.post(url, body, { headers, timeout })]. *)
Record Call : Type := mkCall {
  call_method : HttpMethod;
  call_url : string;
  call_body : JsVal;
  call_timeout : Z
}.

(** What the remote side does with a request: it answers, or nothing comes
    back (time-out, refused connection), or the request could not even be
    set up.  The strings are the messages axios puts on its error. *)
Inductive Reply : Type :=
| Replies (r : Response)
| NoReply (msg : string)
| NotSent (msg : string).

Record World : Type := mkWorld {
  env_STORYCRAFTER_SERVICE_URL : option string;
  env_PROJECT_REGISTRY_URL : option string;
  network : Call -> Reply
}.

(** [process.env.X || fallback] *)
Definition envOr (x : option string) (fallback : string) : string :=
  match x with
  | Some s => if String.eqb s "" then fallback else s
  | None => fallback
  end.

Definition STORYCRAFTER_SERVICE_URL (w : World) : string :=
  envOr (env_STORYCRAFTER_SERVICE_URL w) "https://storycrafter-service.vercel.app".

Definition PROJECT_REGISTRY_URL (w : World) : string :=
  envOr (env_PROJECT_REGISTRY_URL w) "https://project-registry-henna.vercel.app".

(** How axios settles a request under its default [validateStatus]: a
    status in the 2xx range resolves, any other answer rejects with an error
    that carries the response. *)
Definition axiosSettle (r : Reply) : result Response :=
  match r with
  | Replies resp =>
      if (200 <=? status resp) && (status resp <? 300) then Ok resp
      else Throw (mkJsError
                    ("Request failed with status code " ++ numberToString (status resp))
                    (Some resp) true)
  | NoReply msg => Throw (mkJsError msg None true)
  | NotSent msg => Throw (mkJsError msg None false)
  end.

(** A computation yields the calls it made, oldest first, and its outcome. *)
Definition Eff (A : Type) : Type := (list Call * result A)%type.

Definition ret {A} (a : A) : Eff A := ([], Ok a).
Definition throw {A} (e : JsError) : Eff A := ([], Throw e).
Definition lift {A} (r : result A) : Eff A := ([], r).

Definition bind {A B} (m : Eff A) (f : A -> Eff B) : Eff B :=
  match m with
  | (calls, Ok a) => let (calls', r) := f a in ((calls ++ calls')%list, r)
  | (calls, Throw e) => (calls, Throw e)
  end.

(** [try { body } catch (error) { handler }] *)
Definition tryCatch {A} (body : Eff A) (handler : JsError -> Eff A) : Eff A :=
  match body with
  | (calls, Throw e) => let (calls', r) := handler e in ((calls ++ calls')%list, r)
  | done => done
  end.

Definition axios (w : World) (c : Call) : Eff Response :=
  ([c], axiosSettle (network w c)).

Declare Scope eff_scope.
Delimit Scope eff_scope with eff.
Notation "x <- m ;; k" := (bind m (fun x => k))
  (at level 61, m at next level, right associativity) : eff_scope.

Definition calls {A} (m : Eff A) : list Call := fst m.
Definition outcome {A} (m : Eff A) : result A := snd m.

(** The text [JSON.stringify(v, null, 2)], kept as the value it prints. *)
Inductive JsonText : Type := JSON_stringify (v : JsVal).

Record ContentItem : Type := mkItem {
  item_type : string;
  item_text : JsonText
}.

(** [{ content: [ { type, text } ] }] *)
Record ToolResult : Type := mkToolResult {
  tool_content : list ContentItem
}.

(** The object literal [{ role, content }]. *)
Definition messageVal (m : ConsensusMessage) : JsVal :=
  JObj [ ("role", JStr (role m)); ("content", JStr (content m)) ].

(** What [JSON.stringify] lets through: a property whose value is
    [undefined] is left out, an [undefined] array element becomes [null]. *)
Fixpoint wire (v : JsVal) : JsVal :=
  match v with
  | JArr l => JArr (map (fun x => match x with JUndefined => JNull | _ => wire x end) l)
  | JObj fs =>
      JObj ((fix go (fs : list (string * JsVal)) : list (string * JsVal) :=
               match fs with
               | [] => []
               | (k, JUndefined) :: rest => go rest
               | (k, x) :: rest => (k, wire x) :: go rest
               end) fs)
  | _ => v
  end.

(** The [catch] clause every handler ends with: what it throws for the
    error it caught. *)
Definition rethrow {A} (w : World) (error : JsError) : result A :=
  match response error with
  | Some r =>
      s <- toStr (jor (prop (data r) "detail") (JStr (statusText r))) ;;
      Throw (Error ("StoryCrafter service error: " ++ s))
  | None =>
      if request error then
        Throw (Error ("StoryCrafter service unavailable: " ++ STORYCRAFTER_SERVICE_URL w))
      else Throw (Error ("Request error: " ++ message error))
  end.

(** [axios.post(`${STORYCRAFTER_SERVICE_URL}${path}`, body, { headers, timeout })] *)
Definition servicePost (w : World) (path : string) (body : JsVal) (timeout : Z) : Call :=
  mkCall HttpPost (STORYCRAFTER_SERVICE_URL w ++ path) body timeout.

Module Route.

(** What the [try] block does with the answer of the service. *)
Definition unwrap (response : Response) (failure field : string) : result ToolResult :=
  if nullish (data response) then Throw (cannotRead (data response) "success")
  else if negb (truthy (prop (data response) "success")) then
    msg <- toStr (jor (prop (data response) "error") (JStr failure)) ;;
    Throw (Error msg)
  else
    Ok (mkToolResult
          [ mkItem "text"
              (JSON_stringify
                 (JObj [ ("success", JBool true);
                         (field, prop (data response) field);
                         ("metadata", prop (data response) "metadata") ])) ]).

(** The [try] block every handler of [route.ts] ends with, and its [catch]:
    the four handlers differ in the path, the body, the time-out, the
    fallback failure text and the field of the answer they return. *)
Definition callService (w : World) (path : string) (body : JsVal) (timeout : Z)
    (failure field : string) : Eff ToolResult :=
  tryCatch
    (response <- axios w (servicePost w path body timeout) ;;
     lift (unwrap response failure field))%eff
    (fun error => lift (rethrow w error)).

Definition contextInvalid (project_context : JsVal) : bool :=
  negb (truthy project_context) || negb (typeofObject project_context).

Definition handleGenerateEpics (w : World) (args : JsVal) : Eff ToolResult :=
  let project_context := prop args "project_context" in
  if contextInvalid project_context then
    throw (Error "project_context is required and must be an object")
  else if negb (truthy (prop project_context "project_summary"))
          || negb (truthy (prop project_context "final_decisions")) then
    throw (Error "project_context must include project_summary and final_decisions")
  else
    (t <- lift (transformProjectContext project_context) ;;
     callService w "/generate-epics"
       (JObj [ ("consensus_messages", JArr (map messageVal (consensus_messages t)));
               ("project_metadata", project_metadata t) ])
       60000 "Epic generation failed" "epics")%eff.

Definition handleGenerateStories (w : World) (args : JsVal) : Eff ToolResult :=
  let project_context := prop args "project_context" in
  let epics := prop args "epics" in
  if contextInvalid project_context then
    throw (Error "project_context is required and must be an object")
  else if negb (truthy epics) || negb (isArray epics) then
    throw (Error "epics is required and must be an array")
  else
    (t <- lift (transformProjectContext project_context) ;;
     callService w "/generate-stories"
       (JObj [ ("epic", prop epics "0");
               ("consensus_messages", JArr (map messageVal (consensus_messages t)));
               ("project_metadata", project_metadata t) ])
       600000 "Story generation failed" "stories")%eff.

Definition handleRegenerateEpic (w : World) (args : JsVal) : Eff ToolResult :=
  let project_context := prop args "project_context" in
  let epic := prop args "epic" in
  let user_feedback := prop args "user_feedback" in
  if contextInvalid project_context then
    throw (Error "project_context is required and must be an object")
  else if negb (truthy epic) || negb (typeofObject epic) then
    throw (Error "epic is required and must be an object")
  else if negb (truthy user_feedback) || negb (typeofString user_feedback) then
    throw (Error "user_feedback is required and must be a string")
  else
    (t <- lift (transformProjectContext project_context) ;;
     callService w "/regenerate-epic"
       (JObj [ ("epic", epic);
               ("user_feedback", user_feedback);
               ("consensus_messages", JArr (map messageVal (consensus_messages t)));
               ("project_metadata", project_metadata t) ])
       60000 "Epic regeneration failed" "epic")%eff.

Definition handleRegenerateStory (w : World) (args : JsVal) : Eff ToolResult :=
  let project_context := prop args "project_context" in
  let epic := prop args "epic" in
  let story := prop args "story" in
  let user_feedback := prop args "user_feedback" in
  if contextInvalid project_context then
    throw (Error "project_context is required and must be an object")
  else if negb (truthy epic) || negb (typeofObject epic) then
    throw (Error "epic is required and must be an object")
  else if negb (truthy story) || negb (typeofObject story) then
    throw (Error "story is required and must be an object")
  else if negb (truthy user_feedback) || negb (typeofString user_feedback) then
    throw (Error "user_feedback is required and must be a string")
  else
    (t <- lift (transformProjectContext project_context) ;;
     callService w "/regenerate-story"
       (JObj [ ("epic", epic);
               ("story", story);
               ("user_feedback", user_feedback);
               ("consensus_messages", JArr (map messageVal (consensus_messages t)));
               ("project_metadata", project_metadata t) ])
       180000 "Story regeneration failed" "story")%eff.

(** The names of [MCP_TOOLS]; the descriptions and input schemas are
    constant prose that no operation reads. *)
Definition MCP_TOOLS : list string :=
  [ "generate_epics"; "generate_stories"; "regenerate_epic"; "regenerate_story" ].

Record NextRequest : Type := mkRequest {
  request_json : result JsVal
}.

Inductive ResponseBody : Type :=
| ToolsBody (tools : list string)
| ResultBody (r : ToolResult)
| ErrorBody (code : Z) (msg : string).

(** [NextResponse.json(body, { status })]; the status is 200 when none is
    given. *)
Record NextResponse : Type := mkNextResponse {
  response_status : Z;
  response_body : ResponseBody
}.

Definition json (body : ResponseBody) : NextResponse := mkNextResponse 200 body.

Definition POST (w : World) (request : NextRequest) : Eff NextResponse :=
  tryCatch
    (body <- lift (request_json request) ;;
     if nullish body then throw (cannotRead body "method")
     else if strictEq (prop body "method") "tools/list" then
       ret (json (ToolsBody MCP_TOOLS))
     else if strictEq (prop body "method") "tools/call" then
       let toolName := prop (prop body "params") "tool" in
       let args := jor (prop (prop body "params") "arguments") (JObj []) in
       if strictEq toolName "generate_epics" then
         result <- handleGenerateEpics w args ;; ret (json (ResultBody result))
       else if strictEq toolName "generate_stories" then
         result <- handleGenerateStories w args ;; ret (json (ResultBody result))
       else if strictEq toolName "regenerate_epic" then
         result <- handleRegenerateEpic w args ;; ret (json (ResultBody result))
       else if strictEq toolName "regenerate_story" then
         result <- handleRegenerateStory w args ;; ret (json (ResultBody result))
       else
         name <- lift (toStr toolName) ;;
         ret (mkNextResponse 400 (ErrorBody (-32601) ("Unknown tool: " ++ name)))
     else
       method <- lift (toStr (prop body "method")) ;;
       ret (mkNextResponse 400 (ErrorBody (-32601) ("Method not found: " ++ method))))%eff
    (fun error =>
       ret (mkNextResponse 500
              (ErrorBody (-32603)
                 (if String.eqb (message error) "" then "Internal error"
                  else message error)))).

(** The health check: the body of [GET], answered with status 200. *)
Definition GET (w : World) : JsVal :=
  JObj [ ("name", JStr "StoryCrafter MCP");
         ("version", JStr "1.0.0");
         ("description", JStr "AI-powered backlog generator for VISHKAR consensus");
         ("tools", JArr (map JStr MCP_TOOLS));
         ("service_url", JStr (STORYCRAFTER_SERVICE_URL w));
         ("status", JStr "healthy") ].


End Route.

(* ================================================================== *)
(** ** The bearer-token variant of the route *)

Module Bearer.

(** [keyof AIProviderConfig['preferences']] *)
Inductive Task : Type :=
| epicGeneration
| storyGeneration
| agentConversations
| projectDescription
| contextLoading.

Definition taskKey (t : Task) : string :=
  match t with
  | epicGeneration => "epicGeneration"
  | storyGeneration => "storyGeneration"
  | agentConversations => "agentConversations"
  | projectDescription => "projectDescription"
  | contextLoading => "contextLoading"
  end.

(** The record [getAIProviderForTask] returns. *)
Record AIProvider : Type := mkAIProvider {
  provider : JsVal;
  model : JsVal;
  apiKey : JsVal
}.

Definition defaultPreference : JsVal :=
  JObj [ ("provider", JStr "anthropic"); ("model", JStr "claude-sonnet-4.5") ].

(** The [switch] over [preference.provider]. *)
Definition keyFor (aiConfig : JsVal) (providerName : JsVal) : JsVal :=
  if strictEq providerName "anthropic" then prop aiConfig "anthropicApiKey"
  else if strictEq providerName "openai" then prop aiConfig "openaiApiKey"
  else if strictEq providerName "openrouter" then prop aiConfig "openrouterApiKey"
  else JUndefined.

Definition getAIProviderForTask (config : JsVal) (task : Task) : result AIProvider :=
  if nullish config then Throw (cannotRead config "configs")
  else if nullish (prop config "configs") then
    Throw (cannotRead (prop config "configs") "aiProvider")
  else
    let aiConfig := prop (prop config "configs") "aiProvider" in
    if negb (truthy aiConfig) then
      Throw (Error "AI provider configuration not found in project config")
    else if nullish (prop aiConfig "preferences") then
      Throw (cannotRead (prop aiConfig "preferences") (taskKey task))
    else
      let preference := jor (prop (prop aiConfig "preferences") (taskKey task))
                            defaultPreference in
      let apiKey := keyFor aiConfig (prop preference "provider") in
      if negb (truthy apiKey) then
        name <- toStr (prop preference "provider") ;;
        Throw (Error ("API key not found for provider: " ++ name))
      else
        Ok (mkAIProvider (prop preference "provider") (prop preference "model") apiKey).

(** The registry client.  The two reads that only feed the log are kept
    because they can throw: [response.data.projectId] inside a template. *)
Definition getProjectConfig (w : World) (bearerToken : string) : Eff JsVal :=
  tryCatch
    (response <- axios w (mkCall HttpGet
                            (PROJECT_REGISTRY_URL w ++ "/api/projects/" ++ bearerToken)
                            JUndefined 10000) ;;
     _ <- lift (if nullish (data response) then
                  Throw (cannotRead (data response) "projectId")
                else toStr (prop (data response) "projectId")) ;;
     if negb (truthy (data response)) then
       throw (Error "No configuration found for API key")
     else ret (data response))%eff
    (fun error =>
       match response error with
       | Some r =>
           if status r =? 404 then
             throw (Error "Project not found for this API key. Please register the project in VISHKAR settings.")
           else throw (Error ("Failed to fetch project config: " ++ message error))
       | None => throw (Error ("Failed to fetch project config: " ++ message error))
       end).

(** The own enumerable properties an object spread copies. *)
Definition entries (v : JsVal) : list (string * JsVal) :=
  map (fun k => (k, prop v k)) (objectKeys v).

(** Writing a property: in place when the name is there, at the end when
    it is not. *)
Fixpoint setField (k : string) (x : JsVal) (fs : list (string * JsVal))
  : list (string * JsVal) :=
  match fs with
  | [] => [(k, x)]
  | (k', y) :: rest =>
      if String.eqb k k' then (k, x) :: rest else (k', y) :: setField k x rest
  end.

Definition unwrap (response : Response) (aiConfig : AIProvider)
    (failure field : string) : result ToolResult :=
  if nullish (data response) then Throw (cannotRead (data response) "success")
  else if negb (truthy (prop (data response) "success")) then
    msg <- toStr (jor (prop (data response) "error") (JStr failure)) ;;
    Throw (Error msg)
  else
    p <- toStr (provider aiConfig) ;;
    m <- toStr (model aiConfig) ;;
    Ok (mkToolResult
          [ mkItem "text"
              (JSON_stringify
                 (JObj [ ("success", JBool true);
                         (field, prop (data response) field);
                         ("metadata",
                          JObj (setField "ai_provider_used" (JStr (p ++ "/" ++ m))
                                  (entries (prop (data response) "metadata")))) ])) ]).

Definition callService (w : World) (path : string) (body : JsVal) (timeout : Z)
    (aiConfig : AIProvider) (failure field : string) : Eff ToolResult :=
  tryCatch
    (response <- axios w (servicePost w path body timeout) ;;
     lift (unwrap response aiConfig failure field))%eff
    (fun error => lift (rethrow w error)).

(** The object literal [{ provider, model, api_key }]. *)
Definition aiProviderVal (aiConfig : AIProvider) : JsVal :=
  JObj [ ("provider", provider aiConfig);
         ("model", model aiConfig);
         ("api_key", apiKey aiConfig) ].

(** The line a handler logs before it transforms: three values meet a
    template literal.  [projectConfig] is truthy here. *)
Definition logLine (tag : string) (aiConfig : AIProvider) (projectConfig : JsVal)
  : result string :=
  p <- toStr (provider aiConfig) ;;
  m <- toStr (model aiConfig) ;;
  i <- toStr (prop projectConfig "projectId") ;;
  Ok ("[" ++ tag ++ "] Using " ++ p ++ " " ++ m ++ " for project " ++ i).

Definition handleGenerateStories (w : World) (args : JsVal) (bearerToken : string)
  : Eff ToolResult :=
  let project_context := prop args "project_context" in
  let epics := prop args "epics" in
  if Route.contextInvalid project_context then
    throw (Error "project_context is required and must be an object")
  else if negb (truthy epics) || negb (isArray epics) then
    throw (Error "epics is required and must be an array")
  else
    (projectConfig <- getProjectConfig w bearerToken ;;
     aiConfig <- lift (getAIProviderForTask projectConfig storyGeneration) ;;
     _ <- lift (logLine "Story Generation" aiConfig projectConfig) ;;
     t <- lift (transformProjectContext project_context) ;;
     callService w "/generate-stories"
       (JObj [ ("epic", prop epics "0");
               ("consensus_messages", JArr (map messageVal (consensus_messages t)));
               ("project_metadata", project_metadata t);
               ("ai_provider", aiProviderVal aiConfig) ])
       600000 aiConfig "Story generation failed" "stories")%eff.

Definition handleGenerateEpics (w : World) (args : JsVal) (bearerToken : string)
  : Eff ToolResult :=
  let project_context := prop args "project_context" in
  if Route.contextInvalid project_context then
    throw (Error "project_context is required and must be an object")
  else if negb (truthy (prop project_context "project_summary"))
          || negb (truthy (prop project_context "final_decisions")) then
    throw (Error "project_context must include project_summary and final_decisions")
  else
    (projectConfig <- getProjectConfig w bearerToken ;;
     aiConfig <- lift (getAIProviderForTask projectConfig epicGeneration) ;;
     _ <- lift (logLine "Epic Generation" aiConfig projectConfig) ;;
     t <- lift (transformProjectContext project_context) ;;
     callService w "/generate-epics"
       (JObj [ ("consensus_messages", JArr (map messageVal (consensus_messages t)));
               ("project_metadata", project_metadata t);
               ("ai_provider", aiProviderVal aiConfig) ])
       60000 aiConfig "Epic generation failed" "epics")%eff.

Definition handleRegenerateEpic (w : World) (args : JsVal) (bearerToken : string)
  : Eff ToolResult :=
  let project_context := prop args "project_context" in
  let epic := prop args "epic" in
  let user_feedback := prop args "user_feedback" in
  if Route.contextInvalid project_context then
    throw (Error "project_context is required and must be an object")
  else if negb (truthy epic) || negb (typeofObject epic) then
    throw (Error "epic is required and must be an object")
  else if negb (truthy user_feedback) || negb (typeofString user_feedback) then
    throw (Error "user_feedback is required and must be a string")
  else
    (projectConfig <- getProjectConfig w bearerToken ;;
     aiConfig <- lift (getAIProviderForTask projectConfig epicGeneration) ;;
     _ <- lift (logLine "Epic Regeneration" aiConfig projectConfig) ;;
     t <- lift (transformProjectContext project_context) ;;
     callService w "/regenerate-epic"
       (JObj [ ("epic", epic);
               ("user_feedback", user_feedback);
               ("consensus_messages", JArr (map messageVal (consensus_messages t)));
               ("project_metadata", project_metadata t);
               ("ai_provider", aiProviderVal aiConfig) ])
       60000 aiConfig "Epic regeneration failed" "epic")%eff.

Definition handleRegenerateStory (w : World) (args : JsVal) (bearerToken : string)
  : Eff ToolResult :=
  let project_context := prop args "project_context" in
  let epic := prop args "epic" in
  let story := prop args "story" in
  let user_feedback := prop args "user_feedback" in
  if Route.contextInvalid project_context then
    throw (Error "project_context is required and must be an object")
  else if negb (truthy epic) || negb (typeofObject epic) then
    throw (Error "epic is required and must be an object")
  else if negb (truthy story) || negb (typeofObject story) then
    throw (Error "story is required and must be an object")
  else if negb (truthy user_feedback) || negb (typeofString user_feedback) then
    throw (Error "user_feedback is required and must be a string")
  else
    (projectConfig <- getProjectConfig w bearerToken ;;
     aiConfig <- lift (getAIProviderForTask projectConfig storyGeneration) ;;
     _ <- lift (logLine "Story Regeneration" aiConfig projectConfig) ;;
     t <- lift (transformProjectContext project_context) ;;
     callService w "/regenerate-story"
       (JObj [ ("epic", epic);
               ("story", story);
               ("user_feedback", user_feedback);
               ("consensus_messages", JArr (map messageVal (consensus_messages t)));
               ("project_metadata", project_metadata t);
               ("ai_provider", aiProviderVal aiConfig) ])
       180000 aiConfig "Story regeneration failed" "story")%eff.

Fixpoint dropChars (n : nat) (s : string) : string :=
  match n, s with
  | O, _ => s
  | S n', String _ r => dropChars n' r
  | S _, EmptyString => EmptyString
  end.

(** [s.replace(pattern, '')] for a string pattern: the first occurrence
    goes, the rest stays. *)
Fixpoint removeFirst (pattern s : string) : string :=
  if String.prefix pattern s then dropChars (String.length pattern) s
  else match s with
       | EmptyString => EmptyString
       | String c r => String c (removeFirst pattern r)
       end.

(** [(request.headers.get('Authorization') || '').replace('Bearer ', '').trim()] *)
Definition bearerTokenOf (authorization : option string) : string :=
  let authHeader := match authorization with
                    | Some h => h
                    | None => ""
                    end in
  trim (removeFirst "Bearer " authHeader).

(** A request with the one header the route reads. *)
Record NextRequest : Type := mkRequest {
  request_json : result JsVal;
  header_Authorization : option string
}.

Definition POST (w : World) (request : NextRequest) : Eff Route.NextResponse :=
  tryCatch
    (body <- lift (request_json request) ;;
     if nullish body then throw (cannotRead body "method")
     else if strictEq (prop body "method") "tools/list" then
       ret (Route.json (Route.ToolsBody Route.MCP_TOOLS))
     else if strictEq (prop body "method") "tools/call" then
       let bearerToken := bearerTokenOf (header_Authorization request) in
       if String.eqb bearerToken "" then
         ret (Route.mkNextResponse 401
                (Route.ErrorBody (-32600)
                   "Missing Authorization header. Please provide Bearer token (Prometheus API Key)."))
       else
         let toolName := prop (prop body "params") "tool" in
         let args := jor (prop (prop body "params") "arguments") (JObj []) in
         if strictEq toolName "generate_epics" then
           result <- handleGenerateEpics w args bearerToken ;;
           ret (Route.json (Route.ResultBody result))
         else if strictEq toolName "generate_stories" then
           result <- handleGenerateStories w args bearerToken ;;
           ret (Route.json (Route.ResultBody result))
         else if strictEq toolName "regenerate_epic" then
           result <- handleRegenerateEpic w args bearerToken ;;
           ret (Route.json (Route.ResultBody result))
         else if strictEq toolName "regenerate_story" then
           result <- handleRegenerateStory w args bearerToken ;;
           ret (Route.json (Route.ResultBody result))
         else
           name <- lift (toStr toolName) ;;
           ret (Route.mkNextResponse 400
                  (Route.ErrorBody (-32601) ("Unknown tool: " ++ name)))
     else
       method <- lift (toStr (prop body "method")) ;;
       ret (Route.mkNextResponse 400
              (Route.ErrorBody (-32601) ("Method not found: " ++ method))))%eff
    (fun error =>
       ret (Route.mkNextResponse 500
              (Route.ErrorBody (-32603)
                 (if String.eqb (message error) "" then "Internal error"
                  else message error)))).


End Bearer.

(* ================================================================== *)
(** ** Vocabulary of the properties *)

(** *** Handlers and their failures *)

(** The four operations of the route. *)
Inductive Tool : Type :=
| GenerateEpics
| GenerateStories
| RegenerateEpic
| RegenerateStory.

Definition handlerOf (tool : Tool) : World -> JsVal -> Eff ToolResult :=
  match tool with
  | GenerateEpics => Route.handleGenerateEpics
  | GenerateStories => Route.handleGenerateStories
  | RegenerateEpic => Route.handleRegenerateEpic
  | RegenerateStory => Route.handleRegenerateStory
  end.

Definition failureOf (tool : Tool) : string :=
  match tool with
  | GenerateEpics => "Epic generation failed"
  | GenerateStories => "Story generation failed"
  | RegenerateEpic => "Epic regeneration failed"
  | RegenerateStory => "Story regeneration failed"
  end.

Definition fieldOf (tool : Tool) : string :=
  match tool with
  | GenerateEpics => "epics"
  | GenerateStories => "stories"
  | RegenerateEpic => "epic"
  | RegenerateStory => "story"
  end.

(** [true] for the statuses axios resolves on. *)
Definition is2xx (r : Response) : bool := (200 <=? status r) && (status r <? 300).

(** What a handler of [route.ts] does once its request is built: the one
    call, and the outcome read off the reply. *)
Definition settled (w : World) (c : Call) (failure field : string) : result ToolResult :=
  match axiosSettle (network w c) with
  | Ok r =>
      match Route.unwrap r failure field with
      | Ok x => Ok x
      | Throw e => rethrow w e
      end
  | Throw e => rethrow w e
  end.

(** [axios.get(`${PROJECT_REGISTRY_URL}/api/projects/${bearerToken}`, { timeout })] *)
Definition registryGet (w : World) (bearerToken : string) : Call :=
  mkCall HttpGet (PROJECT_REGISTRY_URL w ++ "/api/projects/" ++ bearerToken)
         JUndefined 10000.

Definition contextMessage : string :=
  "project_context is required and must be an object".

Definition epicsMessage : string := "epics is required and must be an array".

(** [true] when the value is the name of one of the four tools. *)
Definition knownTool (toolName : JsVal) : bool :=
  existsb (strictEq toolName) Route.MCP_TOOLS.

(** [{ method: "tools/call", params: { tool, arguments } }] *)
Definition toolsCall (toolName arguments : JsVal) : Route.NextRequest :=
  Route.mkRequest
    (Ok (JObj [ ("method", JStr "tools/call");
                ("params", JObj [ ("tool", toolName); ("arguments", arguments) ]) ])).

(** The envelope of the outermost [catch]. *)
Definition internalError (error : JsError) : Route.NextResponse :=
  Route.mkNextResponse 500
    (Route.ErrorBody (-32603)
       (if String.eqb (message error) "" then "Internal error" else message error)).

(** A backend that answers every request with the same response. *)
Definition answering (r : Response) : World := mkWorld None None (fun _ => Replies r).

(** *** Sections of a context *)

(** [projectContext.project_summary || projectContext.projectSummary] *)
Definition summaryOf (projectContext : JsVal) : JsVal :=
  jor (prop projectContext "project_summary") (prop projectContext "projectSummary").

(** [projectContext.final_decisions || projectContext.finalDecisions] *)
Definition decisionsOf (projectContext : JsVal) : JsVal :=
  jor (prop projectContext "final_decisions") (prop projectContext "finalDecisions").

(** The perspective [k] of a context, [undefined] when there are no
    decisions to look into. *)
Definition perspective (projectContext : JsVal) (k : string) : JsVal :=
  if truthy (decisionsOf projectContext) then prop (decisionsOf projectContext) k
  else JUndefined.

(** The message a section gives: none when the section is absent (not
    there, [null], or falsy in some other way), one otherwise. *)
Definition sectionMessage (section : JsVal) (r : string) (text : result string)
    (finish : string -> string) (ms : list ConsensusMessage) : Prop :=
  if truthy section then exists c, text = Ok c /\ ms = [mkMessage r (finish c)]
  else ms = [].

Definition hasRole (r : string) (m : ConsensusMessage) : bool := String.eqb (role m) r.

(** The roles the specification orders: system, product, technical,
    project, each only when its section is there. *)
Definition expectedRoles (projectContext : JsVal) : list string :=
  ((if truthy (summaryOf projectContext) then ["system"] else [])
   ++ (if truthy (perspective projectContext "product") then ["alex"] else [])
   ++ (if truthy (perspective projectContext "technical") then ["blake"] else [])
   ++ (if truthy (perspective projectContext "project") then ["casey"] else []))%list.

(** The transformer written section by section. *)
Definition bySections (pc : JsVal) : result Transformed :=
  sys <- (if truthy (summaryOf pc) then
            c <- systemContent (summaryOf pc) ;; Ok [mkMessage "system" c]
          else Ok []) ;;
  m1 <- pushPerspective sys "alex" (perspective pc "product") alexContent ;;
  m2 <- pushPerspective m1 "blake" (perspective pc "technical") blakeContent ;;
  m3 <- pushPerspective m2 "casey" (perspective pc "project") caseyContent ;;
  Ok (mkTransformed m3 (metadataOf (summaryOf pc))).

(** No object anywhere inside has a property named [toString]. *)
Fixpoint plain (v : JsVal) : bool :=
  match v with
  | JArr l => forallb plain l
  | JObj fs => negb (hasKey "toString" fs) && forallb (fun kv => plain (snd kv)) fs
  | _ => true
  end.

(** The feature list of the product perspective, when there is one, is
    an array. *)
Definition featuresListed (projectContext : JsVal) : bool :=
  let product := perspective projectContext "product" in
  let features := jor (prop product "mvp_features") (prop product "mvpFeatures") in
  negb (truthy features) || isArray features.

(** A context the transformer accepts: an object or array, plain, with
    its features listed. *)
Definition wellFormed (projectContext : JsVal) : bool :=
  negb (nullish projectContext) && plain projectContext && featuresListed projectContext.

(** *** Labels and texts *)

Definition isAlnum (c : ascii) : bool := isLower c || isUpper c || isDigit c.

(** The label as the specification words it, in one pass: an underscore
    becomes a space, and the first character of each word (a run of letters
    and digits) is put in upper case.  [wordStart] tells whether a word
    would start here. *)
Fixpoint titleCase (wordStart : bool) (s : string) : string :=
  match s with
  | EmptyString => EmptyString
  | String c r =>
      if Ascii.eqb c underscore then String space (titleCase true r)
      else if isAlnum c then
        String (if wordStart then upperChar c else c) (titleCase false r)
      else String c (titleCase true r)
  end.

Definition concatLines (lines : list string) : string :=
  fold_right append "" lines.

Fixpoint allWhite (s : string) : bool :=
  match s with
  | EmptyString => true
  | String c r => isWhiteSpace c && allWhite r
  end.

(** [sub] occurs in some message or in the text of some metadata value. *)
Definition appears (sub : string) (t : Transformed) : bool :=
  existsb (fun m => contains sub (content m)) (consensus_messages t)
  || existsb (fun k => match toStr (prop (project_metadata t) k) with
                       | Ok x => contains sub x
                       | Throw _ => false
                       end)
             (objectKeys (project_metadata t)).

(** The decisions of the product perspective that the transformer reads
    have their lines in [text]: each feature, the target users and the
    development approach, when they are truthy. *)
Definition productShown (product : JsVal) (text : string) : Prop :=
  (truthy (jor (prop product "mvp_features") (prop product "mvpFeatures")) = true ->
   exists l,
     jor (prop product "mvp_features") (prop product "mvpFeatures") = JArr l
     /\ forall x, In x l ->
          exists s, toStr x = Ok s /\ contains ("- " ++ s ++ LF) text = true)
  /\ (truthy (jor (prop product "target_users") (prop product "targetUsers")) = true ->
      exists s,
        toStr (jor (prop product "target_users") (prop product "targetUsers")) = Ok s
        /\ contains (LF ++ "Target Users: " ++ s) text = true)
  /\ (truthy (jor (prop product "development_approach")
                  (prop product "developmentApproach")) = true ->
      exists s,
        toStr (jor (prop product "development_approach")
                   (prop product "developmentApproach")) = Ok s
        /\ contains (LF ++ "Development Approach: " ++ s) text = true).

(** The decisions of the project perspective that the transformer reads
    have their lines in [text]: the timeline, the team, each milestone and
    the testing strategy, when they are truthy. *)
Definition projectShown (project : JsVal) (text : string) : Prop :=
  (truthy (prop project "timeline") = true ->
   exists s, toStr (prop project "timeline") = Ok s
             /\ contains ("Timeline: " ++ s ++ LF) text = true)
  /\ (truthy (prop project "team") = true ->
      exists s, toStr (prop project "team") = Ok s
                /\ contains ("Team Composition: " ++ s ++ LF) text = true)
  /\ (truthy (prop project "milestones") = true ->
      forall key, In key (objectKeys (prop project "milestones")) ->
        exists s, toStr (prop (prop project "milestones") key) = Ok s
                  /\ contains ("- " ++ milestoneLabel key ++ ": " ++ s ++ LF) text = true)
  /\ (truthy (prop project "testing") = true ->
      exists s, toStr (prop project "testing") = Ok s
                /\ contains (LF ++ "Testing Strategy: " ++ s) text = true).

(** *** The fields that are read *)

(** The properties the transformer reads of a summary, of the product
    perspective and of the project perspective. *)
Definition summaryFields : list string :=
  [ "project_name"; "projectName"; "project_description"; "projectDescription";
    "target_users"; "targetUsers"; "platform"; "timeline"; "team_size"; "teamSize" ].

Definition productFields : list string :=
  [ "mvp_features"; "mvpFeatures"; "target_users"; "targetUsers";
    "development_approach"; "developmentApproach" ].

Definition projectFields : list string :=
  [ "timeline"; "team"; "milestones"; "testing" ].

(** Two sections that the transformer cannot tell apart through the
    properties [names]. *)
Definition sameOn (names : list string) (a b : JsVal) : Prop :=
  truthy a = truthy b /\ forall k, In k names -> prop a k = prop b k.

(** The fields of a summary that have two spellings. *)
Inductive SummaryField : Type :=
| ProjectName
| ProjectDescription
| TargetUsers
| TeamSize.

Definition snakeKey (f : SummaryField) : string :=
  match f with
  | ProjectName => "project_name"
  | ProjectDescription => "project_description"
  | TargetUsers => "target_users"
  | TeamSize => "team_size"
  end.

Definition camelKey (f : SummaryField) : string :=
  match f with
  | ProjectName => "projectName"
  | ProjectDescription => "projectDescription"
  | TargetUsers => "targetUsers"
  | TeamSize => "teamSize"
  end.

(** The text the template falls back on. *)
Definition fallbackText (f : SummaryField) : string :=
  match f with
  | ProjectName => "Untitled Project"
  | ProjectDescription => ""
  | TargetUsers => "Not specified"
  | TeamSize => "Not specified"
  end.

(** The value the metadata takes for a field: the snake_case one when it
    is truthy, the camelCase one otherwise. *)
Definition preferred (ps : JsVal) (f : SummaryField) : JsVal :=
  if truthy (prop ps (snakeKey f)) then prop ps (snakeKey f)
  else prop ps (camelKey f).

(** The value the template prints for a field: the preferred one when it
    is truthy, the fallback text otherwise. *)
Definition printed (ps : JsVal) (f : SummaryField) : JsVal :=
  if truthy (preferred ps f) then preferred ps f else JStr (fallbackText f).

Definition systemTemplate (name description users platform timeline team : string)
  : string :=
  "Project: " ++ name ++ LF ++ LF
  ++ description ++ LF ++ LF
  ++ "Target Users: " ++ users ++ LF
  ++ "Platform: " ++ platform ++ LF
  ++ "Timeline: " ++ timeline ++ LF
  ++ "Team Size: " ++ team.

(** *** The credential resolver *)

(** The providers of [AIProviderPreference]. *)
Inductive ProviderName : Type :=
| anthropic
| openai
| openrouter.

Definition providerText (p : ProviderName) : string :=
  match p with
  | anthropic => "anthropic"
  | openai => "openai"
  | openrouter => "openrouter"
  end.

(** The field of [AIProviderConfig] that holds the key of a provider. *)
Definition keyField (p : ProviderName) : string :=
  match p with
  | anthropic => "anthropicApiKey"
  | openai => "openaiApiKey"
  | openrouter => "openrouterApiKey"
  end.

(** The preference the resolver goes by: the one of the task when it is
    set, the default pair otherwise. *)
Definition selectedPreference (aiConfig : JsVal) (task : Bearer.Task) : JsVal :=
  if truthy (prop (prop aiConfig "preferences") (Bearer.taskKey task)) then
    prop (prop aiConfig "preferences") (Bearer.taskKey task)
  else Bearer.defaultPreference.

(** *** Sample contexts, requests and backends *)

(** The request of the end-to-end example. *)
Definition taskmaster_context : JsVal :=
  JObj [ ("project_summary",
          JObj [ ("project_name", JStr "TaskMaster"); ("platform", JStr "Web") ]);
         ("final_decisions",
          JObj [ ("technical", JObj [ ("frontend", JStr "React") ]) ]) ].

Definition taskmaster_args : JsVal := JObj [ ("project_context", taskmaster_context) ].

Definition taskmaster_system : string :=
  "Project: TaskMaster" ++ LF ++ LF ++ LF ++ LF
  ++ "Target Users: Not specified" ++ LF
  ++ "Platform: Web" ++ LF
  ++ "Timeline: Not specified" ++ LF
  ++ "Team Size: Not specified".

Definition taskmaster_blake : string :=
  "Technical Architect Perspective - Architecture & Stack:" ++ LF ++ LF
  ++ "Frontend: React".

(** The metadata object the transformer leaves in memory: the four fields
    the summary does not have are set to [undefined]. *)
Definition taskmaster_metadata : JsVal :=
  JObj [ ("project_name", JStr "TaskMaster");
         ("project_description", JUndefined);
         ("target_users", JUndefined);
         ("platform", JStr "Web");
         ("timeline", JUndefined);
         ("team_size", JUndefined) ].

(** The payload the example expects on the wire. *)
Definition taskmaster_payload : JsVal :=
  JObj [ ("consensus_messages",
          JArr [ JObj [ ("role", JStr "system"); ("content", JStr taskmaster_system) ];
                 JObj [ ("role", JStr "blake"); ("content", JStr taskmaster_blake) ] ]);
         ("project_metadata",
          JObj [ ("project_name", JStr "TaskMaster"); ("platform", JStr "Web") ]) ].

(** A backend that never answers. *)
Definition silentWorld : World :=
  mkWorld None None (fun _ => NoReply "timeout of 600000ms exceeded").

(** The stub of the error-classification scenario. *)
Definition boomResponse : Response :=
  mkResponse 500 "Internal Server Error"
             (JObj [ ("success", JBool false); ("error", JStr "boom") ]).

(** The same failure reported the way the catch clause reads it. *)
Definition detailResponse : Response :=
  mkResponse 500 "Internal Server Error" (JObj [ ("detail", JStr "boom") ]).

Definition epicOne : JsVal := JObj [ ("id", JStr "EPIC-1"); ("title", JStr "Sign in") ].

Definition epicTwo : JsVal := JObj [ ("id", JStr "EPIC-2"); ("title", JStr "Boards") ].

Definition storiesArgs (epics : JsVal) : JsVal :=
  JObj [ ("project_context", taskmaster_context); ("epics", epics) ].

Definition noCall : Call := mkCall HttpGet "" JUndefined 0.

Definition fullContext : JsVal :=
  JObj [ ("project_summary", JObj [ ("project_name", JStr "TaskMaster") ]);
         ("final_decisions",
          JObj [ ("project", JObj [ ("team", JStr "2 developers") ]);
                 ("technical", JObj [ ("frontend", JStr "React") ]);
                 ("product", JObj [ ("mvp_features", JArr [ JStr "Boards" ]) ]) ]) ].

(** A context whose only decision is the composition of the team. *)
Definition teamContext : JsVal :=
  JObj [ ("final_decisions",
          JObj [ ("project", JObj [ ("team", JStr "2 developers") ]) ]) ].

Definition teamContent : string :=
  "Project Manager Perspective - Timeline & Execution:" ++ LF ++ LF
  ++ "Team Composition: 2 developers".

(** A product perspective with a decision the transformer has no line for. *)
Definition budgetContext : JsVal :=
  JObj [ ("project_summary", JObj [ ("project_name", JStr "TaskMaster") ]);
         ("final_decisions",
          JObj [ ("product", JObj [ ("target_users", JStr "Teams");
                                    ("budget", JStr "10k") ]) ]) ].

Definition noBudgetContext : JsVal :=
  JObj [ ("project_summary", JObj [ ("project_name", JStr "TaskMaster") ]);
         ("final_decisions",
          JObj [ ("product", JObj [ ("target_users", JStr "Teams") ]) ]) ].

(** What the transformer makes of [budgetContext]. *)
Definition budgetResult : Transformed :=
  mkTransformed
    [ mkMessage "system"
        ("Project: TaskMaster" ++ LF ++ LF ++ LF ++ LF
         ++ "Target Users: Not specified" ++ LF
         ++ "Platform: Not specified" ++ LF
         ++ "Timeline: Not specified" ++ LF
         ++ "Team Size: Not specified");
      mkMessage "alex"
        ("Product Manager Perspective - MVP Requirements:" ++ LF ++ LF ++ LF
         ++ "Target Users: Teams") ]
    (JObj [ ("project_name", JStr "TaskMaster");
            ("project_description", JUndefined);
            ("target_users", JUndefined);
            ("platform", JUndefined);
            ("timeline", JUndefined);
            ("team_size", JUndefined) ]).

(** A summary that spells the name both ways, the snake_case one empty. *)
Definition twoNamesContext : JsVal :=
  JObj [ ("project_summary",
          JObj [ ("project_name", JStr ""); ("projectName", JStr "Camel") ]) ].

Definition twoNamesResult : Transformed :=
  mkTransformed
    [ mkMessage "system"
        (systemTemplate "Camel" "" "Not specified" "Not specified" "Not specified"
                        "Not specified") ]
    (JObj [ ("project_name", JStr "Camel");
            ("project_description", JUndefined);
            ("target_users", JUndefined);
            ("platform", JUndefined);
            ("timeline", JUndefined);
            ("team_size", JUndefined) ]).

(** A summary that spells the name both ways, both with text. *)
Definition bothNamesContext : JsVal :=
  JObj [ ("project_summary",
          JObj [ ("projectName", JStr "Camel"); ("project_name", JStr "Snake") ]) ].

(** A registry record: keys for two providers, a preference for stories. *)
Definition registryRecord : JsVal :=
  JObj [ ("projectId", JStr "task-manager-app");
         ("configs",
          JObj [ ("aiProvider",
                  JObj [ ("anthropicApiKey", JStr "sk-ant-1");
                         ("openaiApiKey", JStr "");
                         ("preferences",
                          JObj [ ("storyGeneration",
                                  JObj [ ("provider", JStr "openai");
                                         ("model", JStr "gpt-5") ]) ]) ]) ]) ].

(** *** Tables of the four operations *)

(** The name a [tools/call] gives to each operation. *)
Definition nameOf (tool : Tool) : string :=
  match tool with
  | GenerateEpics => "generate_epics"
  | GenerateStories => "generate_stories"
  | RegenerateEpic => "regenerate_epic"
  | RegenerateStory => "regenerate_story"
  end.

(** The path of the backend each handler posts to. *)
Definition pathOf (tool : Tool) : string :=
  match tool with
  | GenerateEpics => "/generate-epics"
  | GenerateStories => "/generate-stories"
  | RegenerateEpic => "/regenerate-epic"
  | RegenerateStory => "/regenerate-story"
  end.

(** The time-out each handler gives its request, in milliseconds. *)
Definition timeoutOf (tool : Tool) : Z :=
  match tool with
  | GenerateEpics => 60000
  | GenerateStories => 600000
  | RegenerateEpic => 60000
  | RegenerateStory => 180000
  end.

(** The handlers of the bearer-token variant. *)
Definition bearerHandlerOf (tool : Tool) : World -> JsVal -> string -> Eff ToolResult :=
  match tool with
  | GenerateEpics => Bearer.handleGenerateEpics
  | GenerateStories => Bearer.handleGenerateStories
  | RegenerateEpic => Bearer.handleRegenerateEpic
  | RegenerateStory => Bearer.handleRegenerateStory
  end.

(** The preference each of them resolves its provider by. *)
Definition taskOf (tool : Tool) : Bearer.Task :=
  match tool with
  | GenerateEpics => Bearer.epicGeneration
  | GenerateStories => Bearer.storyGeneration
  | RegenerateEpic => Bearer.epicGeneration
  | RegenerateStory => Bearer.storyGeneration
  end.

(** [v && typeof v === 'object']: objects and arrays. *)
Definition objectLike (v : JsVal) : bool := truthy v && typeofObject v.

(** The result a handler of [route.ts] wraps a successful answer in. *)
Definition relayed (tool : Tool) (answer : JsVal) : ToolResult :=
  mkToolResult
    [ mkItem "text"
        (JSON_stringify
           (JObj [ ("success", JBool true);
                   (fieldOf tool, prop answer (fieldOf tool));
                   ("metadata", prop answer "metadata") ])) ].

(** A backend that answers every request with a success carrying two
    epics, some metadata and a field no handler asks for. *)
Definition epicsAnswer : JsVal :=
  JObj [ ("success", JBool true);
         ("epics", JArr [ epicOne; epicTwo ]);
         ("metadata", JObj [ ("total_epics", JNum 2) ]);
         ("debug", JStr "trace-17") ].

Definition epicsResponse : Response := mkResponse 200 "OK" epicsAnswer.

(** Arguments of a story regeneration. *)
Definition storyArgs : JsVal :=
  JObj [ ("project_context", taskmaster_context);
         ("epic", epicOne);
         ("story", JObj [ ("id", JStr "STORY-1"); ("title", JStr "Log in") ]);
         ("user_feedback", JStr "Add email verification") ].

Definition sectionsMessage : string :=
  "project_context must include project_summary and final_decisions".
Definition epicMessage : string := "epic is required and must be an object".
Definition storyMessage : string := "story is required and must be an object".
Definition feedbackMessage : string := "user_feedback is required and must be a string".

(** [v && typeof v === 'string']: a string that is not empty. *)
Definition feedbackGiven (v : JsVal) : bool := truthy v && typeofString v.

(** A context that spells its two sections in camelCase. *)
Definition camelContext : JsVal :=
  JObj [ ("projectSummary", JObj [ ("project_name", JStr "TaskMaster") ]);
         ("finalDecisions", JObj [ ("technical", JObj [ ("frontend", JStr "React") ]) ]) ].

(** A request whose body parsed to [body]. *)
Definition requestOf (body : JsVal) : Route.NextRequest := Route.mkRequest (Ok body).

(** The answer of [POST] to a call of a known tool, given how the handler
    ended. *)
Definition answerOf (ended : result ToolResult) : Route.NextResponse :=
  match ended with
  | Ok result => Route.json (Route.ResultBody result)
  | Throw error => internalError error
  end.

(** The arguments a [tools/call] hands to its handler:
    [body.params?.arguments || {}]. *)
Definition argumentsOf (body : JsVal) : JsVal :=
  jor (prop (prop body "params") "arguments") (JObj []).

Definition allTools : list Tool :=
  [ GenerateEpics; GenerateStories; RegenerateEpic; RegenerateStory ].

(** *** Headings and labels *)

(** The words each message opens with, by role. *)
Definition headings : list (string * string) :=
  [ ("system", "Project: ");
    ("alex", "Product Manager Perspective - MVP Requirements:");
    ("blake", "Technical Architect Perspective - Architecture & Stack:");
    ("casey", "Project Manager Perspective - Timeline & Execution:") ].

Fixpoint hasChar (c : ascii) (s : string) : bool :=
  match s with
  | EmptyString => false
  | String x r => Ascii.eqb x c || hasChar c r
  end.

Fixpoint existsChar (p : ascii -> bool) (s : string) : bool :=
  match s with
  | EmptyString => false
  | String x r => p x || existsChar p r
  end.

(** An ASCII character: its code is below 128. *)
Definition isAscii (c : ascii) : bool := (nat_of_ascii c <? 128)%nat.

(** Text made of ASCII characters only. *)
Definition asciiText (s : string) : bool :=
  negb (existsChar (fun c => negb (isAscii c)) s).

(** [product.mvp_features || product.mvpFeatures] *)
Definition featuresOf (product : JsVal) : JsVal :=
  jor (prop product "mvp_features") (prop product "mvpFeatures").

Definition notAFunction : JsError := TypeError "features.forEach is not a function".

(** Two summaries that differ at most in how they spell their fields. *)
Definition sameSummary (a b : JsVal) : Prop :=
  truthy a = truthy b
  /\ (forall f, preferred a f = preferred b f)
  /\ prop a "platform" = prop b "platform"
  /\ prop a "timeline" = prop b "timeline".

(** The system message of a summary that says nothing. *)
Definition defaultSystem : string :=
  systemTemplate "Untitled Project" "" "Not specified" "Not specified" "Not specified"
                 "Not specified".

(** A product perspective whose features are a sentence, not a list. *)
Definition sentenceContext : JsVal :=
  JObj [ ("project_summary", JObj [ ("project_name", JStr "TaskMaster") ]);
         ("final_decisions",
          JObj [ ("product", JObj [ ("mvp_features", JStr "boards and cards") ]) ]) ].

(** The same summary in the two spellings. *)
Definition snakeSummaryContext : JsVal :=
  JObj [ ("project_summary",
          JObj [ ("project_name", JStr "TaskMaster"); ("team_size", JStr "3") ]) ].

Definition camelSummaryContext : JsVal :=
  JObj [ ("projectSummary",
          JObj [ ("teamSize", JStr "3"); ("projectName", JStr "TaskMaster") ]) ].

(** A product perspective with three features and a project perspective
    with two milestones. *)
Definition listsContext : JsVal :=
  JObj [ ("final_decisions",
          JObj [ ("product",
                  JObj [ ("mvp_features",
                          JArr [ JStr "Boards"; JStr "Cards"; JStr "Labels" ]) ]);
                 ("project",
                  JObj [ ("milestones",
                          JObj [ ("week_1", JStr "Setup"); ("week_2", JStr "MVP") ]) ]) ]) ].

(** *** Records of the registry *)

(** A record that holds a key but no table of preferences. *)
Definition keysOnlyRecord : JsVal :=
  JObj [ ("projectId", JStr "task-manager-app");
         ("configs",
          JObj [ ("aiProvider", JObj [ ("anthropicApiKey", JStr "sk-ant-1") ]) ]) ].

(** A record whose preference names a provider the resolver has no case
    for. *)
Definition mistralRecord : JsVal :=
  JObj [ ("projectId", JStr "task-manager-app");
         ("configs",
          JObj [ ("aiProvider",
                  JObj [ ("anthropicApiKey", JStr "sk-ant-1");
                         ("preferences",
                          JObj [ ("epicGeneration",
                                  JObj [ ("provider", JStr "mistral");
                                         ("model", JStr "large") ]) ]) ]) ]) ].


(** *** The handlers of the variant *)

(** The tag of the line each handler logs. *)
Definition tagOf (tool : Tool) : string :=
  match tool with
  | GenerateEpics => "Epic Generation"
  | GenerateStories => "Story Generation"
  | RegenerateEpic => "Epic Regeneration"
  | RegenerateStory => "Story Regeneration"
  end.

(** The message of the first check of a tool that the arguments fail, if
    any, in the order the handler makes them: the context, then what the
    tool asks for besides. *)
Definition failedCheck (tool : Tool) (args : JsVal) : option string :=
  if Route.contextInvalid (prop args "project_context") then Some contextMessage
  else
    match tool with
    | GenerateEpics =>
        if truthy (prop (prop args "project_context") "project_summary")
           && truthy (prop (prop args "project_context") "final_decisions")
        then None else Some sectionsMessage
    | GenerateStories =>
        if truthy (prop args "epics") && isArray (prop args "epics")
        then None else Some epicsMessage
    | RegenerateEpic =>
        if objectLike (prop args "epic") then
          if feedbackGiven (prop args "user_feedback") then None
          else Some feedbackMessage
        else Some epicMessage
    | RegenerateStory =>
        if objectLike (prop args "epic") then
          if objectLike (prop args "story") then
            if feedbackGiven (prop args "user_feedback") then None
            else Some feedbackMessage
          else Some storyMessage
        else Some epicMessage
    end.

(** Arguments whose context passes every check and cannot be transformed:
    its features are a sentence. *)
Definition sentenceArgs : JsVal := JObj [ ("project_context", sentenceContext) ].

(** What a handler of the variant gathers between its checks and its
    request: the record of the project, the provider of its task, the line
    for the log and the transformed context, in that order. *)
Definition prepared (w : World) (tool : Tool) (args : JsVal) (bearerToken : string)
  : result (Bearer.AIProvider * Transformed) :=
  match outcome (Bearer.getProjectConfig w bearerToken) with
  | Ok projectConfig =>
      aiConfig <- Bearer.getAIProviderForTask projectConfig (taskOf tool) ;;
      _ <- Bearer.logLine (tagOf tool) aiConfig projectConfig ;;
      t <- transformProjectContext (prop args "project_context") ;;
      Ok (aiConfig, t)
  | Throw e => Throw e
  end.

(** A registry that answers every GET with [record] and a backend that
    answers every POST with [answer]. *)
Definition deployed (record answer : Response) : World :=
  mkWorld None None
          (fun c => match call_method c with
                    | HttpGet => Replies record
                    | HttpPost => Replies answer
                    end).

Definition recordResponse : Response := mkResponse 200 "OK" registryRecord.

Definition notFoundResponse : Response :=
  mkResponse 404 "Not Found" (JObj [ ("error", JStr "Project not found") ]).

Definition epicsArgs : JsVal := JObj [ ("project_context", taskmaster_context) ].


(** *** Requests of the variant *)

(** The answer to a call that comes without a token. *)
Definition missingToken : Route.NextResponse :=
  Route.mkNextResponse 401
    (Route.ErrorBody (-32600)
       "Missing Authorization header. Please provide Bearer token (Prometheus API Key).").

(** A [tools/call] with its [Authorization] header, if any. *)
Definition callWith (authorization : option string) (toolName arguments : JsVal)
  : Bearer.NextRequest :=
  Bearer.mkRequest
    (Ok (JObj [ ("method", JStr "tools/call");
                ("params", JObj [ ("tool", toolName); ("arguments", arguments) ]) ]))
    authorization.

(** The provider the resolver finds for epics in [registryRecord]. *)
Definition sonnet : Bearer.AIProvider :=
  Bearer.mkAIProvider (JStr "anthropic") (JStr "claude-sonnet-4.5") (JStr "sk-ant-1").


(* ================================================================== *)
(** * Properties *)

(** The structural induction the nested lists call for. *)
Lemma JsVal_deep_ind (P : JsVal -> Prop) :
  P JUndefined -> P JNull ->
  (forall b, P (JBool b)) -> (forall n, P (JNum n)) -> (forall s, P (JStr s)) ->
  (forall l, Forall P l -> P (JArr l)) ->
  (forall fs, Forall (fun kv => P (snd kv)) fs -> P (JObj fs)) ->
  forall v, P v.
Proof.
  intros Hu Hn Hb Hz Hs Ha Ho.
  fix IH 1. intros [ | | b | n | s | l | fs].
  - exact Hu.
  - exact Hn.
  - apply Hb.
  - apply Hz.
  - apply Hs.
  - apply Ha. induction l as [|x l IHl]; constructor; [apply IH | exact IHl].
  - apply Ho. induction fs as [|[k x] fs IHfs]; constructor; [apply IH | exact IHfs].
Qed.

(** ** Computations *)

Lemma bind_lift_Ok {A B} (a : A) (f : A -> Eff B) : bind (lift (Ok a)) f = f a.
Proof. unfold bind, lift. destruct (f a); reflexivity. Qed.

Lemma callService_eq w path body timeout failure field :
  Route.callService w path body timeout failure field
  = ([servicePost w path body timeout],
     settled w (servicePost w path body timeout) failure field).
Proof.
  unfold Route.callService, settled, axios, tryCatch, bind, lift.
  destruct (axiosSettle _) as [r|e]; simpl.
  - destruct (Route.unwrap r failure field); reflexivity.
  - reflexivity.
Qed.

Lemma callService_calls w path body timeout failure field :
  calls (Route.callService w path body timeout failure field)
  = [servicePost w path body timeout].
Proof. rewrite callService_eq. reflexivity. Qed.

Lemma bearer_callService_calls w path body timeout aiConfig failure field :
  calls (Bearer.callService w path body timeout aiConfig failure field)
  = [servicePost w path body timeout].
Proof.
  unfold Bearer.callService, axios, tryCatch, bind, lift, calls.
  destruct (axiosSettle _) as [r|e]; simpl.
  - destruct (Bearer.unwrap r aiConfig failure field); reflexivity.
  - reflexivity.
Qed.

Lemma getProjectConfig_calls w bearerToken :
  calls (Bearer.getProjectConfig w bearerToken) = [registryGet w bearerToken].
Proof.
  unfold Bearer.getProjectConfig, axios, tryCatch, bind, lift, throw, ret, calls.
  fold (registryGet w bearerToken).
  destruct (axiosSettle _) as [r|e]; simpl.
  - destruct (nullish (data r)); simpl.
    + reflexivity.
    + destruct (toStr (prop (data r) "projectId")); simpl.
      * destruct (truthy (data r)); reflexivity.
      * destruct (response e) as [r'|]; [destruct (status r' =? 404)|]; reflexivity.
  - destruct (response e) as [r'|]; [destruct (status r' =? 404)|]; reflexivity.
Qed.

Lemma getProjectConfig_eq w bearerToken :
  Bearer.getProjectConfig w bearerToken
  = ([registryGet w bearerToken], outcome (Bearer.getProjectConfig w bearerToken)).
Proof.
  rewrite <- (getProjectConfig_calls w bearerToken).
  destruct (Bearer.getProjectConfig w bearerToken); reflexivity.
Qed.

Lemma bearer_callService_eq w path body timeout aiConfig failure field :
  Bearer.callService w path body timeout aiConfig failure field
  = ([servicePost w path body timeout],
     outcome (Bearer.callService w path body timeout aiConfig failure field)).
Proof.
  rewrite <- (bearer_callService_calls w path body timeout aiConfig failure field).
  destruct (Bearer.callService w path body timeout aiConfig failure field); reflexivity.
Qed.

Lemma calls_bind_started {A B} (m : Eff A) (f : A -> Eff B) :
  calls m <> [] -> calls (bind m f) <> [].
Proof.
  unfold bind, calls. destruct m as [cs [a|e]]; cbn [fst]; [|auto].
  destruct (f a) as [cs' r]. cbn [fst]. destruct cs; [intros H; now destruct H|].
  discriminate.
Qed.




(** ** The end-to-end example *)

(** C1.  On the TaskMaster context the transformer returns exactly the
    system message and the blake message of the example, in that order; the
    metadata it returns carries [project_name] and [platform] and nothing
    else that survives serialisation; and [handleGenerateEpics] makes one
    call, a POST to [/generate-epics] with a one-minute time-out, whose body
    on the wire is the payload of the example. *)
Theorem taskmaster_end_to_end :
  transformProjectContext taskmaster_context
  = Ok (mkTransformed [ mkMessage "system" taskmaster_system;
                        mkMessage "blake" taskmaster_blake ]
                      taskmaster_metadata)
  /\ wire taskmaster_metadata
     = JObj [ ("project_name", JStr "TaskMaster"); ("platform", JStr "Web") ]
  /\ forall w,
       exists body,
         calls (Route.handleGenerateEpics w taskmaster_args)
         = [ mkCall HttpPost (STORYCRAFTER_SERVICE_URL w ++ "/generate-epics") body 60000 ]
         /\ wire body = taskmaster_payload.
Proof.
  assert (Ht : transformProjectContext taskmaster_context
               = Ok (mkTransformed [ mkMessage "system" taskmaster_system;
                                     mkMessage "blake" taskmaster_blake ]
                                   taskmaster_metadata)) by reflexivity.
  split; [exact Ht|]. split; [reflexivity|].
  intros w. eexists. split.
  - unfold Route.handleGenerateEpics.
    change (prop taskmaster_args "project_context") with taskmaster_context.
    replace (Route.contextInvalid taskmaster_context) with false by reflexivity.
    replace (negb (truthy (prop taskmaster_context "project_summary"))
             || negb (truthy (prop taskmaster_context "final_decisions")))
      with false by reflexivity.
    rewrite Ht, bind_lift_Ok, callService_calls. reflexivity.
  - reflexivity.
Qed.

(** ** Story generation: the epic that is sent, and the validation gate *)



(** C9.  When [epics] is not an array, [handleGenerateStories] throws a
    validation error and makes no call at all, in both variants of the
    route; the error is the one that names [epics] whenever the context
    itself is acceptable (the context is checked first).  An empty array
    passes: with an acceptable context that transforms, the request goes
    out. *)
Theorem stories_validation_gate :
  (forall w args,
      isArray (prop args "epics") = false ->
      exists msg,
        Route.handleGenerateStories w args = ([], Throw (Error msg))
        /\ (forall token,
              Bearer.handleGenerateStories w args token = ([], Throw (Error msg)))
        /\ (msg = epicsMessage \/ msg = contextMessage)
        /\ (Route.contextInvalid (prop args "project_context") = false ->
            msg = epicsMessage))
  /\ (forall w args t,
        Route.contextInvalid (prop args "project_context") = false ->
        prop args "epics" = JArr [] ->
        transformProjectContext (prop args "project_context") = Ok t ->
        calls (Route.handleGenerateStories w args)
        = [ servicePost w "/generate-stories"
              (JObj [ ("epic", JUndefined);
                      ("consensus_messages", JArr (map messageVal (consensus_messages t)));
                      ("project_metadata", project_metadata t) ])
              600000 ]).
Proof.
  split.
  - intros w args Harr.
    unfold Route.handleGenerateStories, Bearer.handleGenerateStories.
    rewrite Harr. cbn [negb]. rewrite orb_true_r.
    destruct (Route.contextInvalid _).
    + exists contextMessage. repeat split; auto. discriminate.
    + exists epicsMessage. repeat split; auto.
  - intros w args t Hctx He Ht.
    unfold Route.handleGenerateStories.
    rewrite Hctx, He, Ht. cbn [truthy isArray negb orb].
    rewrite bind_lift_Ok, callService_calls. reflexivity.
Qed.

Lemma stories_validation_gate_witness :
  (exists msg,
      Route.handleGenerateStories silentWorld (storiesArgs (JStr "EPIC-1"))
      = ([], Throw (Error msg))
      /\ msg = epicsMessage)
  /\ List.length (calls (Route.handleGenerateStories silentWorld (storiesArgs (JArr []))))
     = 1%nat.
Proof.
  split.
  - destruct (proj1 stories_validation_gate silentWorld (storiesArgs (JStr "EPIC-1")))
      as (msg & Hrun & _ & _ & Hmsg); [reflexivity|].
    exists msg. split; [exact Hrun|apply Hmsg; reflexivity].
  - destruct (transformProjectContext taskmaster_context) as [t|err] eqn:Ht;
      [|discriminate Ht].
    rewrite (proj2 stories_validation_gate silentWorld (storiesArgs (JArr [])) t);
      [reflexivity|reflexivity|reflexivity|exact Ht].
Defined.

(** ** The dispatcher *)

Lemma strictEq_true v s : strictEq v s = true -> v = JStr s.
Proof.
  destruct v; simpl; try discriminate.
  intros H. apply String.eqb_eq in H. now subst.
Qed.

(** C4, as the code has it.  [POST] always answers (nothing escapes its
    outer [catch]).  A [tools/call] whose tool is none of the four is
    answered with status 400, code -32601 and the message [Unknown tool: ]
    followed by the name, without any handler running or any call going out;
    when the name cannot be turned into text the outer [catch] answers 500
    instead.  The status is never 200. *)
Theorem unknown_tool_is_answered_400 :
  (forall w request, exists tr resp, Route.POST w request = (tr, Ok resp))
  /\ (forall w request body,
        Route.request_json request = Ok body ->
        nullish body = false ->
        strictEq (prop body "method") "tools/call" = true ->
        knownTool (prop (prop body "params") "tool") = false ->
        Route.POST w request
        = ([], Ok match toStr (prop (prop body "params") "tool") with
                  | Ok name =>
                      Route.mkNextResponse 400
                        (Route.ErrorBody (-32601) ("Unknown tool: " ++ name))
                  | Throw error => internalError error
                  end)).
Proof.
  split.
  - intros w request. unfold Route.POST.
    match goal with |- context [tryCatch ?b _] => destruct b as [tr [resp|e]] end.
    + exists tr, resp. reflexivity.
    + eexists _, _. reflexivity.
  - intros w request body Hjson Hnull Hcall Hknown.
    unfold Route.POST. rewrite Hjson, bind_lift_Ok, Hnull.
    apply strictEq_true in Hcall. rewrite Hcall. cbn [strictEq String.eqb Ascii.eqb Bool.eqb].
    unfold knownTool in Hknown. simpl in Hknown.
    repeat (apply orb_false_iff in Hknown; destruct Hknown as [?H Hknown]).
    rewrite H, H0, H1, H2.
    destruct (toStr _) as [name|error]; reflexivity.
Qed.

Lemma unknown_tool_is_answered_400_witness :
  Route.POST silentWorld (toolsCall (JStr "summarise") (JObj []))
  = ([], Ok (Route.mkNextResponse 400
               (Route.ErrorBody (-32601) "Unknown tool: summarise"))).
Proof.
  apply (proj2 unknown_tool_is_answered_400 silentWorld
           (toolsCall (JStr "summarise") (JObj []))
           (JObj [ ("method", JStr "tools/call");
                   ("params", JObj [ ("tool", JStr "summarise");
                                     ("arguments", JObj []) ]) ]));
    reflexivity.
Defined.

(** C4, as the specification words it, fails: the answer to an unknown tool
    does not have status 200. *)
Lemma unknown_tool_status_is_not_200 :
  exists resp,
    outcome (Route.POST silentWorld (toolsCall (JStr "summarise") (JObj []))) = Ok resp
    /\ Route.response_status resp = 400
    /\ Route.response_status resp <> 200.
Proof.
  eexists. split; [reflexivity|]. split; [reflexivity|discriminate].
Qed.

(** ** Strings *)

Lemma append_assoc (a b c : string) : (a ++ b) ++ c = a ++ b ++ c.
Proof. induction a as [|x a IH]; simpl; [reflexivity|now rewrite IH]. Qed.

Lemma append_nil_r (a : string) : a ++ "" = a.
Proof. induction a as [|x a IH]; simpl; [reflexivity|now rewrite IH]. Qed.

Lemma prefix_append (s t : string) : String.prefix s (s ++ t) = true.
Proof.
  induction s as [|x s IH]; simpl.
  - destruct t; reflexivity.
  - destruct (ascii_dec x x) as [_|N]; [exact IH|now destruct N].
Qed.

Lemma contains_here (sub s : string) : String.prefix sub s = true -> contains sub s = true.
Proof. intros H. destruct s; cbn [contains]; rewrite H; reflexivity. Qed.

Lemma contains_append_r (sub p t : string) :
  contains sub t = true -> contains sub (p ++ t) = true.
Proof.
  intros H. induction p as [|x p IH]; [exact H|].
  cbn [append contains]. rewrite IH. apply orb_true_r.
Qed.

(** A text contains whatever stands in the middle of it. *)
Lemma contains_middle (a sub b : string) : contains sub (a ++ sub ++ b) = true.
Proof. apply contains_append_r, contains_here, prefix_append. Qed.

Lemma contains_suffix (a sub : string) : contains sub (a ++ sub) = true.
Proof. rewrite <- (append_nil_r sub) at 2. apply contains_middle. Qed.

(** ** Failures of the backend *)

(** A handler either stops before the network, or makes its one call and
    settles on the reply. *)
Lemma handler_shape tool w args :
  (exists e, handlerOf tool w args = ([], Throw e))
  \/ (exists c, handlerOf tool w args
                = ([c], settled w c (failureOf tool) (fieldOf tool))).
Proof.
  destruct tool; simpl;
    [unfold Route.handleGenerateEpics | unfold Route.handleGenerateStories
     | unfold Route.handleRegenerateEpic | unfold Route.handleRegenerateStory];
    repeat match goal with
           | |- context [if ?b then _ else _] => destruct b
           end;
    try (left; eexists; reflexivity);
    (destruct (transformProjectContext _) as [t|e];
     [rewrite bind_lift_Ok, callService_eq; right; eexists; reflexivity
     |left; eexists; reflexivity]).
Qed.

Lemma handler_reached tool w args c :
  calls (handlerOf tool w args) = [c] ->
  outcome (handlerOf tool w args) = settled w c (failureOf tool) (fieldOf tool).
Proof.
  destruct (handler_shape tool w args) as [[e H]|[c' H]]; rewrite H; simpl.
  - discriminate.
  - intros [= ->]. reflexivity.
Qed.

(** The only exception [ToString] raises on these values. *)
Lemma toStr_throws v e : toStr v = Throw e -> e = cannotConvert.
Proof.
  revert e. induction v as [ | | b | n | s | l IH | fs _ ] using JsVal_deep_ind;
    intros e; simpl; try discriminate.
  - destruct b; discriminate.
  - induction IH as [|x l Hx _ IHl]; [discriminate|].
    cbn [map joinComma].
    destruct (nullish x); [|destruct (toStr x) eqn:Ex]; cbn [rbind];
      try (intros [= <-]; now apply Hx);
      (destruct l as [|y l]; [discriminate|]);
      (destruct (joinComma (map _ (y :: l))) eqn:E; cbn [rbind];
       [discriminate|intros [= <-]; now apply IHl]).
  - destruct (hasKey "toString" fs); [|discriminate]. now intros [= <-].
Qed.

Lemma service_error_is_not_unavailable (s url : string) :
  "StoryCrafter service error: " ++ s <> "StoryCrafter service unavailable: " ++ url.
Proof. simpl. discriminate. Qed.

(** C2, as the code has it.  Take any of the four handlers at the point
    where its request [c] has gone out.
    - An answer outside 2xx makes it throw [StoryCrafter service error: ]
      followed by the [detail] of the body, or by the status text when the
      body has no (truthy) [detail].
    - A 2xx answer whose [success] is falsy makes it throw a message that
      contains the [error] text of the body (the fallback text of the
      operation when there is none).
    - No answer makes it throw [StoryCrafter service unavailable: ] followed
      by the configured base URL.
    - The message of a failure on an answer outside 2xx is never the message
      of a failure on no answer. *)
Theorem backend_failures_are_told_apart :
  forall tool w args c,
    calls (handlerOf tool w args) = [c] ->
    (forall r s,
        network w c = Replies r -> is2xx r = false ->
        toStr (jor (prop (data r) "detail") (JStr (statusText r))) = Ok s ->
        outcome (handlerOf tool w args)
        = Throw (Error ("StoryCrafter service error: " ++ s)))
    /\ (forall r s,
          network w c = Replies r -> is2xx r = true ->
          nullish (data r) = false ->
          truthy (prop (data r) "success") = false ->
          toStr (jor (prop (data r) "error") (JStr (failureOf tool))) = Ok s ->
          exists e,
            outcome (handlerOf tool w args) = Throw e
            /\ contains s (message e) = true)
    /\ (forall msg,
          network w c = NoReply msg ->
          outcome (handlerOf tool w args)
          = Throw (Error ("StoryCrafter service unavailable: "
                          ++ STORYCRAFTER_SERVICE_URL w)))
    /\ (forall r e tool' w' args' c' msg' e',
          network w c = Replies r -> is2xx r = false ->
          outcome (handlerOf tool w args) = Throw e ->
          calls (handlerOf tool' w' args') = [c'] ->
          network w' c' = NoReply msg' ->
          outcome (handlerOf tool' w' args') = Throw e' ->
          message e <> message e').
Proof.
  intros tool w args c Hc.
  rewrite (handler_reached _ _ _ _ Hc).
  assert (Hout : forall r, network w c = Replies r -> is2xx r = false ->
                   settled w c (failureOf tool) (fieldOf tool)
                   = (s <- toStr (jor (prop (data r) "detail") (JStr (statusText r))) ;;
                      Throw (Error ("StoryCrafter service error: " ++ s)))).
  { intros r Hr H2. unfold settled, axiosSettle. rewrite Hr.
    unfold is2xx in H2. rewrite H2. reflexivity. }
  assert (Hsilent : forall tool w c msg, network w c = NoReply msg ->
                      settled w c (failureOf tool) (fieldOf tool)
                      = Throw (Error ("StoryCrafter service unavailable: "
                                      ++ STORYCRAFTER_SERVICE_URL w))).
  { intros tool0 w0 c0 msg Hr. unfold settled, axiosSettle. rewrite Hr. reflexivity. }
  repeat split.
  - intros r s Hr H2 Hs. rewrite (Hout r Hr H2), Hs. reflexivity.
  - intros r s Hr H2 Hnull Hfalse Hs.
    unfold settled, axiosSettle. rewrite Hr. unfold is2xx in H2. rewrite H2.
    unfold Route.unwrap. rewrite Hnull, Hfalse, Hs. simpl.
    eexists. split; [reflexivity|]. apply (contains_suffix "Request error: " s).
  - intros msg Hr. now apply Hsilent with (msg := msg).
  - intros r e tool' w' args' c' msg' e' Hr H2 He Hc' Hr' He'.
    rewrite (handler_reached _ _ _ _ Hc'), (Hsilent _ _ _ _ Hr') in He'.
    injection He' as <-. rewrite (Hout r Hr H2) in He.
    destruct (toStr _) as [s|err] eqn:Es; simpl in He; injection He as <-.
    + apply service_error_is_not_unavailable.
    + apply toStr_throws in Es. subst err. simpl. discriminate.
Qed.

Lemma backend_failures_are_told_apart_witness :
  outcome (Route.handleGenerateEpics (answering detailResponse) taskmaster_args)
  = Throw (Error "StoryCrafter service error: boom")
  /\ outcome (Route.handleGenerateEpics silentWorld taskmaster_args)
     = Throw (Error "StoryCrafter service unavailable: https://storycrafter-service.vercel.app").
Proof.
  split.
  - apply (proj1 (backend_failures_are_told_apart GenerateEpics
                    (answering detailResponse) taskmaster_args
                    (hd noCall (calls (Route.handleGenerateEpics
                                         (answering detailResponse) taskmaster_args)))
                    eq_refl) detailResponse "boom"); reflexivity.
  - apply (proj1 (proj2 (proj2 (backend_failures_are_told_apart GenerateEpics
                    silentWorld taskmaster_args
                    (hd noCall (calls (Route.handleGenerateEpics
                                         silentWorld taskmaster_args)))
                    eq_refl))) "timeout of 600000ms exceeded"); reflexivity.
Defined.

(** C2, as the specification words it, fails on its own scenario: when the
    stub answers 500 with [{success: false, error: "boom"}], the message the
    caller gets is built from the status text, and [boom] is not in it. *)
Lemma boom_is_lost_on_http_500 :
  outcome (Route.handleGenerateEpics (answering boomResponse) taskmaster_args)
  = Throw (Error "StoryCrafter service error: Internal Server Error")
  /\ contains "boom" "StoryCrafter service error: Internal Server Error" = false.
Proof. split; reflexivity. Qed.

(** ** The transformer *)

Lemma pushPerspective_inv ms r section text ms' :
  pushPerspective ms r section text = Ok ms' ->
  exists m, ms' = (ms ++ m)%list /\ sectionMessage section r (text section) trim m.
Proof.
  unfold pushPerspective, sectionMessage. destruct (truthy section).
  - destruct (text section) as [c|]; [|discriminate]. intros [= <-].
    exists [mkMessage r (trim c)]. split; [reflexivity|]. exists c. split; reflexivity.
  - intros [= <-]. exists []. rewrite app_nil_r. split; reflexivity.
Qed.

(** What a successful run of the transformer is made of. *)
Lemma transform_inv pc t :
  transformProjectContext pc = Ok t ->
  exists sys alex blake casey,
    consensus_messages t = (sys ++ alex ++ blake ++ casey)%list
    /\ project_metadata t = metadataOf (summaryOf pc)
    /\ sectionMessage (summaryOf pc) "system" (systemContent (summaryOf pc))
                      (fun c => c) sys
    /\ sectionMessage (perspective pc "product") "alex"
                      (alexContent (perspective pc "product")) trim alex
    /\ sectionMessage (perspective pc "technical") "blake"
                      (blakeContent (perspective pc "technical")) trim blake
    /\ sectionMessage (perspective pc "project") "casey"
                      (caseyContent (perspective pc "project")) trim casey.
Proof.
  unfold transformProjectContext, perspective.
  fold (summaryOf pc) (decisionsOf pc).
  destruct (nullish pc); [discriminate|].
  assert (Hsys : forall r, (if truthy (summaryOf pc)
                            then systemContent <- systemContent (summaryOf pc) ;;
                                 Ok ([] ++ [mkMessage "system" systemContent])%list
                            else Ok []) = Ok r ->
                 sectionMessage (summaryOf pc) "system" (systemContent (summaryOf pc))
                                (fun c => c) r).
  { intros r. unfold sectionMessage. destruct (truthy (summaryOf pc)).
    - destruct (systemContent _) as [c|]; [|discriminate]. intros [= <-].
      exists c. split; reflexivity.
    - now intros [= <-]. }
  destruct (if truthy (summaryOf pc) then _ else _) as [sys|] eqn:Es; [|discriminate].
  specialize (Hsys sys eq_refl). clear Es. cbn [rbind].
  destruct (truthy (decisionsOf pc)).
  - destruct (pushPerspective sys "alex" _ _) as [m1|] eqn:E1; [|discriminate].
    cbn [rbind].
    destruct (pushPerspective m1 "blake" _ _) as [m2|] eqn:E2; [|discriminate].
    cbn [rbind].
    destruct (pushPerspective m2 "casey" _ _) as [m3|] eqn:E3; [|discriminate].
    cbn [rbind]. intros [= <-].
    apply pushPerspective_inv in E1, E2, E3.
    destruct E1 as (alex & -> & Ha), E2 as (blake & -> & Hb), E3 as (casey & -> & Hc).
    exists sys, alex, blake, casey. cbn [consensus_messages project_metadata].
    rewrite <- !app_assoc. auto 10.
  - cbn [rbind]. intros [= <-]. exists sys, [], [], [].
    cbn [consensus_messages project_metadata]. rewrite app_nil_r.
    unfold sectionMessage at 2 3 4. cbn [truthy]. auto 10.
Qed.

(** *** The transformer returns on well-formed contexts *)

Lemma plain_toStr v : plain v = true -> exists s, toStr v = Ok s.
Proof.
  induction v as [ | | b | n | s | l IH | fs _ ] using JsVal_deep_ind;
    cbn [plain toStr]; intros Hp; try (eexists; reflexivity).
  - destruct b; eexists; reflexivity.
  - induction IH as [|x l Hx _ IHl]; [eexists; reflexivity|].
    cbn [forallb] in Hp. apply andb_true_iff in Hp. destruct Hp as [Hpx Hpl].
    cbn [map joinComma].
    assert (Hel : exists s, (if nullish x then Ok "" else toStr x) = Ok s).
    { destruct (nullish x); [eexists; reflexivity|now apply Hx]. }
    destruct Hel as [s ->]. cbn [rbind].
    destruct l as [|y l]; [eexists; reflexivity|].
    destruct (IHl Hpl) as [r Hr]. cbn [map] in Hr. cbn [map]. rewrite Hr.
    eexists; reflexivity.
  - apply andb_true_iff in Hp. destruct Hp as [Hk _].
    apply negb_true_iff in Hk. rewrite Hk. eexists; reflexivity.
Qed.

Lemma plain_lookup k fs :
  forallb (fun kv => plain (snd kv)) fs = true -> plain (lookup k fs) = true.
Proof.
  induction fs as [|[k' x] fs IH]; cbn [forallb lookup snd]; [reflexivity|].
  intros H. apply andb_true_iff in H. destruct H as [Hx Hfs].
  destruct (String.eqb k k'); auto.
Qed.

Lemma plain_atKey k i l x :
  forallb plain l = true -> atKey k i l = Some x -> plain x = true.
Proof.
  revert i. induction l as [|y l IH]; cbn [forallb atKey]; intros i H; [discriminate|].
  apply andb_true_iff in H. destruct H as [Hy Hl].
  destruct (String.eqb k (natKey i)); [now intros [= <-]|eauto].
Qed.

Lemma plain_prop v k : plain v = true -> plain (prop v k) = true.
Proof.
  destruct v; cbn [prop plain]; try reflexivity; intros Hp.
  - destruct (String.eqb k "length"); [reflexivity|].
    destruct (atKey _ _ _); reflexivity.
  - destruct (String.eqb k "length"); [reflexivity|].
    destruct (atKey k 0 elems) eqn:E; [eapply plain_atKey; eassumption|reflexivity].
  - apply andb_true_iff in Hp. now apply plain_lookup.
Qed.

Lemma plain_jor a b : plain a = true -> plain b = true -> plain (jor a b) = true.
Proof. unfold jor. destruct (truthy a); auto. Qed.

Create HintDb plainDb.
#[local] Hint Resolve plain_prop plain_jor : plainDb.
#[local] Hint Extern 1 (plain (JStr _) = true) => reflexivity : plainDb.
#[local] Hint Extern 1 (plain JUndefined = true) => reflexivity : plainDb.

(** Converts the next value the goal prints, given that it is plain. *)
Ltac print_plain :=
  match goal with
  | |- context [toStr ?v] =>
      let s := fresh "s" in
      let E := fresh "E" in
      destruct (plain_toStr v) as [s E]; [auto 6 with plainDb|];
      rewrite E; cbn [rbind]
  end.

Lemma forEachAppend_total {A} (f : A -> result string) xs acc :
  (forall x, In x xs -> exists s, f x = Ok s) ->
  exists r, forEachAppend f xs acc = Ok r.
Proof.
  revert acc. induction xs as [|x xs IH]; intros acc H; cbn [forEachAppend].
  - eexists; reflexivity.
  - destruct (H x (or_introl eq_refl)) as [s ->]. cbn [rbind].
    apply IH. intros y Hy. apply H. now right.
Qed.

Lemma systemContent_total ps : plain ps = true -> exists c, systemContent ps = Ok c.
Proof.
  intros Hp. unfold systemContent. do 6 print_plain. eexists; reflexivity.
Qed.

Lemma alexContent_total product :
  plain product = true ->
  negb (truthy (jor (prop product "mvp_features") (prop product "mvpFeatures")))
  || isArray (jor (prop product "mvp_features") (prop product "mvpFeatures")) = true ->
  exists c, alexContent product = Ok c.
Proof.
  intros Hp Hf. unfold alexContent.
  assert (Hpf : plain (jor (prop product "mvp_features") (prop product "mvpFeatures")) = true)
    by auto with plainDb.
  destruct (truthy (jor (prop product "mvp_features") _)) eqn:Et.
  - destruct (jor (prop product "mvp_features") _) as [ | | | | |l| ];
      try discriminate Hf.
    destruct (forEachAppend_total
                (fun feature => s <- toStr feature ;; Ok ("- " ++ s ++ LF)) l
                (alexHeader ++ "MVP Features:" ++ LF)) as [c ->].
    { intros x Hx. cbn [plain] in Hpf. rewrite forallb_forall in Hpf.
      destruct (plain_toStr x (Hpf x Hx)) as [s ->]. eexists; reflexivity. }
    cbn [rbind].
    destruct (truthy (jor (prop product "target_users") _)); [print_plain|];
      cbn [rbind];
      (destruct (truthy (jor (prop product "development_approach") _)); [print_plain|]);
      eexists; reflexivity.
  - cbn [rbind].
    destruct (truthy (jor (prop product "target_users") _)); [print_plain|];
      cbn [rbind];
      (destruct (truthy (jor (prop product "development_approach") _)); [print_plain|]);
      eexists; reflexivity.
Qed.

Lemma blakeContent_total tech : plain tech = true -> exists c, blakeContent tech = Ok c.
Proof.
  intros Hp. apply forEachAppend_total. intros key _. unfold blakeLine.
  print_plain. eexists; reflexivity.
Qed.

Lemma caseyContent_total project :
  plain project = true -> exists c, caseyContent project = Ok c.
Proof.
  intros Hp. unfold caseyContent.
  destruct (truthy (prop project "timeline")); [print_plain|]; cbn [rbind];
    (destruct (truthy (prop project "team")); [print_plain|]); cbn [rbind];
    (destruct (truthy (prop project "milestones"));
     [match goal with
      | |- context [forEachAppend ?f ?xs ?acc] =>
          destruct (forEachAppend_total f xs acc) as [c ->];
          [intros key _; unfold milestoneLine; print_plain; eexists; reflexivity|]
      end|]); cbn [rbind];
    (destruct (truthy (prop project "testing")); [print_plain|]);
    eexists; reflexivity.
Qed.

Lemma pushPerspective_total ms r section text :
  (truthy section = true -> exists c, text section = Ok c) ->
  exists ms', pushPerspective ms r section text = Ok ms'.
Proof.
  unfold pushPerspective. destruct (truthy section); intros H.
  - destruct (H eq_refl) as [c ->]. eexists; reflexivity.
  - eexists; reflexivity.
Qed.

Lemma transform_total pc :
  wellFormed pc = true -> exists t, transformProjectContext pc = Ok t.
Proof.
  unfold wellFormed, featuresListed, perspective. intros H.
  apply andb_true_iff in H. destruct H as [H Hf].
  apply andb_true_iff in H. destruct H as [Hn Hp].
  apply negb_true_iff in Hn.
  unfold transformProjectContext. rewrite Hn.
  fold (summaryOf pc) (decisionsOf pc) in *.
  assert (Hps : plain (summaryOf pc) = true) by (unfold summaryOf; auto with plainDb).
  assert (Hpd : plain (decisionsOf pc) = true) by (unfold decisionsOf; auto with plainDb).
  destruct (truthy (summaryOf pc));
    [destruct (systemContent_total _ Hps) as [c ->]|]; cbn [rbind];
    (destruct (truthy (decisionsOf pc)); cbn [rbind]; [|eexists; reflexivity]);
    do 3 (match goal with
          | |- context [pushPerspective ?ms ?r ?section ?text] =>
              let ms' := fresh "ms" in
              destruct (pushPerspective_total ms r section text) as [ms' ->];
              [intros _;
               first [ apply alexContent_total | apply blakeContent_total
                     | apply caseyContent_total ]; auto with plainDb
              |]; cbn [rbind]
          end);
    eexists; reflexivity.
Qed.

Lemma sectionMessage_roles section r text finish ms :
  sectionMessage section r text finish ms ->
  map role ms = if truthy section then [r] else [].
Proof.
  unfold sectionMessage. destruct (truthy section).
  - intros (c & _ & ->). reflexivity.
  - intros ->. reflexivity.
Qed.

(** C7.  Whenever the transformer returns, the roles of its messages are
    system, alex, blake, casey in that order, less those whose section is
    absent (not there, [null] or otherwise falsy); it does return on every
    well-formed context.  With a summary and all three perspectives the
    roles are system, alex, blake, casey; with a summary and the technical
    perspective alone they are system, blake. *)
Theorem messages_follow_the_fixed_order :
  (forall pc t,
      transformProjectContext pc = Ok t ->
      map role (consensus_messages t) = expectedRoles pc)
  /\ (forall pc,
        wellFormed pc = true ->
        exists t, transformProjectContext pc = Ok t
                  /\ map role (consensus_messages t) = expectedRoles pc)
  /\ (forall pc t,
        transformProjectContext pc = Ok t ->
        truthy (summaryOf pc) = true ->
        truthy (perspective pc "product") = true ->
        truthy (perspective pc "technical") = true ->
        truthy (perspective pc "project") = true ->
        map role (consensus_messages t) = ["system"; "alex"; "blake"; "casey"])
  /\ (forall pc t,
        transformProjectContext pc = Ok t ->
        truthy (summaryOf pc) = true ->
        truthy (perspective pc "product") = false ->
        truthy (perspective pc "technical") = true ->
        truthy (perspective pc "project") = false ->
        map role (consensus_messages t) = ["system"; "blake"]).
Proof.
  assert (Horder : forall pc t,
             transformProjectContext pc = Ok t ->
             map role (consensus_messages t) = expectedRoles pc).
  { intros pc t Ht.
    destruct (transform_inv pc t Ht) as (sys & alex & blake & casey & -> & _ & Hs & Ha & Hb & Hc).
    rewrite !map_app.
    rewrite (sectionMessage_roles _ _ _ _ _ Hs), (sectionMessage_roles _ _ _ _ _ Ha),
      (sectionMessage_roles _ _ _ _ _ Hb), (sectionMessage_roles _ _ _ _ _ Hc).
    reflexivity. }
  split; [exact Horder|]. split; [|split].
  - intros pc Hw. destruct (transform_total pc Hw) as [t Ht].
    exists t. split; [exact Ht|now apply Horder].
  - intros pc t Ht Hs Ha Hb Hc. rewrite (Horder pc t Ht).
    unfold expectedRoles. rewrite Hs, Ha, Hb, Hc. reflexivity.
  - intros pc t Ht Hs Ha Hb Hc. rewrite (Horder pc t Ht).
    unfold expectedRoles. rewrite Hs, Ha, Hb, Hc. reflexivity.
Qed.

Lemma messages_follow_the_fixed_order_witness :
  (exists t, transformProjectContext fullContext = Ok t
             /\ map role (consensus_messages t) = ["system"; "alex"; "blake"; "casey"])
  /\ (exists t, transformProjectContext taskmaster_context = Ok t
                /\ map role (consensus_messages t) = ["system"; "blake"]).
Proof.
  split.
  - destruct (proj1 (proj2 messages_follow_the_fixed_order) fullContext eq_refl)
      as (t & Ht & _).
    exists t. split; [exact Ht|].
    apply (proj1 (proj2 (proj2 messages_follow_the_fixed_order)) fullContext t Ht);
      reflexivity.
  - destruct (proj1 (proj2 messages_follow_the_fixed_order) taskmaster_context eq_refl)
      as (t & Ht & _).
    exists t. split; [exact Ht|].
    apply (proj2 (proj2 (proj2 messages_follow_the_fixed_order)) taskmaster_context t Ht);
      reflexivity.
Defined.

(** *** Labels *)

Lemma upperAtWordStart_titleCase prevWord s :
  upperAtWordStart prevWord (replaceUnderscores s) = titleCase (negb prevWord) s.
Proof.
  revert prevWord. induction s as [|c s IH]; intros prevWord; [reflexivity|].
  unfold replaceUnderscores in *. cbn [mapString upperAtWordStart titleCase].
  destruct (Ascii.eqb c underscore) eqn:Eu.
  - change (isWordChar space) with false. cbn [andb]. now rewrite IH.
  - unfold isWordChar. rewrite Eu, orb_false_r. fold (isAlnum c).
    destruct (isAlnum c); cbn [andb]; now rewrite IH.
Qed.

Lemma forEachAppend_lines {A} (f : A -> result string) xs acc r :
  forEachAppend f xs acc = Ok r ->
  exists lines,
    Forall2 (fun x line => f x = Ok line) xs lines
    /\ r = acc ++ concatLines lines.
Proof.
  revert acc. induction xs as [|x xs IH]; intros acc; cbn [forEachAppend].
  - intros [= <-]. exists []. split; [constructor|]. now rewrite append_nil_r.
  - destruct (f x) as [s|] eqn:E; [|discriminate]. cbn [rbind]. intros H.
    destruct (IH _ H) as (lines & Hl & ->). exists (s :: lines).
    split; [now constructor|]. cbn [concatLines fold_right].
    now rewrite append_assoc.
Qed.

Lemma sectionMessage_filter section r text finish ms r' :
  sectionMessage section r text finish ms ->
  filter (hasRole r') ms = if String.eqb r r' then ms else [].
Proof.
  unfold sectionMessage. destruct (truthy section).
  - intros (c & _ & ->). unfold hasRole. cbn [filter role].
    now destruct (String.eqb r r').
  - intros ->. now destruct (String.eqb r r').
Qed.

(** *** Occurrences and trimming *)

Lemma prefix_split (sub s : string) :
  String.prefix sub s = true -> exists b, s = sub ++ b.
Proof.
  revert s. induction sub as [|x sub IH]; intros s.
  - intros _. exists s. reflexivity.
  - destruct s as [|y s]; cbn [String.prefix]; [discriminate|].
    destruct (ascii_dec x y) as [->|]; [|discriminate].
    intros H. destruct (IH s H) as [b ->]. exists b. reflexivity.
Qed.

Lemma contains_split (sub s : string) :
  contains sub s = true -> exists a b, s = a ++ sub ++ b.
Proof.
  induction s as [|x s IH]; cbn [contains]; intros H; apply orb_true_iff in H.
  - destruct H as [H|H]; [|discriminate].
    destruct (prefix_split _ _ H) as [b ->]. exists "", b. reflexivity.
  - destruct H as [H|H].
    + destruct (prefix_split _ _ H) as [b ->]. exists "", b. reflexivity.
    + destruct (IH H) as (a & b & ->). exists (String x a), b. reflexivity.
Qed.

Lemma contains_append_l (sub s t : string) :
  contains sub s = true -> contains sub (s ++ t) = true.
Proof.
  intros H. destruct (contains_split _ _ H) as (a & b & ->).
  rewrite !append_assoc. apply contains_middle.
Qed.

Lemma trimStart_frame s : exists a, s = a ++ trimStart s /\ allWhite a = true.
Proof.
  induction s as [|c s (a & Ha & Hw)]; cbn [trimStart].
  - exists "". split; reflexivity.
  - destruct (isWhiteSpace c) eqn:Ec.
    + exists (String c a). cbn [append allWhite]. rewrite Ec, Hw, <- Ha. split; reflexivity.
    + exists "". split; reflexivity.
Qed.

Lemma trimEnd_frame s : exists b, s = trimEnd s ++ b /\ allWhite b = true.
Proof.
  induction s as [|c s (b & Hb & Hw)]; cbn [trimEnd].
  - exists "". split; reflexivity.
  - destruct (trimEnd s) as [|d r].
    + cbn [append] in Hb. subst b. destruct (isWhiteSpace c) eqn:Ec.
      * exists (String c s). cbn [append allWhite]. rewrite Ec, Hw. split; reflexivity.
      * exists s. split; [reflexivity|exact Hw].
    + exists b. cbn [append] in *. rewrite <- Hb. split; [reflexivity|exact Hw].
Qed.

(** Trimming takes white space off the two ends and nothing else. *)
Lemma trim_frame s :
  exists a b, s = a ++ trim s ++ b /\ allWhite a = true /\ allWhite b = true.
Proof.
  destruct (trimStart_frame s) as (a & Ha & Hwa).
  destruct (trimEnd_frame (trimStart s)) as (b & Hb & Hwb).
  exists a, b. unfold trim. rewrite <- Hb. auto.
Qed.

(** *** What each section contributes *)

(** The message of each section that is there, singled out by its role. *)
Lemma transform_messages pc t :
  transformProjectContext pc = Ok t ->
  (truthy (summaryOf pc) = true ->
   exists c, systemContent (summaryOf pc) = Ok c
             /\ filter (hasRole "system") (consensus_messages t) = [mkMessage "system" c])
  /\ (truthy (perspective pc "product") = true ->
      exists c, alexContent (perspective pc "product") = Ok c
                /\ filter (hasRole "alex") (consensus_messages t)
                   = [mkMessage "alex" (trim c)])
  /\ (truthy (perspective pc "technical") = true ->
      exists c, blakeContent (perspective pc "technical") = Ok c
                /\ filter (hasRole "blake") (consensus_messages t)
                   = [mkMessage "blake" (trim c)])
  /\ (truthy (perspective pc "project") = true ->
      exists c, caseyContent (perspective pc "project") = Ok c
                /\ filter (hasRole "casey") (consensus_messages t)
                   = [mkMessage "casey" (trim c)]).
Proof.
  intros Ht.
  destruct (transform_inv pc t Ht)
    as (sys & alex & blake & casey & -> & _ & Hs & Ha & Hb & Hc).
  repeat split; intros Hthere; rewrite !filter_app;
    match goal with
    | |- context [hasRole ?r] =>
        rewrite (sectionMessage_filter _ _ _ _ _ r Hs),
          (sectionMessage_filter _ _ _ _ _ r Ha),
          (sectionMessage_filter _ _ _ _ _ r Hb),
          (sectionMessage_filter _ _ _ _ _ r Hc)
    end;
    cbn [String.eqb Ascii.eqb Bool.eqb app];
    unfold sectionMessage in *; rewrite Hthere in *.
  - destruct Hs as (c & Hc' & ->). exists c. auto.
  - destruct Ha as (c & Hc' & ->). exists c. auto.
  - destruct Hb as (c & Hc' & ->). exists c. auto.
  - destruct Hc as (c & Hc' & ->). exists c. auto.
Qed.

Lemma contains_refl (s : string) : contains s s = true.
Proof. rewrite <- (append_nil_r s) at 2. apply contains_here, prefix_append. Qed.

Lemma contains_cons (sub : string) (c : ascii) (t : string) :
  contains sub t = true -> contains sub (String c t) = true.
Proof. apply (contains_append_r sub (String c "") t). Qed.

(** Finds [sub] in a text written as a chain of characters and appends. *)
Ltac find_occurrence :=
  first [ apply contains_here, prefix_append
        | apply contains_refl
        | apply contains_cons; find_occurrence
        | apply contains_append_r; find_occurrence ].

Lemma forEachAppend_shows {A} (f : A -> result string) xs acc r :
  forEachAppend f xs acc = Ok r ->
  (exists rest, r = acc ++ rest)
  /\ forall x, In x xs -> exists line, f x = Ok line /\ contains line r = true.
Proof.
  revert acc. induction xs as [|x xs IH]; intros acc; cbn [forEachAppend].
  - intros [= <-]. split; [exists ""; now rewrite append_nil_r|intros ? []].
  - destruct (f x) as [s|] eqn:E; [|discriminate]. cbn [rbind]. intros H.
    destruct (IH _ H) as ((rest & ->) & Hall). split.
    + exists (s ++ rest). now rewrite append_assoc.
    + intros y [<-|Hy]; [|now apply Hall].
      exists s. split; [exact E|]. rewrite append_assoc. apply contains_middle.
Qed.

Lemma jor_truthy a b : truthy a = true -> jor a b = a.
Proof. unfold jor. now intros ->. Qed.

(** Every sub-field of the technical perspective has its line in the text. *)
Lemma blakeContent_shows tech c :
  blakeContent tech = Ok c ->
  forall key, In key (objectKeys tech) ->
    exists s, toStr (prop tech key) = Ok s
              /\ contains (titleLabel key ++ ": " ++ s ++ LF) c = true.
Proof.
  intros H key Hkey. apply forEachAppend_shows in H. destruct H as [_ H].
  destruct (H key Hkey) as (line & Hline & Hin). unfold blakeLine in Hline.
  destruct (toStr (prop tech key)) as [s|]; [|discriminate].
  cbn [rbind] in Hline. injection Hline as <-. exists s. auto.
Qed.

(** The values of a summary that reach the metadata reach the system
    message too. *)
Lemma systemContent_shows ps c :
  truthy ps = true ->
  systemContent ps = Ok c ->
  forall k, In k (objectKeys (metadataOf ps)) ->
    truthy (prop (metadataOf ps) k) = true ->
    exists s, toStr (prop (metadataOf ps) k) = Ok s /\ contains s c = true.
Proof.
  intros Hps Hc k Hk Hv. unfold metadataOf in *. rewrite Hps in *.
  unfold systemContent in Hc.
  cbn [objectKeys map fst In] in Hk.
  repeat (destruct Hk as [<-|Hk]); try contradiction;
    cbn [prop lookup String.eqb Ascii.eqb Bool.eqb] in Hv |- *;
    rewrite (jor_truthy _ _ Hv) in Hc;
    repeat match type of Hc with
           | context [toStr ?v] =>
               let s := fresh "s" in
               destruct (toStr v) as [s|]; [|discriminate]; cbn [rbind] in Hc
           end;
    injection Hc as <-; eexists; (split; [reflexivity|find_occurrence]).
Qed.

(** One optional line: [if (v) { acc += render(v) }]. *)
Lemma stage_shows v acc (render : string -> string) c :
  (if truthy v then s <- toStr v ;; Ok (acc ++ render s) else Ok acc) = Ok c ->
  (exists rest, c = acc ++ rest)
  /\ (truthy v = true ->
      exists s, toStr v = Ok s /\ contains (render s) c = true).
Proof.
  destruct (truthy v).
  - destruct (toStr v) as [s|]; [|discriminate]. cbn [rbind]. intros [= <-].
    split; [eauto|]. intros _. exists s. split; [reflexivity|apply contains_suffix].
  - intros [= <-]. split; [exists ""; now rewrite append_nil_r|discriminate].
Qed.

(** Carries an occurrence along the appends that follow it. *)
Ltac keep_occurrence :=
  first [ eassumption | apply contains_append_l; keep_occurrence ].

(** The three decisions of the product perspective that the transformer
    reads have their lines in the text. *)
Lemma alexContent_shows product c :
  alexContent product = Ok c -> productShown product c.
Proof.
  unfold alexContent, productShown. intros H.
  destruct (if truthy (jor (prop product "mvp_features") _) then _ else _)
    as [c1|] eqn:E1; [|discriminate].
  cbn [rbind] in H.
  destruct (if truthy (jor (prop product "target_users") _) then _ else _)
    as [c2|] eqn:E2; [|discriminate].
  cbn [rbind] in H.
  apply (stage_shows _ c1 (fun s => LF ++ "Target Users: " ++ s)) in E2.
  apply (stage_shows _ c2 (fun s => LF ++ "Development Approach: " ++ s)) in H.
  destruct E2 as ((r2 & ->) & Husers), H as ((r3 & ->) & Happroach).
  repeat split.
  - intros Hf. rewrite Hf in E1.
    destruct (jor (prop product "mvp_features") _) as [ | | | | |l| ]; try discriminate E1.
    exists l. split; [reflexivity|]. intros x Hx.
    apply forEachAppend_shows in E1. destruct E1 as [_ E1].
    destruct (E1 x Hx) as (line & Hline & Hin).
    destruct (toStr x) as [s|]; [|discriminate]. cbn [rbind] in Hline.
    injection Hline as <-. exists s. split; [reflexivity|keep_occurrence].
  - intros Hu. destruct (Husers Hu) as (s & Hs & Hin).
    exists s. split; [exact Hs|keep_occurrence].
  - exact Happroach.
Qed.

(** So have the four decisions of the project perspective. *)
Lemma caseyContent_shows project c :
  caseyContent project = Ok c -> projectShown project c.
Proof.
  unfold caseyContent, projectShown. intros H.
  destruct (if truthy (prop project "timeline") then _ else _)
    as [c1|] eqn:E1; [|discriminate].
  cbn [rbind] in H.
  destruct (if truthy (prop project "team") then _ else _)
    as [c2|] eqn:E2; [|discriminate].
  cbn [rbind] in H.
  destruct (if truthy (prop project "milestones") then _ else _)
    as [c3|] eqn:E3; [|discriminate].
  cbn [rbind] in H.
  apply (stage_shows _ caseyHeader (fun s => "Timeline: " ++ s ++ LF)) in E1.
  apply (stage_shows _ c1 (fun s => "Team Composition: " ++ s ++ LF)) in E2.
  apply (stage_shows _ c3 (fun s => LF ++ "Testing Strategy: " ++ s)) in H.
  destruct E1 as (_ & Htimeline), E2 as ((r2 & ->) & Hteam), H as ((r4 & ->) & Htesting).
  assert (Hc3 : (exists r3, c3 = (c1 ++ r2) ++ r3)
                /\ (truthy (prop project "milestones") = true ->
                    forall key, In key (objectKeys (prop project "milestones")) ->
                      exists s, toStr (prop (prop project "milestones") key) = Ok s
                                /\ contains ("- " ++ milestoneLabel key ++ ": " ++ s ++ LF) c3
                                   = true)).
  { destruct (truthy (prop project "milestones")).
    - apply forEachAppend_shows in E3. destruct E3 as ((r3 & ->) & Hall). split.
      + exists ((LF ++ "Milestones:" ++ LF) ++ r3). now rewrite <- !append_assoc.
      + intros _ key Hkey. destruct (Hall key Hkey) as (line & Hline & Hin).
        unfold milestoneLine in Hline.
        destruct (toStr (prop (prop project "milestones") key)) as [s|];
          [|discriminate]. cbn [rbind] in Hline.
        injection Hline as <-. exists s. auto.
    - injection E3 as <-. split; [exists ""; now rewrite append_nil_r|discriminate]. }
  destruct Hc3 as ((r3 & ->) & Hmilestones).
  repeat split.
  - intros Ht. destruct (Htimeline Ht) as (s & Hs & Hin).
    exists s. split; [exact Hs|keep_occurrence].
  - intros Ht. destruct (Hteam Ht) as (s & Hs & Hin).
    exists s. split; [exact Hs|keep_occurrence].
  - intros Hm key Hkey. destruct (Hmilestones Hm key Hkey) as (s & Hs & Hin).
    exists s. split; [exact Hs|keep_occurrence].
  - exact Htesting.
Qed.

(** C5, as the code has it.  The label rule of the specification is the
    rule of the technical perspective: [titleLabel] puts a space for each
    underscore and upper-cases the first character of each run of letters
    and digits.  When the technical perspective is there, a run of the
    transformer that returns holds exactly one blake message, and its
    content is the trimmed text made of the heading followed by one line
    [Label: value] per sub-field, in the order of the keys.  The product and
    the project perspective give one message each as well, but their lines
    carry fixed labels, for the sub-fields the transformer names. *)
Theorem technical_labels_are_title_cased :
  (forall key, titleLabel key = titleCase true key)
  /\ (forall pc t,
        transformProjectContext pc = Ok t ->
        truthy (perspective pc "technical") = true ->
        exists lines,
          Forall2 (fun key line =>
                     exists s, toStr (prop (perspective pc "technical") key) = Ok s
                               /\ line = titleLabel key ++ ": " ++ s ++ LF)
                  (objectKeys (perspective pc "technical")) lines
          /\ filter (hasRole "blake") (consensus_messages t)
             = [mkMessage "blake" (trim (blakeHeader ++ concatLines lines))])
  /\ (forall pc t,
        transformProjectContext pc = Ok t ->
        truthy (perspective pc "product") = true ->
        exists text,
          filter (hasRole "alex") (consensus_messages t) = [mkMessage "alex" (trim text)]
          /\ productShown (perspective pc "product") text)
  /\ (forall pc t,
        transformProjectContext pc = Ok t ->
        truthy (perspective pc "project") = true ->
        exists text,
          filter (hasRole "casey") (consensus_messages t) = [mkMessage "casey" (trim text)]
          /\ projectShown (perspective pc "project") text).
Proof.
  split; [|split; [|split]].
  - intros key. apply (upperAtWordStart_titleCase false).
  - intros pc t Ht Hthere.
    destruct (proj1 (proj2 (proj2 (transform_messages pc t Ht))) Hthere)
      as (c & Hc & ->).
    apply forEachAppend_lines in Hc. destruct Hc as (lines & Hl & ->).
    exists lines. split; [|reflexivity].
    eapply Forall2_impl; [|exact Hl].
    intros key line. unfold blakeLine.
    destruct (toStr _) as [s|]; [|discriminate]. cbn [rbind]. intros [= <-].
    exists s. split; reflexivity.
  - intros pc t Ht Hthere.
    destruct (proj1 (proj2 (transform_messages pc t Ht)) Hthere)
      as (text & Htext & Hmsg).
    exists text. split; [exact Hmsg|now apply alexContent_shows].
  - intros pc t Ht Hthere.
    destruct (proj2 (proj2 (proj2 (transform_messages pc t Ht))) Hthere)
      as (text & Htext & Hmsg).
    exists text. split; [exact Hmsg|now apply caseyContent_shows].
Qed.

Lemma technical_labels_are_title_cased_witness :
  exists lines,
    Forall2 (fun key line =>
               exists s, toStr (prop (perspective taskmaster_context "technical") key) = Ok s
                         /\ line = titleLabel key ++ ": " ++ s ++ LF)
            ["frontend"] lines
    /\ filter (hasRole "blake")
              [ mkMessage "system" taskmaster_system; mkMessage "blake" taskmaster_blake ]
       = [mkMessage "blake" (trim (blakeHeader ++ concatLines lines))].
Proof.
  apply (proj1 (proj2 technical_labels_are_title_cased) taskmaster_context
           (mkTransformed [ mkMessage "system" taskmaster_system;
                            mkMessage "blake" taskmaster_blake ]
              (metadataOf (summaryOf taskmaster_context))));
    reflexivity.
Defined.

(** C5, as the specification words it, fails outside the technical
    perspective: the team of the project perspective is labelled
    [Team Composition], which is not the title-cased name of its field. *)
Lemma team_label_is_fixed :
  transformProjectContext teamContext
  = Ok (mkTransformed [mkMessage "casey" teamContent] (JObj []))
  /\ contains (titleLabel "team" ++ ": ") teamContent = false.
Proof. split; reflexivity. Qed.

(** *** What the transformer does not read *)

Lemma transform_bySections pc :
  nullish pc = false -> transformProjectContext pc = bySections pc.
Proof.
  intros Hn. unfold transformProjectContext, bySections, perspective.
  rewrite Hn. fold (summaryOf pc) (decisionsOf pc). cbn [app].
  destruct (if truthy (summaryOf pc) then _ else _) as [sys|]; [|reflexivity].
  cbn [rbind]. destruct (truthy (decisionsOf pc)).
  - destruct (pushPerspective sys "alex" _ _) as [m1|]; [|reflexivity]. cbn [rbind].
    destruct (pushPerspective m1 "blake" _ _) as [m2|]; [|reflexivity]. cbn [rbind].
    destruct (pushPerspective m2 "casey" _ _) as [m3|]; reflexivity.
  - reflexivity.
Qed.

(** Replaces every read of [a] by the same read of [b]. *)
Ltac read_same H :=
  repeat match goal with
         | |- context [prop ?a ?k] => rewrite (H k) by (cbn; tauto)
         end.

Lemma systemContent_same a b :
  (forall k, In k summaryFields -> prop a k = prop b k) ->
  systemContent a = systemContent b.
Proof. intros H. unfold systemContent. read_same H. reflexivity. Qed.

Lemma metadataOf_same a b : sameOn summaryFields a b -> metadataOf a = metadataOf b.
Proof. intros [Ht H]. unfold metadataOf. rewrite Ht. read_same H. reflexivity. Qed.

Lemma alexContent_same a b :
  (forall k, In k productFields -> prop a k = prop b k) ->
  alexContent a = alexContent b.
Proof. intros H. unfold alexContent. read_same H. reflexivity. Qed.

Lemma caseyContent_same a b :
  (forall k, In k projectFields -> prop a k = prop b k) ->
  caseyContent a = caseyContent b.
Proof. intros H. unfold caseyContent. read_same H. reflexivity. Qed.

Lemma pushPerspective_same ms r a b text :
  truthy a = truthy b -> text a = text b ->
  pushPerspective ms r a text = pushPerspective ms r b text.
Proof. intros Ht Hx. unfold pushPerspective. now rewrite Ht, Hx. Qed.

Lemma sameOn_budget :
  sameOn productFields (perspective budgetContext "product")
         (perspective noBudgetContext "product").
Proof.
  split; [reflexivity|]. intros k Hk. cbn [productFields In] in Hk.
  repeat (destruct Hk as [<-|Hk]; [reflexivity|]). contradiction.
Qed.

Lemma sameOn_refl names a : sameOn names a a.
Proof. split; reflexivity. Qed.

(** C6, as the code has it.  Whenever the transformer returns:
    - every sub-field of the technical perspective has its labelled line
      in the text whose trimmed form is the content of the blake message;
    - every value that the summary gives to the metadata and that is truthy
      stands in the system message as well;
    - of the product perspective the feature list, the target users and the
      development approach, and of the project perspective the timeline, the
      team, the milestones and the testing strategy, have their lines in the
      texts whose trimmed forms are the alex and casey contents, when they
      are truthy;
    - trimming only takes white space off the two ends of a text;
    - nothing else is read of the summary, the product perspective and the
      project perspective: two contexts that agree on the fields named above
      and on the technical perspective are transformed alike. *)
Theorem transformer_shows_what_it_reads :
  (forall pc t,
      transformProjectContext pc = Ok t ->
      truthy (perspective pc "technical") = true ->
      exists text,
        filter (hasRole "blake") (consensus_messages t) = [mkMessage "blake" (trim text)]
        /\ forall key, In key (objectKeys (perspective pc "technical")) ->
             exists s, toStr (prop (perspective pc "technical") key) = Ok s
                       /\ contains (titleLabel key ++ ": " ++ s ++ LF) text = true)
  /\ (forall pc t,
        transformProjectContext pc = Ok t ->
        truthy (summaryOf pc) = true ->
        exists text,
          filter (hasRole "system") (consensus_messages t) = [mkMessage "system" text]
          /\ forall k, In k (objectKeys (project_metadata t)) ->
               truthy (prop (project_metadata t) k) = true ->
               exists s, toStr (prop (project_metadata t) k) = Ok s
                         /\ contains s text = true)
  /\ (forall pc t,
        transformProjectContext pc = Ok t ->
        truthy (perspective pc "product") = true ->
        exists text,
          filter (hasRole "alex") (consensus_messages t) = [mkMessage "alex" (trim text)]
          /\ productShown (perspective pc "product") text)
  /\ (forall pc t,
        transformProjectContext pc = Ok t ->
        truthy (perspective pc "project") = true ->
        exists text,
          filter (hasRole "casey") (consensus_messages t) = [mkMessage "casey" (trim text)]
          /\ projectShown (perspective pc "project") text)
  /\ (forall text,
        exists a b, text = a ++ trim text ++ b /\ allWhite a = true /\ allWhite b = true)
  /\ (forall pc pc',
        nullish pc = false -> nullish pc' = false ->
        sameOn summaryFields (summaryOf pc) (summaryOf pc') ->
        sameOn productFields (perspective pc "product") (perspective pc' "product") ->
        perspective pc "technical" = perspective pc' "technical" ->
        sameOn projectFields (perspective pc "project") (perspective pc' "project") ->
        transformProjectContext pc = transformProjectContext pc').
Proof.
  repeat split.
  - intros pc t Ht Hthere.
    destruct (proj1 (proj2 (proj2 (transform_messages pc t Ht))) Hthere)
      as (text & Htext & Hmsg).
    exists text. split; [exact Hmsg|]. now apply blakeContent_shows.
  - intros pc t Ht Hthere.
    destruct (proj1 (transform_messages pc t Ht) Hthere) as (text & Htext & Hmsg).
    exists text. split; [exact Hmsg|].
    destruct (transform_inv pc t Ht) as (_ & _ & _ & _ & _ & -> & _).
    now apply systemContent_shows.
  - intros pc t Ht Hthere.
    destruct (proj1 (proj2 (transform_messages pc t Ht)) Hthere)
      as (text & Htext & Hmsg).
    exists text. split; [exact Hmsg|now apply alexContent_shows].
  - intros pc t Ht Hthere.
    destruct (proj2 (proj2 (proj2 (transform_messages pc t Ht))) Hthere)
      as (text & Htext & Hmsg).
    exists text. split; [exact Hmsg|now apply caseyContent_shows].
  - apply trim_frame.
  - intros pc pc' Hn Hn' Hs Ha Hb Hc.
    rewrite !transform_bySections by assumption. unfold bySections.
    rewrite (metadataOf_same _ _ Hs), <- Hb.
    destruct Hs as [Hst Hs], Ha as [Hat Ha], Hc as [Hct Hc].
    rewrite Hst, (systemContent_same _ _ Hs).
    destruct (if truthy (summaryOf pc') then _ else _) as [sys|]; [|reflexivity].
    cbn [rbind].
    rewrite (pushPerspective_same sys "alex" _ _ alexContent Hat (alexContent_same _ _ Ha)).
    destruct (pushPerspective sys "alex" _ _) as [m1|]; [|reflexivity]. cbn [rbind].
    destruct (pushPerspective m1 "blake" _ _) as [m2|]; [|reflexivity]. cbn [rbind].
    rewrite (pushPerspective_same m2 "casey" _ _ caseyContent Hct (caseyContent_same _ _ Hc)).
    reflexivity.
Qed.

Lemma transformer_shows_what_it_reads_witness :
  transformProjectContext budgetContext = transformProjectContext noBudgetContext
  /\ exists text,
       filter (hasRole "blake")
              [ mkMessage "system" taskmaster_system; mkMessage "blake" taskmaster_blake ]
       = [mkMessage "blake" (trim text)]
       /\ forall key, In key ["frontend"] ->
            exists s, toStr (prop (perspective taskmaster_context "technical") key) = Ok s
                      /\ contains (titleLabel key ++ ": " ++ s ++ LF) text = true.
Proof.
  split.
  - apply (proj2 (proj2 (proj2 (proj2 (proj2 transformer_shows_what_it_reads))))
             budgetContext noBudgetContext).
    + reflexivity.
    + reflexivity.
    + exact (sameOn_refl summaryFields (summaryOf noBudgetContext)).
    + exact sameOn_budget.
    + reflexivity.
    + exact (sameOn_refl projectFields (perspective noBudgetContext "project")).
  - apply (proj1 transformer_shows_what_it_reads taskmaster_context
             (mkTransformed [ mkMessage "system" taskmaster_system;
                              mkMessage "blake" taskmaster_blake ]
                (metadataOf (summaryOf taskmaster_context))));
      reflexivity.
Defined.

(** C6, as the specification words it, fails: a decision of the product
    perspective that the transformer has no line for reaches neither a
    message nor the metadata, though it is not [questions_and_answers]. *)
Lemma unread_decision_is_dropped :
  transformProjectContext budgetContext = Ok budgetResult
  /\ prop (perspective budgetContext "product") "budget" = JStr "10k"
  /\ appears "10k" budgetResult = false.
Proof. repeat split; reflexivity. Qed.

(** *** The two spellings of a summary field *)

(** C8, as the code has it.  For each field of the summary that has two
    spellings, the metadata takes the snake_case value when that value is
    truthy and the camelCase value otherwise (also when the snake_case key
    is there with an empty or otherwise falsy value); the system message
    prints the same choice, or the fallback text when the choice is falsy. *)
Theorem snake_case_wins_when_truthy :
  forall pc t,
    transformProjectContext pc = Ok t ->
    truthy (summaryOf pc) = true ->
    (forall f,
        prop (project_metadata t) (snakeKey f) = preferred (summaryOf pc) f
        /\ (truthy (prop (summaryOf pc) (snakeKey f)) = true ->
            preferred (summaryOf pc) f = prop (summaryOf pc) (snakeKey f)
            /\ printed (summaryOf pc) f = prop (summaryOf pc) (snakeKey f))
        /\ (truthy (prop (summaryOf pc) (snakeKey f)) = false ->
            preferred (summaryOf pc) f = prop (summaryOf pc) (camelKey f)))
    /\ exists name description users platform timeline team,
         filter (hasRole "system") (consensus_messages t)
         = [mkMessage "system"
              (systemTemplate name description users platform timeline team)]
         /\ toStr (printed (summaryOf pc) ProjectName) = Ok name
         /\ toStr (printed (summaryOf pc) ProjectDescription) = Ok description
         /\ toStr (printed (summaryOf pc) TargetUsers) = Ok users
         /\ toStr (printed (summaryOf pc) TeamSize) = Ok team.
Proof.
  intros pc t Ht Hthere. split.
  - intros f.
    destruct (transform_inv pc t Ht) as (_ & _ & _ & _ & _ & -> & _).
    unfold metadataOf. rewrite Hthere. split; [|split].
    + destruct f; reflexivity.
    + intros H. unfold printed, preferred. rewrite H. cbv iota. rewrite H.
      split; reflexivity.
    + intros H. unfold preferred. now rewrite H.
  - destruct (proj1 (transform_messages pc t Ht) Hthere) as (c & Hc & Hmsg).
    unfold systemContent in Hc.
    change (jor (jor (prop (summaryOf pc) "project_name") _) _)
      with (printed (summaryOf pc) ProjectName) in Hc.
    change (jor (jor (prop (summaryOf pc) "project_description") _) _)
      with (printed (summaryOf pc) ProjectDescription) in Hc.
    change (jor (jor (prop (summaryOf pc) "target_users") _) _)
      with (printed (summaryOf pc) TargetUsers) in Hc.
    change (jor (jor (prop (summaryOf pc) "team_size") _) _)
      with (printed (summaryOf pc) TeamSize) in Hc.
    destruct (toStr (printed _ ProjectName)) as [name|]; [|discriminate].
    destruct (toStr (printed _ ProjectDescription)) as [description|]; [|discriminate].
    destruct (toStr (printed _ TargetUsers)) as [users|]; [|discriminate].
    cbn [rbind] in Hc.
    destruct (toStr (jor (prop _ "platform") _)) as [platform|]; [|discriminate].
    destruct (toStr (jor (prop _ "timeline") _)) as [timeline|]; [|discriminate].
    destruct (toStr (printed _ TeamSize)) as [team|]; [|discriminate].
    cbn [rbind] in Hc. injection Hc as <-.
    exists name, description, users, platform, timeline, team.
    rewrite Hmsg. auto 10.
Qed.

Lemma snake_case_wins_when_truthy_witness :
  exists t,
    transformProjectContext bothNamesContext = Ok t
    /\ prop (project_metadata t) "project_name" = JStr "Snake".
Proof.
  destruct (transformProjectContext bothNamesContext) as [t|] eqn:Ht;
    [|discriminate Ht].
  exists t. split; [reflexivity|].
  destruct (snake_case_wins_when_truthy bothNamesContext t Ht eq_refl) as [H _].
  destruct (H ProjectName) as (Hmeta & Hsnake & _).
  cbn [snakeKey] in Hmeta. rewrite Hmeta.
  exact (proj1 (Hsnake eq_refl)).
Defined.

(** C8, as the specification words it, fails: with both spellings of the
    name there and the snake_case one empty, the transformer takes the
    camelCase value, in the message and in the metadata. *)
Lemma empty_snake_case_gives_way :
  hasKey "project_name"
         [ ("project_name", JStr ""); ("projectName", JStr "Camel") ] = true
  /\ transformProjectContext twoNamesContext = Ok twoNamesResult
  /\ prop (project_metadata twoNamesResult) "project_name" = JStr "Camel"
  /\ prop (summaryOf twoNamesContext) "project_name" = JStr "".
Proof. repeat split; reflexivity. Qed.

(** ** The credential resolver *)

Lemma keyFor_named aiConfig p :
  Bearer.keyFor aiConfig (JStr (providerText p)) = prop aiConfig (keyField p).
Proof. destruct p; reflexivity. Qed.

Lemma prop_nullish v k : nullish v = true -> prop v k = JUndefined.
Proof. destruct v; try discriminate; reflexivity. Qed.

Lemma truthy_not_nullish v : truthy v = true -> nullish v = false.
Proof. destruct v; try discriminate; reflexivity. Qed.

Lemma keyFor_truthy aiConfig name :
  truthy (Bearer.keyFor aiConfig name) = true ->
  exists p, name = JStr (providerText p)
            /\ Bearer.keyFor aiConfig name = prop aiConfig (keyField p).
Proof.
  unfold Bearer.keyFor.
  destruct (strictEq name "anthropic") eqn:E1;
    [apply strictEq_true in E1; exists anthropic; now split|].
  destruct (strictEq name "openai") eqn:E2;
    [apply strictEq_true in E2; exists openai; now split|].
  destruct (strictEq name "openrouter") eqn:E3;
    [apply strictEq_true in E3; exists openrouter; now split|].
  discriminate.
Qed.

Lemma keyFor_unnamed aiConfig name :
  (forall p, name <> JStr (providerText p)) -> Bearer.keyFor aiConfig name = JUndefined.
Proof.
  intros H. destruct (truthy (Bearer.keyFor aiConfig name)) eqn:E.
  - destruct (keyFor_truthy _ _ E) as (p & Hp & _). now destruct (H p).
  - unfold Bearer.keyFor in *.
    destruct (strictEq name "anthropic") eqn:E1;
      [apply strictEq_true in E1; now destruct (H anthropic)|].
    destruct (strictEq name "openai") eqn:E2;
      [apply strictEq_true in E2; now destruct (H openai)|].
    destruct (strictEq name "openrouter") eqn:E3;
      [apply strictEq_true in E3; now destruct (H openrouter)|].
    reflexivity.
Qed.

(** C10, as the code has it.  Given a record with an AI-provider section:
    when the section has no table of preferences the resolver throws the
    [TypeError] of reading the task in it, for the default pair is tried
    only once the table has been read.  When the table is there the
    resolver goes by the preference of the task when it is set and by the
    pair anthropic / claude-sonnet-4.5 otherwise; if the preference names
    one of the three providers, it throws [API key not found for provider: ]
    followed by the provider exactly when the key field of that provider is
    not populated (absent or empty), and otherwise returns the provider, the
    model of the preference and the key; if it names anything else, it
    throws that error with the name it finds. *)
Theorem resolver_selects_then_checks_the_key :
  forall config task,
    let aiConfig := prop (prop config "configs") "aiProvider" in
    let preferences := prop aiConfig "preferences" in
    let preference := selectedPreference aiConfig task in
    truthy aiConfig = true ->
    (nullish preferences = true ->
     Bearer.getAIProviderForTask config task
     = Throw (cannotRead preferences (Bearer.taskKey task)))
    /\ (nullish preferences = false ->
        (truthy (prop preferences (Bearer.taskKey task)) = false ->
         preference = Bearer.defaultPreference
         /\ prop preference "provider" = JStr (providerText anthropic)
         /\ prop preference "model" = JStr "claude-sonnet-4.5")
        /\ (truthy (prop preferences (Bearer.taskKey task)) = true ->
            preference = prop preferences (Bearer.taskKey task))
        /\ (forall p,
              prop preference "provider" = JStr (providerText p) ->
              (Bearer.getAIProviderForTask config task
               = Throw (Error ("API key not found for provider: " ++ providerText p))
               <-> truthy (prop aiConfig (keyField p)) = false)
              /\ (truthy (prop aiConfig (keyField p)) = true ->
                  Bearer.getAIProviderForTask config task
                  = Ok (Bearer.mkAIProvider (JStr (providerText p))
                                            (prop preference "model")
                                            (prop aiConfig (keyField p)))))
        /\ ((forall p, prop preference "provider" <> JStr (providerText p)) ->
            forall name,
              toStr (prop preference "provider") = Ok name ->
              Bearer.getAIProviderForTask config task
              = Throw (Error ("API key not found for provider: " ++ name)))).
Proof.
  intros config task aiConfig preferences preference Hai.
  assert (Hcs : nullish (prop config "configs") = false).
  { destruct (nullish (prop config "configs")) eqn:E; [|reflexivity].
    unfold aiConfig in Hai. rewrite (prop_nullish _ _ E) in Hai. discriminate Hai. }
  assert (Hc : nullish config = false).
  { destruct (nullish config) eqn:E; [|reflexivity].
    rewrite (prop_nullish _ _ E) in Hcs. discriminate Hcs. }
  assert (Hrun : Bearer.getAIProviderForTask config task
                 = if nullish preferences then
                     Throw (cannotRead preferences (Bearer.taskKey task))
                   else if negb (truthy (Bearer.keyFor aiConfig
                                           (prop preference "provider"))) then
                     name <- toStr (prop preference "provider") ;;
                     Throw (Error ("API key not found for provider: " ++ name))
                   else Ok (Bearer.mkAIProvider
                              (prop preference "provider") (prop preference "model")
                              (Bearer.keyFor aiConfig (prop preference "provider")))).
  { unfold Bearer.getAIProviderForTask. rewrite Hc, Hcs. fold aiConfig.
    rewrite Hai. reflexivity. }
  split.
  - intros Hno. rewrite Hrun, Hno. reflexivity.
  - intros Hpref. rewrite Hpref in Hrun. split; [|split; [|split]].
    + intros H.
      assert (Hd : preference = Bearer.defaultPreference)
        by (unfold preference, selectedPreference; fold preferences; now rewrite H).
      rewrite Hd. repeat split.
    + intros H. unfold preference, selectedPreference. fold preferences.
      now rewrite H.
    + intros p Hp. rewrite Hrun, Hp, keyFor_named.
      destruct (truthy (prop aiConfig (keyField p))); cbn [negb toStr rbind].
      * split; [split; discriminate|reflexivity].
      * split; [split; reflexivity|discriminate].
    + intros Hother name Hname.
      rewrite Hrun, (keyFor_unnamed aiConfig _ Hother). cbn [truthy negb].
      rewrite Hname. reflexivity.
Qed.

Lemma resolver_selects_then_checks_the_key_witness :
  Bearer.getAIProviderForTask registryRecord Bearer.epicGeneration
  = Ok (Bearer.mkAIProvider (JStr "anthropic") (JStr "claude-sonnet-4.5")
                            (JStr "sk-ant-1"))
  /\ Bearer.getAIProviderForTask registryRecord Bearer.storyGeneration
     = Throw (Error "API key not found for provider: openai").
Proof.
  split.
  - apply (proj2 (proj1 (proj2 (proj2
             (proj2 (resolver_selects_then_checks_the_key
                       registryRecord Bearer.epicGeneration eq_refl) eq_refl)))
             anthropic eq_refl)).
    reflexivity.
  - apply (proj1 (proj1 (proj2 (proj2
             (proj2 (resolver_selects_then_checks_the_key
                       registryRecord Bearer.storyGeneration eq_refl) eq_refl)))
             openai eq_refl)).
    reflexivity.
Defined.

(** C10, as the specification words it, fails: this record has an
    AI-provider section, no preference for the task and the key of
    anthropic, yet the resolver does not fall back to the default pair.  It
    throws on reading the task in a table of preferences that is not
    there. *)
Lemma default_is_not_tried_without_preferences :
  truthy (prop (prop keysOnlyRecord "configs") "aiProvider") = true
  /\ prop (prop (prop keysOnlyRecord "configs") "aiProvider") "anthropicApiKey"
     = JStr "sk-ant-1"
  /\ prop (prop (prop keysOnlyRecord "configs") "aiProvider") "preferences"
     = JUndefined
  /\ Bearer.getAIProviderForTask keysOnlyRecord Bearer.epicGeneration
     = Throw (TypeError "Cannot read properties of undefined (reading 'epicGeneration')").
Proof. repeat split; reflexivity. Qed.

(* ================================================================== *)
(** * Further properties of the route *)

(** ** The handlers of [route.ts] *)

(** What stands in every request a handler sends. *)
Lemma handler_request tool w args :
  (exists e, handlerOf tool w args = ([], Throw e))
  \/ (exists t body,
        transformProjectContext (prop args "project_context") = Ok t
        /\ prop body "consensus_messages" = JArr (map messageVal (consensus_messages t))
        /\ prop body "project_metadata" = project_metadata t
        /\ calls (handlerOf tool w args)
           = [servicePost w (pathOf tool) body (timeoutOf tool)]).
Proof.
  destruct tool; simpl;
    [unfold Route.handleGenerateEpics | unfold Route.handleGenerateStories
     | unfold Route.handleRegenerateEpic | unfold Route.handleRegenerateStory];
    repeat match goal with
           | |- context [if ?b then _ else _] => destruct b
           end;
    try (left; eexists; reflexivity);
    (destruct (transformProjectContext _) as [t|e];
     [rewrite bind_lift_Ok, callService_calls; right; exists t; eexists;
      repeat split; reflexivity
     |left; eexists; reflexivity]).
Qed.

(** X1.  A handler of [route.ts] never sends more than one request (there
    is no retry), and the request it sends is a POST to the configured base
    URL, the one the health check reports, followed by the path of the
    operation, with the time-out of the operation; its body carries the
    messages and the metadata the transformer made of the context. *)
Theorem handlers_send_one_request :
  forall tool w args c,
    In c (calls (handlerOf tool w args)) ->
    calls (handlerOf tool w args) = [c]
    /\ call_method c = HttpPost
    /\ prop (Route.GET w) "service_url" = JStr (STORYCRAFTER_SERVICE_URL w)
    /\ call_url c = STORYCRAFTER_SERVICE_URL w ++ pathOf tool
    /\ call_timeout c = timeoutOf tool
    /\ exists t,
         transformProjectContext (prop args "project_context") = Ok t
         /\ prop (call_body c) "consensus_messages"
            = JArr (map messageVal (consensus_messages t))
         /\ prop (call_body c) "project_metadata" = project_metadata t.
Proof.
  intros tool w args c Hin.
  destruct (handler_request tool w args) as [[e H]|(t & body & Ht & Hm & Hd & H)].
  - rewrite H in Hin. destruct Hin.
  - rewrite H in Hin |- *. destruct Hin as [<-|[]].
    repeat split; try reflexivity. exists t. auto.
Qed.

Lemma handlers_send_one_request_witness :
  List.length (calls (Route.handleRegenerateStory silentWorld storyArgs)) = 1%nat
  /\ call_timeout (hd noCall (calls (Route.handleRegenerateStory silentWorld storyArgs)))
     = 180000.
Proof.
  destruct (handlers_send_one_request RegenerateStory silentWorld storyArgs
              (hd noCall (calls (Route.handleRegenerateStory silentWorld storyArgs))))
    as (Hone & _ & _ & _ & Htime & _).
  - vm_compute. left. reflexivity.
  - split; [exact (f_equal (@List.length Call) Hone)|exact Htime].
Defined.

(** X2.  When the backend answers 2xx with a truthy [success], the handler
    returns one text item: the JSON of [success: true], the field of the
    operation and the [metadata], both as the backend gave them.  Nothing
    else of the answer is passed on. *)
Theorem success_is_relayed :
  forall tool w args c r,
    calls (handlerOf tool w args) = [c] ->
    network w c = Replies r ->
    is2xx r = true ->
    truthy (prop (data r) "success") = true ->
    outcome (handlerOf tool w args) = Ok (relayed tool (data r)).
Proof.
  intros tool w args c r Hc Hr H2 Hs.
  rewrite (handler_reached _ _ _ _ Hc). unfold settled, axiosSettle.
  rewrite Hr. unfold is2xx in H2. rewrite H2. unfold Route.unwrap.
  assert (Hn : nullish (data r) = false) by (destruct (data r); try reflexivity; discriminate).
  rewrite Hn, Hs. reflexivity.
Qed.

Lemma success_is_relayed_witness :
  outcome (Route.handleGenerateEpics (answering epicsResponse) taskmaster_args)
  = Ok (relayed GenerateEpics epicsAnswer).
Proof.
  apply (success_is_relayed GenerateEpics (answering epicsResponse) taskmaster_args
           (hd noCall (calls (Route.handleGenerateEpics (answering epicsResponse)
                                taskmaster_args)))
           epicsResponse); reflexivity.
Defined.

Lemma negb_objectLike v : negb (truthy v) || negb (typeofObject v) = negb (objectLike v).
Proof. unfold objectLike. now rewrite negb_andb. Qed.

Lemma negb_feedbackGiven v :
  negb (truthy v) || negb (typeofString v) = negb (feedbackGiven v).
Proof. unfold feedbackGiven. now rewrite negb_andb. Qed.

Lemma feedbackGiven_string v :
  feedbackGiven v = true -> exists s, v = JStr s /\ s <> "".
Proof.
  unfold feedbackGiven. destruct v; simpl; rewrite ?andb_false_r; try discriminate.
  rewrite andb_true_r. intros H. exists s. split; [reflexivity|].
  intros ->. discriminate.
Qed.

(** X3.  [handleGenerateEpics] reads the two sections of the context under
    their snake_case names only: a context without a truthy
    [project_summary] or [final_decisions] is refused before any call, also
    when it has the camelCase properties the transformer would accept.  The
    other handlers have no such check: [handleGenerateStories] sends its
    request for every object context that transforms. *)
Theorem generate_epics_wants_snake_case_sections :
  forall w args,
    Route.contextInvalid (prop args "project_context") = false ->
    (truthy (prop (prop args "project_context") "project_summary")
     && truthy (prop (prop args "project_context") "final_decisions") = false ->
     Route.handleGenerateEpics w args = ([], Throw (Error sectionsMessage)))
    /\ (forall t,
          transformProjectContext (prop args "project_context") = Ok t ->
          (truthy (prop (prop args "project_context") "project_summary")
           && truthy (prop (prop args "project_context") "final_decisions") = true ->
           List.length (calls (Route.handleGenerateEpics w args)) = 1%nat)
          /\ (isArray (prop args "epics") = true ->
              List.length (calls (Route.handleGenerateStories w args)) = 1%nat)).
Proof.
  intros w args Hctx. split.
  - intros H. unfold Route.handleGenerateEpics. rewrite Hctx.
    rewrite <- negb_andb, H. reflexivity.
  - intros t Ht. split.
    + intros H. unfold Route.handleGenerateEpics.
      rewrite Hctx, <- negb_andb, H, Ht. cbn [negb].
      rewrite bind_lift_Ok, callService_calls. reflexivity.
    + intros H. unfold Route.handleGenerateStories. rewrite Hctx.
      destruct (prop args "epics"); try discriminate H. cbn [truthy isArray negb orb].
      rewrite Ht, bind_lift_Ok, callService_calls. reflexivity.
Qed.

Lemma generate_epics_wants_snake_case_sections_witness :
  Route.handleGenerateEpics silentWorld
    (JObj [ ("project_context", camelContext); ("epics", JArr [epicOne]) ])
  = ([], Throw (Error sectionsMessage))
  /\ List.length (calls (Route.handleGenerateStories silentWorld
                           (JObj [ ("project_context", camelContext);
                                   ("epics", JArr [epicOne]) ]))) = 1%nat.
Proof.
  destruct (generate_epics_wants_snake_case_sections silentWorld
              (JObj [ ("project_context", camelContext); ("epics", JArr [epicOne]) ])
              eq_refl) as [Hrefused Hsent].
  split; [apply Hrefused; reflexivity|].
  destruct (transformProjectContext camelContext) as [t|] eqn:Ht; [|discriminate Ht].
  apply (proj2 (Hsent t Ht)). reflexivity.
Defined.

(** Splits a goal into its cases and closes those that are plain: a call
    that is in no trace, an equation between different constructors, a fact
    at hand. *)
Ltac settle_cases :=
  repeat match goal with
         | |- _ /\ _ => split
         | |- forall _, _ => intro
         | H : False |- _ => destruct H
         | H : In _ (calls _) |- _ => progress (cbn [calls fst In throw lift ret bind] in H)
         | H : In _ [_] |- _ => destruct H as [H|[]]
         | H : _ \/ False |- _ => destruct H as [H|[]]
         | H : _ = ?c |- context [?c] => is_var c; subst c
         | H : true = false |- _ => discriminate H
         | H : false = true |- _ => discriminate H
         end;
  try reflexivity; try assumption.

(** X4.  The two regeneration handlers check their arguments in a fixed
    order, each check with its own message, and a failed check means no
    call: first the context, which must be an object; then the epic, an
    object or an array; then, for a story, the story, likewise; then the
    feedback, a string that is not empty.  A context that is not an object
    is reported as such whatever the other arguments are.  A request is
    sent only when every check passes, and when they pass and the context
    transforms the request is sent: one POST to the path of the tool, with
    the epic, the story and the feedback exactly as they came beside the
    messages and the metadata of the transformer. *)
Theorem regeneration_checks_its_arguments :
  forall w args,
    (Route.contextInvalid (prop args "project_context") = true ->
     Route.handleRegenerateEpic w args = ([], Throw (Error contextMessage))
     /\ Route.handleRegenerateStory w args = ([], Throw (Error contextMessage)))
    /\ (forall t,
          Route.contextInvalid (prop args "project_context") = false ->
          objectLike (prop args "epic") = true ->
          feedbackGiven (prop args "user_feedback") = true ->
          transformProjectContext (prop args "project_context") = Ok t ->
          calls (Route.handleRegenerateEpic w args)
          = [ servicePost w "/regenerate-epic"
                (JObj [ ("epic", prop args "epic");
                        ("user_feedback", prop args "user_feedback");
                        ("consensus_messages",
                         JArr (map messageVal (consensus_messages t)));
                        ("project_metadata", project_metadata t) ])
                60000 ]
          /\ (objectLike (prop args "story") = true ->
              calls (Route.handleRegenerateStory w args)
              = [ servicePost w "/regenerate-story"
                    (JObj [ ("epic", prop args "epic");
                            ("story", prop args "story");
                            ("user_feedback", prop args "user_feedback");
                            ("consensus_messages",
                             JArr (map messageVal (consensus_messages t)));
                            ("project_metadata", project_metadata t) ])
                    180000 ]))
    /\
    (forall c,
        In c (calls (Route.handleRegenerateEpic w args)) ->
        Route.contextInvalid (prop args "project_context") = false
        /\ objectLike (prop args "epic") = true
        /\ (exists s, prop args "user_feedback" = JStr s /\ s <> "")
        /\ prop (call_body c) "epic" = prop args "epic"
        /\ prop (call_body c) "user_feedback" = prop args "user_feedback")
    /\ (forall c,
          In c (calls (Route.handleRegenerateStory w args)) ->
          Route.contextInvalid (prop args "project_context") = false
          /\ objectLike (prop args "epic") = true
          /\ objectLike (prop args "story") = true
          /\ (exists s, prop args "user_feedback" = JStr s /\ s <> "")
          /\ prop (call_body c) "epic" = prop args "epic"
          /\ prop (call_body c) "story" = prop args "story"
          /\ prop (call_body c) "user_feedback" = prop args "user_feedback")
    /\ (Route.contextInvalid (prop args "project_context") = false ->
        (objectLike (prop args "epic") = false ->
         Route.handleRegenerateEpic w args = ([], Throw (Error epicMessage))
         /\ Route.handleRegenerateStory w args = ([], Throw (Error epicMessage)))
        /\ (objectLike (prop args "epic") = true ->
            (feedbackGiven (prop args "user_feedback") = false ->
             Route.handleRegenerateEpic w args = ([], Throw (Error feedbackMessage)))
            /\ (objectLike (prop args "story") = false ->
                Route.handleRegenerateStory w args = ([], Throw (Error storyMessage)))
            /\ (objectLike (prop args "story") = true ->
                feedbackGiven (prop args "user_feedback") = false ->
                Route.handleRegenerateStory w args
                = ([], Throw (Error feedbackMessage))))).
Proof.
  intros w args.
  split; [|split].
  - intros Hctx. unfold Route.handleRegenerateEpic, Route.handleRegenerateStory.
    rewrite Hctx. split; reflexivity.
  - intros t Hctx Hepic Hfb Ht.
    unfold Route.handleRegenerateEpic, Route.handleRegenerateStory.
    rewrite !negb_objectLike, !negb_feedbackGiven, Hctx, Hepic, Hfb, Ht.
    cbn [negb]. split.
    + rewrite bind_lift_Ok, callService_calls. reflexivity.
    + intros Hstory. rewrite Hstory. cbn [negb].
      rewrite bind_lift_Ok, callService_calls. reflexivity.
  - unfold Route.handleRegenerateEpic, Route.handleRegenerateStory.
    rewrite !negb_objectLike, !negb_feedbackGiven.
    destruct (Route.contextInvalid _); [settle_cases|].
    destruct (objectLike (prop args "epic")); cbn [negb]; [|settle_cases].
    destruct (objectLike (prop args "story")) eqn:Estory;
      (destruct (feedbackGiven (prop args "user_feedback")) eqn:Efb; cbn [negb];
       [apply feedbackGiven_string in Efb|]);
      try (destruct (transformProjectContext _) as [t|e];
           [rewrite !bind_lift_Ok, !callService_calls|]);
      settle_cases.
Qed.

Lemma regeneration_checks_its_arguments_witness :
  prop (call_body (hd noCall (calls (Route.handleRegenerateStory silentWorld storyArgs))))
       "user_feedback" = JStr "Add email verification"
  /\ Route.handleRegenerateEpic silentWorld
       (JObj [ ("project_context", taskmaster_context); ("epic", epicOne);
               ("user_feedback", JStr "") ])
     = ([], Throw (Error feedbackMessage))
  /\ Route.handleRegenerateStory silentWorld
       (JObj [ ("project_context", JStr "TaskMaster"); ("epic", JNum 3) ])
     = ([], Throw (Error contextMessage))
  /\ List.length (calls (Route.handleRegenerateStory silentWorld storyArgs)) = 1%nat.
Proof.
  split; [|split; [|split]].
  - destruct (proj1 (proj2 (proj2 (proj2
                (regeneration_checks_its_arguments silentWorld storyArgs))))
                (hd noCall (calls (Route.handleRegenerateStory silentWorld storyArgs))))
      as (_ & _ & _ & _ & _ & _ & H).
    + vm_compute. left. reflexivity.
    + exact H.
  - apply (proj2 (proj2 (proj2 (proj2 (regeneration_checks_its_arguments silentWorld
             (JObj [ ("project_context", taskmaster_context); ("epic", epicOne);
                     ("user_feedback", JStr "") ]))))) eq_refl); reflexivity.
  - apply (proj2 (proj1 (regeneration_checks_its_arguments silentWorld
             (JObj [ ("project_context", JStr "TaskMaster"); ("epic", JNum 3) ]))
             eq_refl)).
  - rewrite (proj2 (proj1 (proj2 (regeneration_checks_its_arguments silentWorld storyArgs))
               (mkTransformed [ mkMessage "system" taskmaster_system;
                                mkMessage "blake" taskmaster_blake ]
                              taskmaster_metadata)
               eq_refl eq_refl eq_refl eq_refl) eq_refl).
    reflexivity.
Defined.

(** ** The dispatcher of [route.ts] *)

Lemma strictEq_named toolName tool :
  toolName = JStr (nameOf tool) ->
  strictEq toolName "generate_epics"
  = match tool with GenerateEpics => true | _ => false end
  /\ strictEq toolName "generate_stories"
     = match tool with GenerateStories => true | _ => false end
  /\ strictEq toolName "regenerate_epic"
     = match tool with RegenerateEpic => true | _ => false end
  /\ strictEq toolName "regenerate_story"
     = match tool with RegenerateStory => true | _ => false end.
Proof. intros ->. destruct tool; repeat split; reflexivity. Qed.

Lemma knownTool_named toolName :
  knownTool toolName = true -> exists tool, toolName = JStr (nameOf tool).
Proof.
  unfold knownTool. simpl. intros H.
  repeat (apply orb_true_iff in H; destruct H as [H|H]);
    try discriminate H; apply strictEq_true in H;
    [exists GenerateEpics | exists GenerateStories
     | exists RegenerateEpic | exists RegenerateStory]; exact H.
Qed.

(** The answer to a call of a known tool. *)
Lemma known_tool_answer w request body tool :
  Route.request_json request = Ok body ->
  nullish body = false ->
  strictEq (prop body "method") "tools/call" = true ->
  prop (prop body "params") "tool" = JStr (nameOf tool) ->
  Route.POST w request
  = (calls (handlerOf tool w (argumentsOf body)),
     Ok (answerOf (outcome (handlerOf tool w (argumentsOf body))))).
Proof.
  intros Hjson Hnull Hcall Htool.
  unfold Route.POST. rewrite Hjson, bind_lift_Ok, Hnull.
  apply strictEq_true in Hcall. rewrite Hcall.
  cbn [strictEq String.eqb Ascii.eqb Bool.eqb].
  destruct (strictEq_named _ tool Htool) as (-> & -> & -> & ->).
  fold (argumentsOf body).
  destruct tool; cbv iota; cbn [handlerOf];
    match goal with
    | |- context [bind ?m _] => destruct m as [tr [r|e]]
    end; cbn [bind ret tryCatch calls outcome fst snd answerOf];
    rewrite app_nil_r; reflexivity.
Qed.

(** The answer to a call of any other tool. *)
Lemma unknown_tool_answer w request body :
  Route.request_json request = Ok body ->
  nullish body = false ->
  strictEq (prop body "method") "tools/call" = true ->
  knownTool (prop (prop body "params") "tool") = false ->
  Route.POST w request
  = ([], Ok match toStr (prop (prop body "params") "tool") with
            | Ok name =>
                Route.mkNextResponse 400
                  (Route.ErrorBody (-32601) ("Unknown tool: " ++ name))
            | Throw error => internalError error
            end).
Proof.
  intros Hjson Hnull Hcall Hknown.
  unfold Route.POST. rewrite Hjson, bind_lift_Ok, Hnull.
  apply strictEq_true in Hcall. rewrite Hcall.
  cbn [strictEq String.eqb Ascii.eqb Bool.eqb].
  unfold knownTool in Hknown. simpl in Hknown.
  repeat (apply orb_false_iff in Hknown; destruct Hknown as [?H Hknown]).
  rewrite H, H0, H1, H2.
  destruct (toStr _) as [name|error]; reflexivity.
Qed.

(** X5.  A [tools/call] that names one of the four tools runs the handler
    of that tool on [params.arguments] (on the empty object when there are
    none) and makes the calls of that handler, no other.  It is answered
    with status 200 and the result when the handler returns, and with status
    500, code -32603 and the message of the error when the handler throws:
    a validation error is a 500 like any other.  The tools the health check
    lists are exactly the four names that are dispatched. *)
Theorem known_tools_are_dispatched :
  (forall w request body tool,
      Route.request_json request = Ok body ->
      nullish body = false ->
      strictEq (prop body "method") "tools/call" = true ->
      prop (prop body "params") "tool" = JStr (nameOf tool) ->
      Route.POST w request
      = (calls (handlerOf tool w (argumentsOf body)),
         Ok (answerOf (outcome (handlerOf tool w (argumentsOf body))))))
  /\ (forall w, prop (Route.GET w) "tools" = JArr (map (fun t => JStr (nameOf t)) allTools))
  /\ (forall toolName,
        knownTool toolName = true <-> exists tool, toolName = JStr (nameOf tool)).
Proof.
  split; [|split].
  - intros w request body tool. apply known_tool_answer.
  - reflexivity.
  - intros toolName. split; [apply knownTool_named|].
    intros [tool ->]. destruct tool; reflexivity.
Qed.

Lemma known_tools_are_dispatched_witness :
  Route.POST silentWorld (toolsCall (JStr "generate_stories") (JObj []))
  = ([], Ok (Route.mkNextResponse 500 (Route.ErrorBody (-32603) contextMessage))).
Proof.
  apply (proj1 known_tools_are_dispatched silentWorld
           (toolsCall (JStr "generate_stories") (JObj []))
           (JObj [ ("method", JStr "tools/call");
                   ("params", JObj [ ("tool", JStr "generate_stories");
                                     ("arguments", JObj []) ]) ])
           GenerateStories); reflexivity.
Defined.

(** X6.  [POST] answers every request with status 200, 400 or 500.  It
    touches the network only for a [tools/call] that names one of the four
    tools.  A body that does not parse is answered 500 with the message of
    the parse error; a body that is [null], 500 as well; a method other than
    [tools/list] and [tools/call], 400 with code -32601 and [Method not
    found: ] followed by the method. *)
Theorem post_touches_the_network_for_known_tools_only :
  forall w request,
    (exists resp,
        outcome (Route.POST w request) = Ok resp
        /\ In (Route.response_status resp) [200; 400; 500])
    /\ (calls (Route.POST w request) <> [] ->
        exists body tool,
          Route.request_json request = Ok body
          /\ strictEq (prop body "method") "tools/call" = true
          /\ prop (prop body "params") "tool" = JStr (nameOf tool))
    /\ (forall e,
          Route.request_json request = Throw e ->
          Route.POST w request = ([], Ok (internalError e)))
    /\ (forall body,
          Route.request_json request = Ok body ->
          nullish body = true ->
          Route.POST w request = ([], Ok (internalError (cannotRead body "method"))))
    /\ (forall body,
          Route.request_json request = Ok body ->
          nullish body = false ->
          strictEq (prop body "method") "tools/list" = false ->
          strictEq (prop body "method") "tools/call" = false ->
          Route.POST w request
          = ([], Ok match toStr (prop body "method") with
                    | Ok method =>
                        Route.mkNextResponse 400
                          (Route.ErrorBody (-32601) ("Method not found: " ++ method))
                    | Throw error => internalError error
                    end)).
Proof.
  intros w request.
  assert (Hparse : forall e, Route.request_json request = Throw e ->
                     Route.POST w request = ([], Ok (internalError e))).
  { intros e H. unfold Route.POST. rewrite H. reflexivity. }
  assert (Hnull : forall body, Route.request_json request = Ok body ->
                    nullish body = true ->
                    Route.POST w request
                    = ([], Ok (internalError (cannotRead body "method")))).
  { intros body H Hn. unfold Route.POST. rewrite H, bind_lift_Ok, Hn. reflexivity. }
  assert (Hother : forall body, Route.request_json request = Ok body ->
                     nullish body = false ->
                     strictEq (prop body "method") "tools/list" = false ->
                     strictEq (prop body "method") "tools/call" = false ->
                     Route.POST w request
                     = ([], Ok match toStr (prop body "method") with
                               | Ok method =>
                                   Route.mkNextResponse 400
                                     (Route.ErrorBody (-32601)
                                        ("Method not found: " ++ method))
                               | Throw error => internalError error
                               end)).
  { intros body H Hn Hl Hc. unfold Route.POST. rewrite H, bind_lift_Ok, Hn, Hl, Hc.
    destruct (toStr _); reflexivity. }
  assert (Hlist : forall body, Route.request_json request = Ok body ->
                    nullish body = false ->
                    strictEq (prop body "method") "tools/list" = true ->
                    Route.POST w request
                    = ([], Ok (Route.json (Route.ToolsBody Route.MCP_TOOLS)))).
  { intros body H Hn Hl. unfold Route.POST. rewrite H, bind_lift_Ok, Hn, Hl.
    reflexivity. }
  assert (Hmain : (exists resp,
                      outcome (Route.POST w request) = Ok resp
                      /\ In (Route.response_status resp) [200; 400; 500])
                  /\ (calls (Route.POST w request) <> [] ->
                      exists body tool,
                        Route.request_json request = Ok body
                        /\ strictEq (prop body "method") "tools/call" = true
                        /\ prop (prop body "params") "tool" = JStr (nameOf tool))).
  { destruct (Route.request_json request) as [body|e] eqn:Hjson.
    2:{ rewrite (Hparse e eq_refl). split; [eexists; split; [reflexivity|]|];
        simpl; tauto. }
    destruct (nullish body) eqn:Hn.
    { rewrite (Hnull body eq_refl Hn). split; [eexists; split; [reflexivity|]|];
        simpl; tauto. }
    destruct (strictEq (prop body "method") "tools/list") eqn:Hl.
    { rewrite (Hlist body eq_refl Hn Hl).
      split; [eexists; split; [reflexivity|]|]; simpl; tauto. }
    destruct (strictEq (prop body "method") "tools/call") eqn:Hc.
    2:{ rewrite (Hother body eq_refl Hn Hl Hc).
        split; [destruct (toStr _); eexists; split; try reflexivity|];
          simpl; tauto. }
    destruct (knownTool (prop (prop body "params") "tool")) eqn:Hk.
    - apply knownTool_named in Hk. destruct Hk as [tool Hk].
      rewrite (known_tool_answer w request body tool Hjson Hn Hc Hk).
      split.
      + eexists. split; [reflexivity|].
        destruct (outcome _); simpl; tauto.
      + intros _. exists body, tool. auto.
    - rewrite (unknown_tool_answer w request body Hjson Hn Hc Hk).
      split; [destruct (toStr _); eexists; split; try reflexivity|];
        simpl; tauto. }
  destruct Hmain as [Hstatus Hcalls]. auto 10.
Qed.

Lemma post_touches_the_network_for_known_tools_only_witness :
  Route.POST silentWorld (requestOf (JObj [ ("method", JStr "resources/list") ]))
  = ([], Ok (Route.mkNextResponse 400
               (Route.ErrorBody (-32601) "Method not found: resources/list"))).
Proof.
  apply (proj2 (proj2 (proj2 (proj2
           (post_touches_the_network_for_known_tools_only silentWorld
              (requestOf (JObj [ ("method", JStr "resources/list") ]))))))
           (JObj [ ("method", JStr "resources/list") ])); reflexivity.
Defined.

(** ** More on the transformer *)

(** *** Headings *)

Lemma trimEnd_keeps a c b :
  isWhiteSpace c = false -> exists r, trimEnd (a ++ String c b) = a ++ String c r.
Proof.
  intros Hc. induction a as [|x a (r & IH)]; cbn [append trimEnd].
  - destruct (trimEnd b) as [|y r']; [rewrite Hc|]; eexists; reflexivity.
  - rewrite IH. destruct a; cbn [append]; eexists; reflexivity.
Qed.

(** Trimming keeps a heading that neither starts nor ends with white
    space, whatever follows it. *)
Lemma trim_heading c0 a c b :
  isWhiteSpace c0 = false -> isWhiteSpace c = false ->
  exists r, trim (String c0 (a ++ String c b)) = String c0 (a ++ String c r).
Proof.
  intros H0 Hc. unfold trim. cbn [trimStart]. rewrite H0.
  destruct (trimEnd_keeps (String c0 a) c b Hc) as [r Hr].
  exists r. exact Hr.
Qed.

Lemma systemContent_opens ps c :
  systemContent ps = Ok c -> exists rest, c = "Project: " ++ rest.
Proof.
  unfold systemContent. intros H.
  repeat match type of H with
         | context [toStr ?v] =>
             let s := fresh "s" in
             destruct (toStr v) as [s|]; [|discriminate]; cbn [rbind] in H
         end.
  injection H as <-. eexists. reflexivity.
Qed.

Lemma alexContent_opens product c :
  alexContent product = Ok c -> exists rest, c = alexHeader ++ rest.
Proof.
  unfold alexContent. intros H.
  destruct (if truthy (jor (prop product "mvp_features") _) then _ else _)
    as [c1|] eqn:E1; [|discriminate].
  cbn [rbind] in H.
  destruct (if truthy (jor (prop product "target_users") _) then _ else _)
    as [c2|] eqn:E2; [|discriminate].
  cbn [rbind] in H.
  apply (stage_shows _ c1 (fun s => LF ++ "Target Users: " ++ s)) in E2.
  apply (stage_shows _ c2 (fun s => LF ++ "Development Approach: " ++ s)) in H.
  destruct E2 as ((r2 & ->) & _), H as ((r3 & ->) & _).
  assert (H1 : exists r1, c1 = alexHeader ++ r1).
  { destruct (truthy (jor (prop product "mvp_features") _)).
    - destruct (jor (prop product "mvp_features") _); try discriminate E1.
      apply forEachAppend_shows in E1. destruct E1 as ((r & ->) & _).
      exists (("MVP Features:" ++ LF) ++ r). now rewrite <- !append_assoc.
    - injection E1 as <-. exists "". now rewrite append_nil_r. }
  destruct H1 as (r1 & ->). exists (r1 ++ r2 ++ r3). now rewrite !append_assoc.
Qed.

Lemma blakeContent_opens tech c :
  blakeContent tech = Ok c -> exists rest, c = blakeHeader ++ rest.
Proof. intros H. now apply forEachAppend_shows in H. Qed.

Lemma caseyContent_opens project c :
  caseyContent project = Ok c -> exists rest, c = caseyHeader ++ rest.
Proof.
  unfold caseyContent. intros H.
  destruct (if truthy (prop project "timeline") then _ else _)
    as [c1|] eqn:E1; [|discriminate].
  cbn [rbind] in H.
  destruct (if truthy (prop project "team") then _ else _)
    as [c2|] eqn:E2; [|discriminate].
  cbn [rbind] in H.
  destruct (if truthy (prop project "milestones") then _ else _)
    as [c3|] eqn:E3; [|discriminate].
  cbn [rbind] in H.
  apply (stage_shows _ caseyHeader (fun s => "Timeline: " ++ s ++ LF)) in E1.
  apply (stage_shows _ c1 (fun s => "Team Composition: " ++ s ++ LF)) in E2.
  apply (stage_shows _ c3 (fun s => LF ++ "Testing Strategy: " ++ s)) in H.
  destruct E1 as ((r1 & ->) & _), E2 as ((r2 & ->) & _), H as ((r4 & ->) & _).
  assert (H3 : exists r3, c3 = ((caseyHeader ++ r1) ++ r2) ++ r3).
  { destruct (truthy (prop project "milestones")).
    - apply forEachAppend_shows in E3. destruct E3 as ((r & ->) & _).
      exists ((LF ++ "Milestones:" ++ LF) ++ r). now rewrite <- !append_assoc.
    - injection E3 as <-. exists "". now rewrite append_nil_r. }
  destruct H3 as (r3 & ->). exists (r1 ++ r2 ++ r3 ++ r4). now rewrite !append_assoc.
Qed.

(** X7.  Every message the transformer returns opens with the words of its
    role: [Project: ] for the system message, the heading of the perspective
    for the other three.  Trimming never eats into the heading, so no
    message has an empty content. *)
Theorem messages_open_with_their_heading :
  forall pc t m,
    transformProjectContext pc = Ok t ->
    In m (consensus_messages t) ->
    content m <> ""
    /\ exists heading,
         In (role m, heading) headings
         /\ String.prefix heading (content m) = true.
Proof.
  intros pc t m Ht Hm.
  assert (H : exists heading,
             In (role m, heading) headings
             /\ exists rest, content m = heading ++ rest).
  { destruct (transform_inv pc t Ht)
      as (sys & alex & blake & casey & Hall & _ & Hs & Ha & Hb & Hc).
    rewrite Hall in Hm. rewrite !in_app_iff in Hm. unfold sectionMessage in *.
    destruct Hm as [Hm|[Hm|[Hm|Hm]]].
    - destruct (truthy (summaryOf pc)); [|subst sys; destruct Hm].
      destruct Hs as (c & Hc' & ->). destruct Hm as [<-|[]].
      apply systemContent_opens in Hc'. destruct Hc' as [rest ->].
      eexists. split; [left; reflexivity|]. exists rest. reflexivity.
    - destruct (truthy (perspective pc "product")); [|subst alex; destruct Hm].
      destruct Ha as (c & Hc' & ->). destruct Hm as [<-|[]].
      apply alexContent_opens in Hc'. destruct Hc' as [rest ->].
      eexists. split; [right; left; reflexivity|].
      apply (trim_heading "P" "roduct Manager Perspective - MVP Requirements" ":"
               (LF ++ LF ++ rest)); reflexivity.
    - destruct (truthy (perspective pc "technical")); [|subst blake; destruct Hm].
      destruct Hb as (c & Hc' & ->). destruct Hm as [<-|[]].
      apply blakeContent_opens in Hc'. destruct Hc' as [rest ->].
      eexists. split; [right; right; left; reflexivity|].
      apply (trim_heading "T" "echnical Architect Perspective - Architecture & Stack" ":"
               (LF ++ LF ++ rest)); reflexivity.
    - destruct (truthy (perspective pc "project")); [|subst casey; destruct Hm].
      destruct Hc as (c & Hc' & ->). destruct Hm as [<-|[]].
      apply caseyContent_opens in Hc'. destruct Hc' as [rest ->].
      eexists. split; [right; right; right; left; reflexivity|].
      apply (trim_heading "P" "roject Manager Perspective - Timeline & Execution" ":"
               (LF ++ LF ++ rest)); reflexivity. }
  destruct H as (heading & Hin & rest & Hc). split.
  - rewrite Hc. cbn [headings In] in Hin.
    destruct Hin as [Hin|[Hin|[Hin|[Hin|[]]]]]; injection Hin as _ <-; discriminate.
  - exists heading. split; [exact Hin|]. rewrite Hc. apply prefix_append.
Qed.

Lemma messages_open_with_their_heading_witness :
  content (mkMessage "blake" taskmaster_blake) <> ""
  /\ exists heading,
       In ("blake", heading) headings
       /\ String.prefix heading taskmaster_blake = true.
Proof.
  apply (messages_open_with_their_heading taskmaster_context
           (mkTransformed [ mkMessage "system" taskmaster_system;
                            mkMessage "blake" taskmaster_blake ]
                          taskmaster_metadata)
           (mkMessage "blake" taskmaster_blake)).
  - reflexivity.
  - right. left. reflexivity.
Defined.

(** *** Lists *)

(** X8.  The features of the product perspective and the milestones of the
    project perspective are printed one line each, in the order they come
    in: [- feature] after the line [MVP Features:], and
    [- LABEL: value] after the line [Milestones:], the label being the name
    of the milestone in upper case with spaces for underscores.  An empty
    list leaves its heading line alone. *)
Theorem lists_are_printed_in_order :
  (forall pc t l,
      transformProjectContext pc = Ok t ->
      truthy (perspective pc "product") = true ->
      featuresOf (perspective pc "product") = JArr l ->
      exists lines rest,
        Forall2 (fun x line => exists s, toStr x = Ok s /\ line = "- " ++ s ++ LF)
                l lines
        /\ filter (hasRole "alex") (consensus_messages t)
           = [mkMessage "alex"
                (trim (alexHeader ++ "MVP Features:" ++ LF
                       ++ concatLines lines ++ rest))])
  /\ (forall pc t,
        transformProjectContext pc = Ok t ->
        truthy (perspective pc "project") = true ->
        truthy (prop (perspective pc "project") "milestones") = true ->
        exists before lines rest,
          Forall2 (fun key line =>
                     exists s,
                       toStr (prop (prop (perspective pc "project") "milestones") key)
                       = Ok s
                       /\ line = "- " ++ milestoneLabel key ++ ": " ++ s ++ LF)
                  (objectKeys (prop (perspective pc "project") "milestones")) lines
          /\ filter (hasRole "casey") (consensus_messages t)
             = [mkMessage "casey"
                  (trim (before ++ LF ++ "Milestones:" ++ LF
                         ++ concatLines lines ++ rest))]).
Proof.
  split.
  - intros pc t l Ht Hthere Hl.
    destruct (proj1 (proj2 (transform_messages pc t Ht)) Hthere) as (c & Hc & ->).
    unfold alexContent in Hc. fold (featuresOf (perspective pc "product")) in Hc.
    rewrite Hl in Hc. cbn [truthy] in Hc.
    destruct (forEachAppend _ l _) as [c1|] eqn:E1; [|discriminate].
    cbn [rbind] in Hc.
    destruct (if truthy (jor (prop _ "target_users") _) then _ else _)
      as [c2|] eqn:E2; [|discriminate].
    cbn [rbind] in Hc.
    apply (stage_shows _ c1 (fun s => LF ++ "Target Users: " ++ s)) in E2.
    apply (stage_shows _ c2 (fun s => LF ++ "Development Approach: " ++ s)) in Hc.
    destruct E2 as ((r2 & ->) & _), Hc as ((r3 & ->) & _).
    apply forEachAppend_lines in E1. destruct E1 as (lines & Hlines & ->).
    exists lines, (r2 ++ r3). split.
    + eapply Forall2_impl; [|exact Hlines]. intros x line.
      cbv beta. destruct (toStr x) as [s|]; [|discriminate].
      cbn [rbind]. intros [= <-]. exists s. split; reflexivity.
    + now rewrite !append_assoc.
  - intros pc t Ht Hthere Hm.
    destruct (proj2 (proj2 (proj2 (transform_messages pc t Ht))) Hthere)
      as (c & Hc & ->).
    unfold caseyContent in Hc.
    destruct (if truthy (prop _ "timeline") then _ else _) as [c1|]; [|discriminate].
    cbn [rbind] in Hc.
    destruct (if truthy (prop _ "team") then _ else _) as [c2|]; [|discriminate].
    cbn [rbind] in Hc. rewrite Hm in Hc.
    destruct (forEachAppend _ _ _) as [c3|] eqn:E3; [|discriminate].
    cbn [rbind] in Hc.
    apply (stage_shows _ c3 (fun s => LF ++ "Testing Strategy: " ++ s)) in Hc.
    destruct Hc as ((r4 & ->) & _).
    apply forEachAppend_lines in E3. destruct E3 as (lines & Hlines & ->).
    exists c2, lines, r4. split.
    + eapply Forall2_impl; [|exact Hlines]. intros key line.
      unfold milestoneLine. destruct (toStr _) as [s|]; [|discriminate].
      cbn [rbind]. intros [= <-]. exists s. split; reflexivity.
    + now rewrite !append_assoc.
Qed.

Lemma lists_are_printed_in_order_witness :
  exists t lines rest,
    transformProjectContext listsContext = Ok t
    /\ Forall2 (fun x line => exists s, toStr x = Ok s /\ line = "- " ++ s ++ LF)
               [ JStr "Boards"; JStr "Cards"; JStr "Labels" ] lines
    /\ filter (hasRole "alex") (consensus_messages t)
       = [mkMessage "alex"
            (trim (alexHeader ++ "MVP Features:" ++ LF ++ concatLines lines ++ rest))].
Proof.
  destruct (transformProjectContext listsContext) as [t|] eqn:Ht; [|discriminate Ht].
  destruct (proj1 lists_are_printed_in_order listsContext t
              [ JStr "Boards"; JStr "Cards"; JStr "Labels" ] Ht eq_refl eq_refl)
    as (lines & rest & Hlines & Hmsg).
  exists t, lines, rest. auto.
Defined.

(** *** A feature list that is not a list *)

Lemma alexContent_throws product :
  truthy (featuresOf product) = true ->
  isArray (featuresOf product) = false ->
  alexContent product = Throw notAFunction.
Proof.
  intros Ht Ha. unfold alexContent. fold (featuresOf product). rewrite Ht.
  destruct (featuresOf product); try reflexivity. discriminate Ha.
Qed.

(** A handler whose context does not transform stops before the network. *)
Lemma handler_stops tool w args e :
  transformProjectContext (prop args "project_context") = Throw e ->
  exists e', handlerOf tool w args = ([], Throw e').
Proof.
  intros Ht.
  destruct (handler_request tool w args) as [H|(t & _ & Ht' & _)]; [exact H|].
  rewrite Ht in Ht'. discriminate Ht'.
Qed.

(** X9.  When the features of the product perspective are there but are not
    an array (a sentence, an object), the transformer throws: it calls
    [forEach] on them.  With a summary that prints, the error is the
    [TypeError] of that call.  A handler whose context makes the transformer
    throw sends nothing, whatever the error. *)
Theorem features_must_be_an_array :
  (forall pc,
      nullish pc = false ->
      truthy (perspective pc "product") = true ->
      truthy (featuresOf (perspective pc "product")) = true ->
      isArray (featuresOf (perspective pc "product")) = false ->
      (exists e, transformProjectContext pc = Throw e)
      /\ (plain (summaryOf pc) = true -> transformProjectContext pc = Throw notAFunction))
  /\ (forall tool w args e,
        transformProjectContext (prop args "project_context") = Throw e ->
        exists e', handlerOf tool w args = ([], Throw e')).
Proof.
  split; [|exact handler_stops].
  intros pc Hn Hthere Ht Ha.
  rewrite (transform_bySections pc Hn). unfold bySections, pushPerspective.
  rewrite Hthere, (alexContent_throws _ Ht Ha). split.
  - destruct (if truthy (summaryOf pc) then _ else _); eexists; reflexivity.
  - intros Hp. destruct (truthy (summaryOf pc)); [|reflexivity].
    destruct (systemContent_total _ Hp) as [c ->]. reflexivity.
Qed.

Lemma features_must_be_an_array_witness :
  transformProjectContext sentenceContext = Throw notAFunction
  /\ exists e', Route.handleGenerateEpics silentWorld
                  (JObj [ ("project_context", sentenceContext) ]) = ([], Throw e').
Proof.
  assert (H : transformProjectContext sentenceContext = Throw notAFunction).
  { apply (proj1 features_must_be_an_array sentenceContext); reflexivity. }
  split; [exact H|].
  apply (proj2 features_must_be_an_array GenerateEpics silentWorld
           (JObj [ ("project_context", sentenceContext) ]) notAFunction).
  exact H.
Defined.

(** *** Spellings *)

Lemma systemContent_printed ps :
  systemContent ps
  = (name <- toStr (printed ps ProjectName) ;;
     description <- toStr (printed ps ProjectDescription) ;;
     users <- toStr (printed ps TargetUsers) ;;
     platform <- toStr (jor (prop ps "platform") (JStr "Not specified")) ;;
     timeline <- toStr (jor (prop ps "timeline") (JStr "Not specified")) ;;
     team <- toStr (printed ps TeamSize) ;;
     Ok (systemTemplate name description users platform timeline team)).
Proof. reflexivity. Qed.

Lemma metadataOf_preferred ps :
  metadataOf ps
  = if truthy ps then
      JObj [ ("project_name", preferred ps ProjectName);
             ("project_description", preferred ps ProjectDescription);
             ("target_users", preferred ps TargetUsers);
             ("platform", prop ps "platform");
             ("timeline", prop ps "timeline");
             ("team_size", preferred ps TeamSize) ]
    else JObj [].
Proof. reflexivity. Qed.

Lemma sameSummary_same a b :
  sameSummary a b -> systemContent a = systemContent b /\ metadataOf a = metadataOf b.
Proof.
  intros (Ht & Hf & Hp & Hl).
  assert (Hprinted : forall f, printed a f = printed b f)
    by (intros f; unfold printed; now rewrite Hf).
  rewrite !systemContent_printed, !metadataOf_preferred, !Hprinted, !Hf, Hp, Hl, Ht.
  split; reflexivity.
Qed.

(** X10.  The transformer is indifferent to spelling.  It reads the summary
    and the decisions under either name of the section, and each field of
    the summary under either name of the field: two contexts whose summaries
    give the same preferred value to every field, and whose decisions are
    the same, are transformed alike. *)
Theorem spelling_does_not_matter :
  forall pc pc',
    nullish pc = false -> nullish pc' = false ->
    sameSummary (summaryOf pc) (summaryOf pc') ->
    decisionsOf pc = decisionsOf pc' ->
    transformProjectContext pc = transformProjectContext pc'.
Proof.
  intros pc pc' Hn Hn' Hs Hd.
  rewrite !transform_bySections by assumption. unfold bySections, perspective.
  destruct (sameSummary_same _ _ Hs) as [Hc Hm]. destruct Hs as [Ht _].
  now rewrite Hd, Hc, Hm, Ht.
Qed.

Lemma spelling_does_not_matter_witness :
  transformProjectContext snakeSummaryContext
  = transformProjectContext camelSummaryContext.
Proof.
  apply spelling_does_not_matter; try reflexivity.
  repeat split. intros f. destruct f; reflexivity.
Defined.

(** *** A summary that says nothing *)

(** X11.  A summary that has none of the fields the transformer reads
    still gives a system message, with [Untitled Project] for the name, an
    empty description and [Not specified] everywhere else; but the metadata
    takes no default: every field is [undefined], and nothing of it is left
    once serialised. *)
Theorem defaults_go_to_the_message_only :
  forall ps,
    truthy ps = true ->
    (forall k, In k summaryFields -> prop ps k = JUndefined) ->
    systemContent ps = Ok defaultSystem
    /\ (forall k, In k (objectKeys (metadataOf ps)) -> prop (metadataOf ps) k = JUndefined)
    /\ wire (metadataOf ps) = JObj [].
Proof.
  intros ps Ht H. unfold systemContent, metadataOf. rewrite Ht.
  repeat match goal with
         | |- context [prop ps ?k] => rewrite (H k) by (cbn; tauto)
         end.
  repeat split. intros k Hk. cbn [objectKeys map fst In] in Hk.
  repeat (destruct Hk as [<-|Hk]; [reflexivity|]). contradiction.
Qed.

Lemma defaults_go_to_the_message_only_witness :
  systemContent (JObj [ ("owner", JStr "Ana") ]) = Ok defaultSystem
  /\ wire (metadataOf (JObj [ ("owner", JStr "Ana") ])) = JObj [].
Proof.
  destruct (defaults_go_to_the_message_only (JObj [ ("owner", JStr "Ana") ]) eq_refl)
    as (Hc & _ & Hw).
  - intros k Hk. cbn [summaryFields In] in Hk.
    repeat (destruct Hk as [<-|Hk]; [reflexivity|]). contradiction.
  - split; assumption.
Defined.

(** *** Labels, character by character *)

Ltac each_char c := destruct c as [[] [] [] [] [] [] [] []].

Lemma upperChar_idem c : upperChar (upperChar c) = upperChar c.
Proof. each_char c; reflexivity. Qed.

Lemma upperChar_not_underscore c :
  Ascii.eqb c underscore = false -> Ascii.eqb (upperChar c) underscore = false.
Proof. each_char c; try reflexivity; intros H; discriminate H. Qed.

Lemma isAlnum_upperChar c : isAlnum (upperChar c) = isAlnum c.
Proof. each_char c; reflexivity. Qed.

Lemma isLower_upperChar c : isLower (upperChar c) = false.
Proof. each_char c; reflexivity. Qed.

Lemma titleCase_length b s : String.length (titleCase b s) = String.length s.
Proof.
  revert b. induction s as [|c s IH]; intros b; [reflexivity|].
  cbn [titleCase]. destruct (Ascii.eqb c underscore); [|destruct (isAlnum c)];
    cbn [String.length]; now rewrite IH.
Qed.

Lemma titleCase_no_underscore b s : hasChar underscore (titleCase b s) = false.
Proof.
  revert b. induction s as [|c s IH]; intros b; [reflexivity|].
  cbn [titleCase]. destruct (Ascii.eqb c underscore) eqn:Eu.
  - cbn [hasChar]. now rewrite IH.
  - destruct (isAlnum c); cbn [hasChar]; rewrite IH, orb_false_r; [|exact Eu].
    destruct b; [now apply upperChar_not_underscore|exact Eu].
Qed.

Lemma titleCase_idem b s : titleCase b (titleCase b s) = titleCase b s.
Proof.
  revert b. induction s as [|c s IH]; intros b; [reflexivity|].
  cbn [titleCase]. destruct (Ascii.eqb c underscore) eqn:Eu.
  - cbn [titleCase]. change (Ascii.eqb space underscore) with false.
    change (isAlnum space) with false. cbv iota. now rewrite IH.
  - destruct (isAlnum c) eqn:Ea; cbn [titleCase].
    + destruct b.
      * rewrite (upperChar_not_underscore c Eu), isAlnum_upperChar, Ea,
          upperChar_idem, IH. reflexivity.
      * rewrite Eu, Ea, IH. reflexivity.
    + rewrite Eu, Ea, IH. reflexivity.
Qed.

Lemma milestoneChar_ascii c :
  isAscii c = true ->
  isAscii (upperChar (if Ascii.eqb c underscore then space else c)) = true.
Proof. each_char c; try reflexivity; intros H; discriminate H. Qed.

Lemma milestoneChar_idem c :
  let d := upperChar (if Ascii.eqb c underscore then space else c) in
  upperChar (if Ascii.eqb d underscore then space else d) = d.
Proof. each_char c; reflexivity. Qed.

Lemma milestoneLabel_shape s :
  String.length (milestoneLabel s) = String.length s
  /\ hasChar underscore (milestoneLabel s) = false
  /\ existsChar isLower (milestoneLabel s) = false
  /\ milestoneLabel (milestoneLabel s) = milestoneLabel s.
Proof.
  unfold milestoneLabel, toUpperCase, replaceUnderscores.
  induction s as [|c s (Hl & Hu & Hc & Hi)]; [repeat split|].
  cbn [mapString String.length hasChar existsChar]. rewrite Hl, Hu, Hc, Hi.
  split; [reflexivity|]. split; [|split].
  - destruct (Ascii.eqb c underscore) eqn:Eu; [reflexivity|].
    now rewrite (upperChar_not_underscore c Eu).
  - now rewrite isLower_upperChar.
  - now rewrite (milestoneChar_idem c).
Qed.

Lemma milestoneLabel_ascii s : asciiText s = true -> asciiText (milestoneLabel s) = true.
Proof.
  unfold asciiText, milestoneLabel, toUpperCase, replaceUnderscores.
  induction s as [|c s IH]; [reflexivity|].
  cbn [mapString existsChar]. rewrite !negb_orb, !negb_involutive.
  intros H. apply andb_true_iff in H. destruct H as [Hc Hs].
  now rewrite (milestoneChar_ascii c Hc), (IH Hs).
Qed.

(** X12.  The label of a technical decision is as long as the name it is
    made from, has no underscore left, and is stable: making a label of a
    label changes nothing.  For a milestone whose name is ASCII text the
    same holds of its label, which is ASCII text again and has no lower
    case letter. *)
Theorem labels_keep_their_shape :
  forall key,
    String.length (titleLabel key) = String.length key
    /\ hasChar underscore (titleLabel key) = false
    /\ titleLabel (titleLabel key) = titleLabel key
    /\ (asciiText key = true ->
        String.length (milestoneLabel key) = String.length key
        /\ asciiText (milestoneLabel key) = true
        /\ hasChar underscore (milestoneLabel key) = false
        /\ existsChar isLower (milestoneLabel key) = false
        /\ milestoneLabel (milestoneLabel key) = milestoneLabel key).
Proof.
  intros key.
  assert (Ht : forall s, titleLabel s = titleCase true s)
    by (intros s; apply (upperAtWordStart_titleCase false)).
  rewrite !Ht, titleCase_length, titleCase_no_underscore, titleCase_idem.
  split; [reflexivity|]. split; [reflexivity|]. split; [reflexivity|].
  intros Hascii.
  destruct (milestoneLabel_shape key) as (Hl & Hu & Hc & Hi).
  pose proof (milestoneLabel_ascii key Hascii) as Ha. auto 10.
Qed.

Lemma labels_keep_their_shape_witness :
  milestoneLabel "beta_release" = "BETA RELEASE"
  /\ String.length (milestoneLabel "beta_release") = 12%nat
  /\ existsChar isLower (milestoneLabel "beta_release") = false.
Proof.
  destruct (proj2 (proj2 (proj2 (labels_keep_their_shape "beta_release"))) eq_refl)
    as (Hl & _ & _ & Hc & _).
  split; [reflexivity|]. split; [exact Hl|exact Hc].
Defined.

(** ** The bearer-token variant *)

(** *** The registry client *)

(** X13.  [getProjectConfig] makes exactly one request, a GET of
    [/api/projects/] followed by the token on the registry, with a time-out
    of ten seconds.  It returns the body of a 2xx answer when that body is
    truthy and its [projectId] prints, and what it returns is never falsy.
    An answer with status 404 makes it throw [Project not found ...]; every
    other failure makes it throw [Failed to fetch project config: ] followed
    by the message of the failure: no answer, another status, a body that is
    [null] (the log line reads its [projectId] before the body is checked),
    a body that is falsy. *)
Theorem registry_failures_are_reported :
  forall w token,
    calls (Bearer.getProjectConfig w token) = [registryGet w token]
    /\ (forall config,
          outcome (Bearer.getProjectConfig w token) = Ok config ->
          truthy config = true
          /\ exists r, network w (registryGet w token) = Replies r
                       /\ is2xx r = true /\ data r = config)
    /\ (forall r,
          network w (registryGet w token) = Replies r ->
          (is2xx r = true -> truthy (data r) = true ->
           forall s, toStr (prop (data r) "projectId") = Ok s ->
           outcome (Bearer.getProjectConfig w token) = Ok (data r))
          /\ (is2xx r = false -> status r = 404 ->
              outcome (Bearer.getProjectConfig w token)
              = Throw (Error "Project not found for this API key. Please register the project in VISHKAR settings."))
          /\ (is2xx r = false -> status r <> 404 ->
              outcome (Bearer.getProjectConfig w token)
              = Throw (Error ("Failed to fetch project config: Request failed with status code "
                              ++ numberToString (status r))))
          /\ (is2xx r = true -> nullish (data r) = true ->
              outcome (Bearer.getProjectConfig w token)
              = Throw (Error ("Failed to fetch project config: "
                              ++ message (cannotRead (data r) "projectId"))))
          /\ (is2xx r = true -> nullish (data r) = false -> truthy (data r) = false ->
              outcome (Bearer.getProjectConfig w token)
              = Throw (Error "Failed to fetch project config: No configuration found for API key")))
    /\ (forall msg,
          network w (registryGet w token) = NoReply msg ->
          outcome (Bearer.getProjectConfig w token)
          = Throw (Error ("Failed to fetch project config: " ++ msg))).
Proof.
  intros w token. split; [apply getProjectConfig_calls|].
  unfold Bearer.getProjectConfig, axios, tryCatch, bind, lift, throw, ret, outcome.
  fold (registryGet w token).
  destruct (network w (registryGet w token)) as [r|msg|msg] eqn:Hnet;
    cbn [axiosSettle].
  - fold (is2xx r). split; [|split; [|intros msg' [=]]].
    + destruct (is2xx r) eqn:H2; simpl;
        [|destruct (status r =? 404); discriminate].
      destruct (nullish (data r)) eqn:Hn; simpl; [discriminate|].
      destruct (toStr (prop (data r) "projectId")) as [s|e]; simpl;
        [|destruct (response e) as [r'|]; [destruct (status r' =? 404)|];
          discriminate].
      destruct (truthy (data r)) eqn:Ht; simpl; [|discriminate].
      intros config [= <-]. split; [exact Ht|]. exists r. auto.
    + intros r' [= <-]. destruct (is2xx r) eqn:H2; simpl.
      * split; [|split; [|split; [|split]]]; try discriminate.
        -- intros _ Ht s Hs.
           assert (Hn : nullish (data r) = false)
             by (destruct (data r); try reflexivity; discriminate Ht).
           rewrite Hn, Hs. simpl. rewrite Ht. reflexivity.
        -- intros _ Hn. rewrite Hn.
           destruct (data r); try discriminate Hn; reflexivity.
        -- intros _ Hn Ht. rewrite Hn.
           destruct (data r) as [| |b|n|s|l|l]; try discriminate Hn;
             try discriminate Ht.
           ++ destruct b; [discriminate Ht|reflexivity].
           ++ destruct n; [reflexivity|discriminate Ht|discriminate Ht].
           ++ destruct s; [reflexivity|discriminate Ht].
      * split; [|split; [|split; [|split]]]; try discriminate.
        -- intros _ H404. rewrite H404. reflexivity.
        -- intros _ H404. apply Z.eqb_neq in H404. rewrite H404. reflexivity.
  - split; [discriminate|]. split; [intros r [=]|]. intros msg' [= <-]. reflexivity.
  - split; [discriminate|]. split; [intros r [=]|]. intros msg' [=].
Qed.


(** *** The resolver *)

(** What the resolver hands out, read back from the record it was given. *)
Lemma resolver_key config task ai :
  Bearer.getAIProviderForTask config task = Ok ai ->
  let aiConfig := prop (prop config "configs") "aiProvider" in
  let preference := selectedPreference aiConfig task in
  truthy (Bearer.apiKey ai) = true
  /\ Bearer.model ai = prop preference "model"
  /\ exists p, Bearer.provider ai = JStr (providerText p)
               /\ prop preference "provider" = JStr (providerText p)
               /\ Bearer.apiKey ai = prop aiConfig (keyField p).
Proof.
  intros H aiConfig preference. unfold Bearer.getAIProviderForTask in H.
  destruct (nullish config); [discriminate H|].
  destruct (nullish (prop config "configs")); [discriminate H|].
  fold aiConfig in H.
  destruct (truthy aiConfig); [|discriminate H]. cbn [negb] in H.
  destruct (nullish (prop aiConfig "preferences")); [discriminate H|].
  change (jor (prop (prop aiConfig "preferences") (Bearer.taskKey task))
              Bearer.defaultPreference) with preference in H.
  destruct (truthy (Bearer.keyFor aiConfig (prop preference "provider"))) eqn:Hk;
    cbn [negb] in H.
  - injection H as <-. cbn [Bearer.apiKey Bearer.model Bearer.provider].
    destruct (keyFor_truthy _ _ Hk) as (p & Hp & Hkey).
    split; [exact Hk|]. split; [reflexivity|]. exists p. auto.
  - destruct (toStr (prop preference "provider")); discriminate H.
Qed.

(** X14.  The resolver answers with a key or not at all.  What it returns
    names one of the three providers, carries the model of the selected
    preference, and its key is the truthy content of that provider's key
    field.  Without an AI-provider section it throws [AI provider
    configuration not found in project config]; with one that has no table
    of preferences it throws the [TypeError] of reading the task in it (the
    default pair is not tried); and when the selected preference names any
    other provider it throws [API key not found for provider: ] followed by
    that name, whatever keys the record holds. *)
Theorem resolver_answers_with_a_key_or_not_at_all :
  forall config task,
    let aiConfig := prop (prop config "configs") "aiProvider" in
    let preference := selectedPreference aiConfig task in
    (forall ai,
        Bearer.getAIProviderForTask config task = Ok ai ->
        truthy (Bearer.apiKey ai) = true
        /\ Bearer.model ai = prop preference "model"
        /\ exists p, Bearer.provider ai = JStr (providerText p)
                     /\ prop preference "provider" = JStr (providerText p)
                     /\ Bearer.apiKey ai = prop aiConfig (keyField p))
    /\ (nullish (prop config "configs") = false -> truthy aiConfig = false ->
        Bearer.getAIProviderForTask config task
        = Throw (Error "AI provider configuration not found in project config"))
    /\ (truthy aiConfig = true -> nullish (prop aiConfig "preferences") = true ->
        Bearer.getAIProviderForTask config task
        = Throw (cannotRead (prop aiConfig "preferences") (Bearer.taskKey task)))
    /\ (truthy aiConfig = true -> nullish (prop aiConfig "preferences") = false ->
        (forall p, prop preference "provider" <> JStr (providerText p)) ->
        forall name, toStr (prop preference "provider") = Ok name ->
        Bearer.getAIProviderForTask config task
        = Throw (Error ("API key not found for provider: " ++ name))).
Proof.
  intros config task aiConfig preference.
  assert (Hsections : truthy aiConfig = true ->
                      nullish config = false /\ nullish (prop config "configs") = false).
  { intros Hai. unfold aiConfig in Hai.
    destruct (nullish (prop config "configs")) eqn:Hcs;
      [rewrite (prop_nullish _ _ Hcs) in Hai; discriminate Hai|].
    destruct (nullish config) eqn:Hc;
      [rewrite (prop_nullish _ _ Hc) in Hcs; discriminate Hcs|].
    split; reflexivity. }
  split; [|split; [|split]].
  - intros ai H. exact (resolver_key config task ai H).
  - intros Hcs Hai. unfold Bearer.getAIProviderForTask.
    destruct (nullish config) eqn:Hc;
      [rewrite (prop_nullish _ _ Hc) in Hcs; discriminate Hcs|].
    rewrite Hcs. fold aiConfig. rewrite Hai. reflexivity.
  - intros Hai Hpref. destruct (Hsections Hai) as [Hc Hcs].
    unfold Bearer.getAIProviderForTask. rewrite Hc, Hcs. fold aiConfig.
    rewrite Hai, Hpref. reflexivity.
  - intros Hai Hpref Hother name Hname. destruct (Hsections Hai) as [Hc Hcs].
    unfold Bearer.getAIProviderForTask. rewrite Hc, Hcs. fold aiConfig.
    rewrite Hai, Hpref. cbn [negb].
    change (jor (prop (prop aiConfig "preferences") (Bearer.taskKey task))
                Bearer.defaultPreference) with preference.
    rewrite (keyFor_unnamed aiConfig _ Hother). cbn [truthy negb].
    rewrite Hname. reflexivity.
Qed.

Lemma resolver_answers_with_a_key_or_not_at_all_witness :
  Bearer.getAIProviderForTask keysOnlyRecord Bearer.epicGeneration
  = Throw (TypeError "Cannot read properties of undefined (reading 'epicGeneration')")
  /\ Bearer.getAIProviderForTask mistralRecord Bearer.epicGeneration
     = Throw (Error "API key not found for provider: mistral").
Proof.
  split.
  - apply (proj1 (proj2 (proj2 (resolver_answers_with_a_key_or_not_at_all
                                  keysOnlyRecord Bearer.epicGeneration))));
      reflexivity.
  - apply (proj2 (proj2 (proj2 (resolver_answers_with_a_key_or_not_at_all
                                  mistralRecord Bearer.epicGeneration))));
      [reflexivity | reflexivity | intros p; destruct p; discriminate | reflexivity].
Defined.


Lemma registry_failures_are_reported_witness :
  outcome (Bearer.getProjectConfig (answering notFoundResponse) "pk_1")
  = Throw (Error "Project not found for this API key. Please register the project in VISHKAR settings.").
Proof.
  destruct (registry_failures_are_reported (answering notFoundResponse) "pk_1")
    as (_ & _ & H & _).
  destruct (H notFoundResponse eq_refl) as (_ & H404 & _).
  apply H404; reflexivity.
Defined.

(** *** Credentials first *)

Lemma bind_lift_Throw {A B} (e : JsError) (f : A -> Eff B) :
  bind (lift (Throw e)) f = ([], Throw e).
Proof. reflexivity. Qed.

(** A handler of the variant stops at a check, or stops after the registry,
    or posts once after it. *)
Lemma bearer_handler_shape tool w args bearerToken :
  (exists e, bearerHandlerOf tool w args bearerToken = ([], Throw e))
  \/ (exists e,
        prepared w tool args bearerToken = Throw e
        /\ bearerHandlerOf tool w args bearerToken
           = ([registryGet w bearerToken], Throw e))
  \/ (exists aiConfig t body,
        prepared w tool args bearerToken = Ok (aiConfig, t)
        /\ prop body "ai_provider" = Bearer.aiProviderVal aiConfig
        /\ prop body "consensus_messages" = JArr (map messageVal (consensus_messages t))
        /\ prop body "project_metadata" = project_metadata t
        /\ bearerHandlerOf tool w args bearerToken
           = ([registryGet w bearerToken;
               servicePost w (pathOf tool) body (timeoutOf tool)],
              outcome (Bearer.callService w (pathOf tool) body (timeoutOf tool)
                         aiConfig (failureOf tool) (fieldOf tool)))).
Proof.
  destruct tool; cbn [bearerHandlerOf pathOf timeoutOf failureOf fieldOf];
    [unfold Bearer.handleGenerateEpics | unfold Bearer.handleGenerateStories
     | unfold Bearer.handleRegenerateEpic | unfold Bearer.handleRegenerateStory];
    repeat match goal with
           | |- context [if ?b then _ else _] => destruct b
           end;
    try (left; eexists; reflexivity);
    right;
    rewrite getProjectConfig_eq; unfold prepared; cbn [taskOf tagOf];
    (destruct (outcome (Bearer.getProjectConfig w bearerToken)) as [config|e];
     [|left; exists e; split; reflexivity]);
    cbn [bind];
    (destruct (Bearer.getAIProviderForTask config _) as [ai|e]; cbn [rbind];
     [rewrite bind_lift_Ok|left; exists e; split; reflexivity]);
    (destruct (Bearer.logLine _ ai config) as [line|e]; cbn [rbind];
     [rewrite bind_lift_Ok|left; exists e; split; reflexivity]);
    (destruct (transformProjectContext _) as [t|e]; cbn [rbind];
     [rewrite bind_lift_Ok|left; exists e; split; reflexivity]);
    rewrite bearer_callService_eq; right;
    lazymatch goal with
    | |- context [Bearer.callService w _ ?b _ _ _ _] => exists ai, t, b
    end;
    (split; [reflexivity|]); (split; [reflexivity|]); (split; [reflexivity|]);
    (split; [reflexivity|]); reflexivity.
Qed.

Lemma prepared_inv w tool args bearerToken aiConfig t :
  prepared w tool args bearerToken = Ok (aiConfig, t) ->
  exists config,
    outcome (Bearer.getProjectConfig w bearerToken) = Ok config
    /\ Bearer.getAIProviderForTask config (taskOf tool) = Ok aiConfig
    /\ transformProjectContext (prop args "project_context") = Ok t.
Proof.
  unfold prepared.
  destruct (outcome (Bearer.getProjectConfig w bearerToken)) as [config|e];
    [|discriminate].
  destruct (Bearer.getAIProviderForTask config (taskOf tool)) as [ai|e] eqn:Hr;
    cbn [rbind]; [|discriminate].
  destruct (Bearer.logLine (tagOf tool) ai config) as [line|e];
    cbn [rbind]; [|discriminate].
  destruct (transformProjectContext (prop args "project_context")) as [t'|e] eqn:Ht;
    cbn [rbind]; [|discriminate].
  intros [= <- <-]. exists config. repeat split; assumption.
Qed.

(** A handler of the variant stops without a call exactly when a check
    fails, with the message of that check. *)
Lemma bearer_handler_checked tool w args bearerToken :
  match failedCheck tool args with
  | Some msg => bearerHandlerOf tool w args bearerToken = ([], Throw (Error msg))
  | None => calls (bearerHandlerOf tool w args bearerToken) <> []
  end.
Proof.
  assert (Hstarted : forall f : JsVal -> Eff ToolResult,
             calls (bind (Bearer.getProjectConfig w bearerToken) f) <> []).
  { intros f. apply calls_bind_started. rewrite getProjectConfig_calls. discriminate. }
  unfold failedCheck.
  destruct tool; cbn [bearerHandlerOf];
    [unfold Bearer.handleGenerateEpics | unfold Bearer.handleGenerateStories
     | unfold Bearer.handleRegenerateEpic | unfold Bearer.handleRegenerateStory];
    rewrite ?negb_objectLike, ?negb_feedbackGiven;
    (destruct (Route.contextInvalid _); [reflexivity|]).
  - destruct (truthy (prop (prop args "project_context") "project_summary"));
      [|reflexivity].
    destruct (truthy (prop (prop args "project_context") "final_decisions"));
      [apply Hstarted|reflexivity].
  - destruct (truthy (prop args "epics")); [|reflexivity].
    destruct (isArray (prop args "epics")); [apply Hstarted|reflexivity].
  - destruct (objectLike (prop args "epic")); [|reflexivity].
    destruct (feedbackGiven (prop args "user_feedback")); [apply Hstarted|reflexivity].
  - destruct (objectLike (prop args "epic")); [|reflexivity].
    destruct (objectLike (prop args "story")); [|reflexivity].
    destruct (feedbackGiven (prop args "user_feedback")); [apply Hstarted|reflexivity].
Qed.

(** X15.  A handler of the bearer-token variant makes at most two calls:
    the GET of the project's record on the registry and then the one POST to
    the backend.  When a check fails it stops before any call, with the
    message of the first check that fails; a context that is not an object
    is the first of them.  When every check passes the GET is made,
    whatever the context: a failure of the registry or of the resolver is
    passed on as it is and nothing is posted; a context the transformer
    cannot handle costs the GET all the same, for the transformer runs after
    the registry has been asked, and nothing is posted either; and when the
    registry and the resolver answer, the log line prints and the context
    transforms, the POST follows the GET.  Whenever the POST goes out, the
    registry has answered, the resolver has returned a provider with a
    truthy key for the task of the tool, and the body carries that provider,
    model and key under [ai_provider] beside the messages and the metadata
    of the transformer. *)
Theorem credentials_are_fetched_before_the_backend :
  forall tool w args bearerToken,
    let h := bearerHandlerOf tool w args bearerToken in
    (calls h = []
     \/ calls h = [registryGet w bearerToken]
     \/ exists body,
          calls h = [registryGet w bearerToken;
                     servicePost w (pathOf tool) body (timeoutOf tool)])
    /\ (Route.contextInvalid (prop args "project_context") = true ->
        h = ([], Throw (Error contextMessage)))
    /\ (forall msg,
          failedCheck tool args = Some msg -> h = ([], Throw (Error msg)))
    /\ (failedCheck tool args = None <-> calls h <> [])
    /\ (failedCheck tool args = None ->
        (exists rest, calls h = registryGet w bearerToken :: rest)
        /\ (forall e,
              outcome (Bearer.getProjectConfig w bearerToken) = Throw e ->
              h = ([registryGet w bearerToken], Throw e))
        /\ (forall config e,
              outcome (Bearer.getProjectConfig w bearerToken) = Ok config ->
              Bearer.getAIProviderForTask config (taskOf tool) = Throw e ->
              h = ([registryGet w bearerToken], Throw e))
        /\ (forall e,
              transformProjectContext (prop args "project_context") = Throw e ->
              calls h = [registryGet w bearerToken])
        /\ (forall config aiConfig line t,
              outcome (Bearer.getProjectConfig w bearerToken) = Ok config ->
              Bearer.getAIProviderForTask config (taskOf tool) = Ok aiConfig ->
              Bearer.logLine (tagOf tool) aiConfig config = Ok line ->
              transformProjectContext (prop args "project_context") = Ok t ->
              exists body,
                calls h = [registryGet w bearerToken;
                           servicePost w (pathOf tool) body (timeoutOf tool)]))
    /\ (forall body,
          calls h = [registryGet w bearerToken;
                     servicePost w (pathOf tool) body (timeoutOf tool)] ->
          exists config aiConfig t,
            outcome (Bearer.getProjectConfig w bearerToken) = Ok config
            /\ Bearer.getAIProviderForTask config (taskOf tool) = Ok aiConfig
            /\ truthy (Bearer.apiKey aiConfig) = true
            /\ transformProjectContext (prop args "project_context") = Ok t
            /\ prop body "ai_provider" = Bearer.aiProviderVal aiConfig
            /\ prop body "consensus_messages"
               = JArr (map messageVal (consensus_messages t))
            /\ prop body "project_metadata" = project_metadata t).
Proof.
  intros tool w args bearerToken h.
  pose proof (bearer_handler_checked tool w args bearerToken) as Hchecked.
  fold h in Hchecked.
  assert (Hpassed : failedCheck tool args = None ->
            (exists e, prepared w tool args bearerToken = Throw e
                       /\ h = ([registryGet w bearerToken], Throw e))
            \/ (exists aiConfig t body,
                  prepared w tool args bearerToken = Ok (aiConfig, t)
                  /\ calls h = [registryGet w bearerToken;
                                servicePost w (pathOf tool) body (timeoutOf tool)])).
  { intros Hnone. rewrite Hnone in Hchecked.
    destruct (bearer_handler_shape tool w args bearerToken)
      as [[e H]|[(e & Hp & H)|(ai & t & body & Hp & _ & _ & _ & H)]].
    - fold h in H. rewrite H in Hchecked. now destruct Hchecked.
    - left. exists e. auto.
    - right. exists ai, t, body. split; [exact Hp|]. unfold h. rewrite H. reflexivity. }
  split; [|split; [|split; [|split; [|split]]]].
  - destruct (bearer_handler_shape tool w args bearerToken)
      as [[e H]|[(e & _ & H)|(ai & t & body & _ & _ & _ & _ & H)]];
      unfold h; rewrite H; cbn [calls fst]; eauto.
  - intros Hctx. unfold failedCheck in Hchecked. rewrite Hctx in Hchecked.
    exact Hchecked.
  - intros msg Hmsg. rewrite Hmsg in Hchecked. exact Hchecked.
  - destruct (failedCheck tool args) as [msg|].
    + rewrite Hchecked. cbn [calls fst]. split; [discriminate|].
      intros H. now destruct H.
    + split; [intros _; exact Hchecked|reflexivity].
  - intros Hnone. specialize (Hpassed Hnone).
    split; [|split; [|split; [|split]]].
    + destruct Hpassed as [(e & _ & H)|(ai & t & body & _ & H)]; rewrite H;
        cbn [calls fst]; eauto.
    + intros e He.
      destruct Hpassed as [(e' & Hp & H)|(ai & t & body & Hp & _)];
        unfold prepared in Hp; rewrite He in Hp; [|discriminate Hp].
      injection Hp as <-. exact H.
    + intros config e Hc He.
      destruct Hpassed as [(e' & Hp & H)|(ai & t & body & Hp & _)];
        unfold prepared in Hp; rewrite Hc, He in Hp; [|discriminate Hp].
      injection Hp as <-. exact H.
    + intros e He.
      destruct Hpassed as [(e' & _ & H)|(ai & t & body & Hp & _)].
      * rewrite H. reflexivity.
      * destruct (prepared_inv _ _ _ _ _ _ Hp) as (config & _ & _ & Ht).
        rewrite He in Ht. discriminate Ht.
    + intros config ai line t Hc Hai Hline Ht.
      destruct Hpassed as [(e' & Hp & _)|(ai' & t' & body & _ & H)].
      * unfold prepared in Hp. rewrite Hc, Hai in Hp. cbn [rbind] in Hp.
        rewrite Hline in Hp. cbn [rbind] in Hp. rewrite Ht in Hp. discriminate Hp.
      * exists body. exact H.
  - intros body Hcalls.
    destruct (bearer_handler_shape tool w args bearerToken)
      as [[e' H]|[(e' & _ & H)|(ai & t & body' & Hp & Hai & Hm & Hd & H)]];
      unfold h in Hcalls; rewrite H in Hcalls; cbn [calls fst] in Hcalls;
      try discriminate Hcalls.
    injection Hcalls as <-.
    destruct (prepared_inv _ _ _ _ _ _ Hp) as (config & Hc & Hr & Ht).
    exists config, ai, t.
    destruct (resolver_key config (taskOf tool) ai Hr) as (Hkey & _).
    auto 10.
Qed.

Lemma credentials_are_fetched_before_the_backend_witness :
  Bearer.handleGenerateEpics silentWorld epicsArgs "pk_1"
  = ([registryGet silentWorld "pk_1"],
     Throw (Error "Failed to fetch project config: timeout of 600000ms exceeded"))
  /\ calls (Bearer.handleGenerateEpics (deployed recordResponse epicsResponse)
              sentenceArgs "pk_1")
     = [registryGet (deployed recordResponse epicsResponse) "pk_1"]
  /\ List.length (calls (Bearer.handleGenerateEpics
                           (deployed recordResponse epicsResponse) epicsArgs "pk_1"))
     = 2%nat.
Proof.
  split; [|split].
  - destruct (credentials_are_fetched_before_the_backend
                GenerateEpics silentWorld epicsArgs "pk_1")
      as (_ & _ & _ & _ & H & _).
    destruct (H eq_refl) as (_ & Hregistry & _). apply Hregistry. reflexivity.
  - destruct (credentials_are_fetched_before_the_backend
                GenerateEpics (deployed recordResponse epicsResponse)
                sentenceArgs "pk_1")
      as (_ & _ & _ & _ & H & _).
    destruct (H eq_refl) as (_ & _ & _ & Hthrown & _).
    apply (Hthrown notAFunction). reflexivity.
  - destruct (credentials_are_fetched_before_the_backend
                GenerateEpics (deployed recordResponse epicsResponse)
                epicsArgs "pk_1")
      as (_ & _ & _ & _ & H & _).
    destruct (H eq_refl) as (_ & _ & _ & _ & Hposted).
    destruct (Hposted registryRecord sonnet
                "[Epic Generation] Using anthropic claude-sonnet-4.5 for project task-manager-app"
                (mkTransformed [ mkMessage "system" taskmaster_system;
                                 mkMessage "blake" taskmaster_blake ]
                               taskmaster_metadata)
                eq_refl eq_refl eq_refl eq_refl) as [body Hbody].
    change (Bearer.handleGenerateEpics (deployed recordResponse epicsResponse)
              epicsArgs "pk_1")
      with (bearerHandlerOf GenerateEpics (deployed recordResponse epicsResponse)
              epicsArgs "pk_1").
    rewrite Hbody. reflexivity.
Defined.


(** *** The stamp on an answer *)








(** *** The token *)

Lemma removeFirst_eq pattern s :
  Bearer.removeFirst pattern s
  = if String.prefix pattern s then Bearer.dropChars (String.length pattern) s
    else match s with
         | EmptyString => EmptyString
         | String c r => String c (Bearer.removeFirst pattern r)
         end.
Proof. destruct s; reflexivity. Qed.

Lemma dropChars_append a b : Bearer.dropChars (String.length a) (a ++ b) = b.
Proof. induction a as [|c a IH]; [reflexivity|exact IH]. Qed.

Lemma removeFirst_prefix pattern t : Bearer.removeFirst pattern (pattern ++ t) = t.
Proof. rewrite removeFirst_eq, prefix_append. apply dropChars_append. Qed.

Lemma removeFirst_absent pattern s :
  contains pattern s = false -> Bearer.removeFirst pattern s = s.
Proof.
  induction s as [|c s IH]; cbn [contains]; intros H; apply orb_false_iff in H;
    destruct H as [Hp Hc]; rewrite removeFirst_eq, Hp; [reflexivity|].
  now rewrite (IH Hc).
Qed.

Lemma allWhite_append a b : allWhite (a ++ b) = allWhite a && allWhite b.
Proof.
  induction a as [|c a IH]; [reflexivity|].
  cbn [append allWhite]. now rewrite IH, andb_assoc.
Qed.

Lemma trim_empty s : trim s = "" <-> allWhite s = true.
Proof.
  split.
  - intros H. destruct (trim_frame s) as (a & b & Hs & Ha & Hb).
    rewrite H in Hs. rewrite Hs. cbn [append]. now rewrite allWhite_append, Ha, Hb.
  - intros H. unfold trim.
    assert (Hstart : trimStart s = "").
    { induction s as [|c s IH]; [reflexivity|].
      cbn [allWhite] in H. apply andb_true_iff in H. destruct H as [Hc Hs].
      cbn [trimStart]. rewrite Hc. exact (IH Hs). }
    now rewrite Hstart.
Qed.

Lemma bearer_call_reached body :
  strictEq (prop body "method") "tools/call" = true ->
  nullish body = false /\ strictEq (prop body "method") "tools/list" = false.
Proof.
  intros Hcall. split.
  - destruct (nullish body) eqn:E; [|reflexivity].
    rewrite (prop_nullish _ _ E) in Hcall. discriminate Hcall.
  - apply strictEq_true in Hcall. now rewrite Hcall.
Qed.

(** X17.  In the bearer-token variant a [tools/call] is answered 401 with
    code -32600, before its tool is looked at and without any call going
    out, when no token is left of the [Authorization] header; [tools/list]
    is answered whatever the header.  With a token, a call that names one of
    the four tools runs the handler of that tool with the token and is
    answered like in [route.ts].  The token is the header without its first
    [Bearer ] and trimmed: the header [Bearer ] followed by a text gives the
    text trimmed, a header that does not contain [Bearer ] is taken whole
    (the scheme is not required), and no header, or a header that leaves
    white space only, gives no token. *)
Theorem calls_need_a_token :
  (forall w request body,
      Bearer.request_json request = Ok body ->
      strictEq (prop body "method") "tools/call" = true ->
      Bearer.bearerTokenOf (Bearer.header_Authorization request) = "" ->
      Bearer.POST w request = ([], Ok missingToken))
  /\ (forall w request body,
        Bearer.request_json request = Ok body ->
        strictEq (prop body "method") "tools/list" = true ->
        Bearer.POST w request = ([], Ok (Route.json (Route.ToolsBody Route.MCP_TOOLS))))
  /\ (forall w request body tool,
        Bearer.request_json request = Ok body ->
        strictEq (prop body "method") "tools/call" = true ->
        Bearer.bearerTokenOf (Bearer.header_Authorization request) <> "" ->
        prop (prop body "params") "tool" = JStr (nameOf tool) ->
        let h := bearerHandlerOf tool w (argumentsOf body)
                   (Bearer.bearerTokenOf (Bearer.header_Authorization request)) in
        Bearer.POST w request = (calls h, Ok (answerOf (outcome h))))
  /\ Bearer.bearerTokenOf None = ""
  /\ (forall t, Bearer.bearerTokenOf (Some ("Bearer " ++ t)) = trim t)
  /\ (forall header,
        contains "Bearer " header = false ->
        Bearer.bearerTokenOf (Some header) = trim header)
  /\ (forall header,
        Bearer.bearerTokenOf (Some header) = ""
        <-> allWhite (Bearer.removeFirst "Bearer " header) = true).
Proof.
  split; [|split; [|split; [|split; [|split; [|split]]]]].
  - intros w request body Hjson Hcall Htoken.
    destruct (bearer_call_reached body Hcall) as [Hn Hl].
    unfold Bearer.POST. rewrite Hjson, bind_lift_Ok, Hn, Hl, Hcall, Htoken.
    reflexivity.
  - intros w request body Hjson Hlist.
    assert (Hn : nullish body = false).
    { destruct (nullish body) eqn:E; [|reflexivity].
      rewrite (prop_nullish _ _ E) in Hlist. discriminate Hlist. }
    unfold Bearer.POST. rewrite Hjson, bind_lift_Ok, Hn, Hlist. reflexivity.
  - intros w request body tool Hjson Hcall Htoken Htool h.
    destruct (bearer_call_reached body Hcall) as [Hn Hl].
    unfold Bearer.POST. rewrite Hjson, bind_lift_Ok, Hn, Hl, Hcall.
    apply String.eqb_neq in Htoken. rewrite Htoken.
    destruct (strictEq_named _ tool Htool) as (-> & -> & -> & ->).
    fold (argumentsOf body). unfold h.
    destruct tool; cbv iota; cbn [bearerHandlerOf];
      match goal with
      | |- context [bind ?m _] => destruct m as [tr [r|e]]
      end; cbn [bind ret tryCatch calls outcome fst snd answerOf];
      rewrite app_nil_r; reflexivity.
  - reflexivity.
  - intros t. unfold Bearer.bearerTokenOf. now rewrite removeFirst_prefix.
  - intros header H. unfold Bearer.bearerTokenOf. now rewrite removeFirst_absent.
  - intros header. unfold Bearer.bearerTokenOf. apply trim_empty.
Qed.

Lemma calls_need_a_token_witness :
  Bearer.POST silentWorld (callWith (Some "Bearer   ") (JStr "no_such_tool") (JObj []))
  = ([], Ok missingToken)
  /\ Bearer.POST silentWorld (callWith (Some "pk_1") (JStr "generate_epics") epicsArgs)
     = ([registryGet silentWorld "pk_1"],
        Ok (internalError
              (Error "Failed to fetch project config: timeout of 600000ms exceeded"))).
Proof.
  split.
  - apply (proj1 calls_need_a_token silentWorld
             (callWith (Some "Bearer   ") (JStr "no_such_tool") (JObj []))
             (JObj [ ("method", JStr "tools/call");
                     ("params", JObj [ ("tool", JStr "no_such_tool");
                                       ("arguments", JObj []) ]) ]));
      reflexivity.
  - apply (proj1 (proj2 (proj2 calls_need_a_token)) silentWorld
             (callWith (Some "pk_1") (JStr "generate_epics") epicsArgs)
             (JObj [ ("method", JStr "tools/call");
                     ("params", JObj [ ("tool", JStr "generate_epics");
                                       ("arguments", epicsArgs) ]) ])
             GenerateEpics); [reflexivity | reflexivity | discriminate | reflexivity].
Defined.


(** ** The two routes side by side *)



(** X19.  The two routes check the arguments of a tool alike.  When a
    handler of the variant stops before the registry, the handler of
    [route.ts] stops on the same arguments with the same error, and makes no
    call either.  When the variant goes on to the registry while [route.ts]
    makes no call, the transformer has thrown on the context: [route.ts]
    finds that out before its request, the variant after the registry has
    been asked. *)
Theorem variant_checks_like_the_route :
  forall tool w args bearerToken,
    (calls (bearerHandlerOf tool w args bearerToken) = [] ->
     handlerOf tool w args = ([], outcome (bearerHandlerOf tool w args bearerToken)))
    /\ (calls (bearerHandlerOf tool w args bearerToken) <> [] ->
        calls (handlerOf tool w args) = [] ->
        exists e, transformProjectContext (prop args "project_context") = Throw e).
Proof.
  intros tool w args bearerToken.
  assert (Hstarted : forall f : JsVal -> Eff ToolResult,
             calls (bind (Bearer.getProjectConfig w bearerToken) f) <> []).
  { intros f. apply calls_bind_started. rewrite getProjectConfig_calls. discriminate. }
  destruct tool; cbn [bearerHandlerOf handlerOf];
    [unfold Bearer.handleGenerateEpics, Route.handleGenerateEpics
    |unfold Bearer.handleGenerateStories, Route.handleGenerateStories
    |unfold Bearer.handleRegenerateEpic, Route.handleRegenerateEpic
    |unfold Bearer.handleRegenerateStory, Route.handleRegenerateStory];
    repeat match goal with
           | |- context [if ?b then _ else _] => destruct b
           end;
    (split;
     [intros H; first [reflexivity | now destruct (Hstarted _ H)]
     |intros H Hroute; first [now destruct H|idtac]]);
    (destruct (transformProjectContext _) as [t|e];
     [rewrite bind_lift_Ok, callService_calls in Hroute; discriminate Hroute
     |exists e; reflexivity]).
Qed.

Lemma variant_checks_like_the_route_witness :
  Route.handleGenerateEpics silentWorld (JObj [ ("project_context", camelContext) ])
  = ([], Throw (Error sectionsMessage)).
Proof.
  apply (proj1 (variant_checks_like_the_route GenerateEpics silentWorld
                  (JObj [ ("project_context", camelContext) ]) "pk_1")).
  reflexivity.
Defined.
